(** * Manus dashboard: task lifecycle, uploads, session state and export

    A shallow embedding of the Python sources
      - [config.py]                  (module [Config]),
      - [scripts/utils.py]           (modules [Utils], [Helpers]),
      - [scripts/file_manager.py]    (modules [FileManager], [FileViews],
                                      [ManageTab]),
      - [scripts/app.py]             (module [App]),
    with the Python values and string methods they use (modules [Py],
    [PyStr]), the [json] functions they call (modules [Json], [JsonCompact])
    and the objects of the remote service (module [Remote]), followed by the
    properties established about them.

    Conventions of the embedding.
      - A Python [str] is a Rocq [string]; a character stands for the code
        point of the same number (0..255).  The literals of the sources that
        hold a character above 255 are display texts: those of the status
        widget are events without text, and the placeholder reply is kept
        as the UTF-8 bytes of its text, which no property reads.
      - A Python [int] is a [Z].
      - A Python [dict] with string keys that is only read is a
        [gmap string value]; a dict whose insertion order is observable
        (it is serialised) is an association list.
      - Remote calls are answered by an explicit environment: a script of
        replies for the polling loop, oracles that see the calls made so far
        for the upload path.
      - A [try ... except Exception] block is a match on the reply. *)

From Stdlib Require Import ZArith List String Ascii Bool Lia.
From Stdlib Require Import DecimalFacts DecimalPos DecimalZ Sorted.
From stdpp Require Import base tactics option list gmap strings.

Set Warnings "-register-all".

Local Open Scope Z_scope.

(* ===================================================================== *)
(** * Python values *)
(* ===================================================================== *)

Module Py.

(** The dynamically typed values that reach the modelled code: entries of
    a metadata map and fields of a conversation message.  Floats are
    outside the model. *)
Inductive value : Type :=
| VNone
| VBool (b : bool)
| VInt (n : Z)
| VStr (s : string)
| VList (l : list value)
| VDict (d : list (string * value)).

(** Exceptions that the modelled code can raise and does not catch. *)
Inductive exn : Type :=
| TypeError
| AttributeError.

(** [bool(s)] for a string. *)
Definition str_truthy (s : string) : bool :=
  match s with
  | EmptyString => false
  | String _ _ => true
  end.

(** [bool(o)] for an [Optional[str]]. *)
Definition opt_str_truthy (o : option string) : bool :=
  match o with
  | None => false
  | Some s => str_truthy s
  end.

(** [n + v] for an [int] left operand: defined on ints and bools
    ([bool] is a subclass of [int]), [TypeError] otherwise. *)
Definition int_add (n : Z) (v : value) : exn + Z :=
  match v with
  | VInt m => inr (n + m)
  | VBool b => inr (n + (if b then 1 else 0))
  | _ => inl TypeError
  end.


(** The one-character string "\n". *)
Definition newline : string := String "010" EmptyString.

(** [str.isspace] on one character, for code points below 256:
    U+0009..U+000D, U+001C..U+001F, U+0020, U+0085 and U+00A0. *)
Definition is_space (c : ascii) : bool :=
  let n := N_of_ascii c in
  ((9 <=? n) && (n <=? 13) || (28 <=? n) && (n <=? 32)
   || (n =? 133) || (n =? 160))%N.

Fixpoint lstrip (s : string) : string :=
  match s with
  | EmptyString => EmptyString
  | String c r => if is_space c then lstrip r else s
  end.

Fixpoint rstrip (s : string) : string :=
  match s with
  | EmptyString => EmptyString
  | String c r =>
      match rstrip r with
      | EmptyString => if is_space c then EmptyString else String c EmptyString
      | r' => String c r'
      end
  end.

(** [s.strip()]. *)
Definition strip (s : string) : string := rstrip (lstrip s).

(** [c.lower()] on one character, for code points below 256. *)
Definition lower_char (c : ascii) : ascii :=
  let n := N_of_ascii c in
  if ((65 <=? n) && (n <=? 90)
      || (192 <=? n) && (n <=? 222) && negb (n =? 215))%N
  then ascii_of_N (n + 32) else c.

Fixpoint lower (s : string) : string :=
  match s with
  | EmptyString => EmptyString
  | String c r => String (lower_char c) (lower r)
  end.

(** [c.upper()] on one character, for code points below 256.  [None]:
    the upper case lies outside the model (code points 181 and 255 map above
    255, 223 maps to two letters). *)
Definition upper_char (c : ascii) : option ascii :=
  let n := N_of_ascii c in
  if ((n =? 181) || (n =? 223) || (n =? 255))%N then None
  else if ((97 <=? n) && (n <=? 122)
           || (224 <=? n) && (n <=? 254) && negb (n =? 247))%N
  then Some (ascii_of_N (n - 32)) else Some c.

Fixpoint upper (s : string) : option string :=
  match s with
  | EmptyString => Some EmptyString
  | String c r =>
      match upper_char c, upper r with
      | Some c', Some r' => Some (String c' r')
      | _, _ => None
      end
  end.

(** [d.get(k)] on a dict kept as an association list. *)
Definition dict_get (k : string) (d : list (string * value)) : option value :=
  snd <$> List.find (fun kv => String.eqb (fst kv) k) d.

(** [sep in s] for a one-character [sep]. *)
Fixpoint contains_char (sep : ascii) (s : string) : bool :=
  match s with
  | EmptyString => false
  | String c r => Ascii.eqb c sep || contains_char sep r
  end.

(** [s.split(sep)[-1]] for a one-character separator: what follows the
    last occurrence of [sep], the whole string when there is none. *)
Fixpoint last_field (sep : ascii) (s : string) : string :=
  match s with
  | EmptyString => EmptyString
  | String c r =>
      if Ascii.eqb c sep || contains_char sep r then last_field sep r else s
  end.

End Py.

(* ===================================================================== *)
(** * config.py *)
(* ===================================================================== *)

Module Config.

Record ManusConfig : Type := {
  base_url : string;
  api_key : option string;
  default_agent_profile : string;
  default_timeout_seconds : Z;
  max_file_size_mb : Z;
  file_expiry_hours : Z;
  supported_file_types : option (list string);
  default_task_limit : Z;
  max_task_limit : Z;
}.

Definition default_supported_file_types : list string :=
  [ "pdf"; "docx"; "doc"; "txt"; "md";
    "csv"; "xlsx"; "xls"; "json";
    "png"; "jpg"; "jpeg"; "gif"; "webp";
    "py"; "js"; "jsx"; "ts"; "tsx"; "html"; "css";
    "zip"; "tar"; "gz" ].

(** The dataclass defaults, before [__post_init__]. *)
Definition field_defaults : ManusConfig := {|
  base_url := "https://api.manus.im";
  api_key := None;
  default_agent_profile := "quality";
  default_timeout_seconds := 300;
  max_file_size_mb := 100;
  file_expiry_hours := 48;
  supported_file_types := None;
  default_task_limit := 50;
  max_task_limit := 100;
|}.

(** [__post_init__]; [getenv] is the value of [MANUS_API_KEY] in the
    environment, if any. *)
Definition post_init (getenv : option string) (c : ManusConfig) : ManusConfig :=
  {| base_url := base_url c;
     api_key := if Py.opt_str_truthy (api_key c) then api_key c else getenv;
     default_agent_profile := default_agent_profile c;
     default_timeout_seconds := default_timeout_seconds c;
     max_file_size_mb := max_file_size_mb c;
     file_expiry_hours := file_expiry_hours c;
     supported_file_types :=
       match supported_file_types c with
       | None => Some default_supported_file_types
       | Some l => Some l
       end;
     default_task_limit := default_task_limit c;
     max_task_limit := max_task_limit c |}.

(** [ManusConfig.validate]. *)
Definition validate (c : ManusConfig) : bool :=
  if negb (Py.opt_str_truthy (api_key c)) then false
  else if (default_timeout_seconds c <? 60) || (default_timeout_seconds c >? 600) then false
  else if (default_task_limit c <? 1) || (default_task_limit c >? max_task_limit c) then false
  else true.

Definition with_timeout (t : Z) (c : ManusConfig) : ManusConfig :=
  {| base_url := base_url c;
     api_key := api_key c;
     default_agent_profile := default_agent_profile c;
     default_timeout_seconds := t;
     max_file_size_mb := max_file_size_mb c;
     file_expiry_hours := file_expiry_hours c;
     supported_file_types := supported_file_types c;
     default_task_limit := default_task_limit c;
     max_task_limit := max_task_limit c |}.

Definition with_api_key (k : option string) (c : ManusConfig) : ManusConfig :=
  {| base_url := base_url c;
     api_key := k;
     default_agent_profile := default_agent_profile c;
     default_timeout_seconds := default_timeout_seconds c;
     max_file_size_mb := max_file_size_mb c;
     file_expiry_hours := file_expiry_hours c;
     supported_file_types := supported_file_types c;
     default_task_limit := default_task_limit c;
     max_task_limit := max_task_limit c |}.

(** An API key is present: the field holds a non-empty string. *)
Definition key_present (c : ManusConfig) : Prop :=
  exists k, api_key c = Some k /\ k <> "".

End Config.

(* ===================================================================== *)
(** * The [json] module of the Python library *)
(* ===================================================================== *)

(** [json.dumps(obj, indent=2)] and [json.loads], as the sources call them
    (default [ensure_ascii], default separators), on the values of
    [Py.value] and on texts as lists of characters. *)
Module Json.
Import Py.

Abbreviation text := (list ascii).

Definition quote : ascii := "034"%char.
Definition backslash : ascii := "092"%char.
Definition lf : ascii := "010"%char.

Definition chars (s : string) : text := list_ascii_of_string s.

(** ** Encoding *)

(** The lower-case hexadecimal digit of a number below 16. *)
Definition hex_digit (n : N) : ascii :=
  if (n <? 10)%N then ascii_of_N (48 + n) else ascii_of_N (87 + n).

(** The replacement of one character inside a string literal: the short
    escapes, the printable ASCII characters as they are, and a [\u00xx]
    escape for every other code point. *)
Definition escape_char (c : ascii) : text :=
  let n := N_of_ascii c in
  if (n =? 34)%N then [backslash; quote]
  else if (n =? 92)%N then [backslash; backslash]
  else if (n =? 10)%N then [backslash; "n"%char]
  else if (n =? 13)%N then [backslash; "r"%char]
  else if (n =? 9)%N then [backslash; "t"%char]
  else if (n =? 8)%N then [backslash; "b"%char]
  else if (n =? 12)%N then [backslash; "f"%char]
  else if (32 <=? n)%N && (n <=? 126)%N then [c]
  else [backslash; "u"%char; "0"%char; "0"%char;
        hex_digit (n / 16); hex_digit (n mod 16)].

Fixpoint escape (s : string) : text :=
  match s with
  | EmptyString => []
  | String c r => escape_char c ++ escape r
  end.

Definition encode_string (s : string) : text := quote :: escape s ++ [quote].

Fixpoint encode_uint (d : Decimal.uint) : text :=
  match d with
  | Decimal.Nil => []
  | Decimal.D0 d => "0"%char :: encode_uint d
  | Decimal.D1 d => "1"%char :: encode_uint d
  | Decimal.D2 d => "2"%char :: encode_uint d
  | Decimal.D3 d => "3"%char :: encode_uint d
  | Decimal.D4 d => "4"%char :: encode_uint d
  | Decimal.D5 d => "5"%char :: encode_uint d
  | Decimal.D6 d => "6"%char :: encode_uint d
  | Decimal.D7 d => "7"%char :: encode_uint d
  | Decimal.D8 d => "8"%char :: encode_uint d
  | Decimal.D9 d => "9"%char :: encode_uint d
  end.

(** [repr] of an [int]. *)
Definition encode_int (n : Z) : text :=
  match Z.to_int n with
  | Decimal.Pos d => encode_uint d
  | Decimal.Neg d => "-"%char :: encode_uint d
  end.

(** A newline followed by the indentation of a nesting level. *)
Definition newline_indent (level : nat) : text :=
  lf :: repeat " "%char (2 * level).

(** The encoder with [indent=2], at a nesting level: the first item of a
    non-empty list or dict follows a newline and the indentation, each later
    one a comma, a newline and the indentation; a key and its value are
    separated by a colon and a space. *)
Fixpoint encode (level : nat) (v : value) : text :=
  match v with
  | VNone => chars "null"
  | VBool true => chars "true"
  | VBool false => chars "false"
  | VInt n => encode_int n
  | VStr s => encode_string s
  | VList [] => chars "[]"
  | VList (x :: xs) =>
      "["%char :: newline_indent (S level) ++ encode (S level) x
      ++ concat (map (fun y => ","%char :: newline_indent (S level)
                               ++ encode (S level) y) xs)
      ++ newline_indent level ++ ["]"%char]
  | VDict [] => chars "{}"
  | VDict (kx :: kxs) =>
      "{"%char :: newline_indent (S level)
      ++ (encode_string (fst kx) ++ chars ": " ++ encode (S level) (snd kx))
      ++ concat (map (fun ky => ","%char :: newline_indent (S level)
                                ++ encode_string (fst ky) ++ chars ": "
                                ++ encode (S level) (snd ky)) kxs)
      ++ newline_indent level ++ ["}"%char]
  end.

(** [json.dumps(obj, indent=2)]. *)
Definition dumps (obj : value) : string := string_of_list_ascii (encode 0 obj).

(** ** Decoding *)

(** The whitespace of the decoder: space, tab, line feed, carriage
    return. *)
Definition is_ws (c : ascii) : bool :=
  let n := N_of_ascii c in
  ((n =? 32) || (n =? 9) || (n =? 10) || (n =? 13))%N.

Fixpoint skip_ws (s : text) : text :=
  match s with
  | c :: r => if is_ws c then skip_ws r else s
  | [] => []
  end.

Definition hex_value (c : ascii) : option N :=
  let n := N_of_ascii c in
  if (48 <=? n)%N && (n <=? 57)%N then Some (n - 48)%N
  else if (97 <=? n)%N && (n <=? 102)%N then Some (n - 87)%N
  else if (65 <=? n)%N && (n <=? 70)%N then Some (n - 55)%N
  else None.

(** The character a one-letter escape stands for. *)
Definition unescape (e : ascii) : option ascii :=
  let n := N_of_ascii e in
  if (n =? 34)%N then Some quote
  else if (n =? 92)%N then Some backslash
  else if (n =? 47)%N then Some "/"%char
  else if (n =? 98)%N then Some "008"%char
  else if (n =? 102)%N then Some "012"%char
  else if (n =? 110)%N then Some "010"%char
  else if (n =? 114)%N then Some "013"%char
  else if (n =? 116)%N then Some "009"%char
  else None.

Definition cons_char (c : ascii) (r : option (string * text))
  : option (string * text) :=
  match r with
  | Some (s, rest) => Some (String c s, rest)
  | None => None
  end.

(** The scanner of a string literal, entered after the opening quote: the
    contents and the text after the closing quote.  [None]: the literal is
    not terminated, holds a raw control character or a bad escape, or names
    a code point above 255 (outside the model). *)
Fixpoint scan_string (s : text) : option (string * text) :=
  match s with
  | [] => None
  | c :: r =>
      if (N_of_ascii c =? 34)%N then Some (EmptyString, r)
      else if (N_of_ascii c =? 92)%N then
        match r with
        | [] => None
        | e :: r1 =>
            if (N_of_ascii e =? 117)%N then
              match r1 with
              | h1 :: h2 :: h3 :: h4 :: r2 =>
                  match hex_value h1, hex_value h2, hex_value h3, hex_value h4 with
                  | Some a, Some b, Some c', Some d =>
                      let n := (((a * 16 + b) * 16 + c') * 16 + d)%N in
                      if (n <? 256)%N then cons_char (ascii_of_N n) (scan_string r2)
                      else None
                  | _, _, _, _ => None
                  end
              | _ => None
              end
            else
              match unescape e with
              | Some ch => cons_char ch (scan_string r1)
              | None => None
              end
        end
      else if (N_of_ascii c <? 32)%N then None
      else cons_char c (scan_string r)
  end.

Definition digit_of (c : ascii) : option (Decimal.uint -> Decimal.uint) :=
  let n := N_of_ascii c in
  if (n =? 48)%N then Some Decimal.D0
  else if (n =? 49)%N then Some Decimal.D1
  else if (n =? 50)%N then Some Decimal.D2
  else if (n =? 51)%N then Some Decimal.D3
  else if (n =? 52)%N then Some Decimal.D4
  else if (n =? 53)%N then Some Decimal.D5
  else if (n =? 54)%N then Some Decimal.D6
  else if (n =? 55)%N then Some Decimal.D7
  else if (n =? 56)%N then Some Decimal.D8
  else if (n =? 57)%N then Some Decimal.D9
  else None.

(** The longest run of digits at the head of a text, and what follows. *)
Fixpoint scan_digits (s : text) : Decimal.uint * text :=
  match s with
  | [] => (Decimal.Nil, [])
  | c :: r =>
      match digit_of c with
      | Some d => let '(ds, rest) := scan_digits r in (d ds, rest)
      | None => (Decimal.Nil, s)
      end
  end.

(** A text that continues a number into a float (or into an error). *)
Definition continues_number (s : text) : bool :=
  match s with
  | c :: _ =>
      let n := N_of_ascii c in ((n =? 46) || (n =? 101) || (n =? 69))%N
  | [] => false
  end.

(** The integer part at the head of a text: an optional minus sign, then
    either a single 0 or a digit from 1 to 9 followed by any digits. *)
Definition scan_integer (s : text) : option (Decimal.int * text) :=
  let '(negative, s1) :=
    match s with
    | c :: r => if (N_of_ascii c =? 45)%N then (true, r) else (false, s)
    | [] => (false, s)
    end in
  let sign := if negative then Decimal.Neg else Decimal.Pos in
  match s1 with
  | [] => None
  | c :: r =>
      if (N_of_ascii c =? 48)%N then Some (sign (Decimal.D0 Decimal.Nil), r)
      else
        match digit_of c with
        | Some _ => let '(ds, rest) := scan_digits s1 in Some (sign ds, rest)
        | None => None
        end
  end.

(** A number.  [None] also for a float, which is outside the model. *)
Definition scan_number (s : text) : option (value * text) :=
  match scan_integer s with
  | Some (i, rest) =>
      if continues_number rest then None else Some (VInt (Z.of_int i), rest)
  | None => None
  end.

(** [dict(pairs)]: a later pair with a key already present replaces the
    value at the key's place. *)
Fixpoint dict_set (d : list (string * value)) (k : string) (v : value)
  : list (string * value) :=
  match d with
  | [] => [(k, v)]
  | (k', v') :: r =>
      if String.eqb k' k then (k', v) :: r else (k', v') :: dict_set r k v
  end.

Definition dict_of_pairs (pairs : list (string * value)) : list (string * value) :=
  fold_left (fun d kv => dict_set d (fst kv) (snd kv)) pairs [].

Definition starts_with (p : string) (s : text) : option text :=
  let n := length (chars p) in
  if bool_decide (take n s = chars p) then Some (drop n s) else None.

(** The recursive-descent decoder.  [scan_value] reads one value at the
    head of the text; [scan_items] reads the items of an array after the
    opening bracket, and [scan_members] the members of an object after the
    opening brace, both entered at the first item.  [fuel] bounds the
    nesting of calls. *)
Fixpoint scan_value (fuel : nat) (s : text) : option (value * text) :=
  match fuel with
  | O => None
  | S fuel =>
      match s with
      | [] => None
      | c :: r =>
          let n := N_of_ascii c in
          if (n =? 34)%N then
            match scan_string r with
            | Some (str, rest) => Some (VStr str, rest)
            | None => None
            end
          else if (n =? 123)%N then
            match skip_ws r with
            | c' :: r' =>
                if (N_of_ascii c' =? 125)%N then Some (VDict [], r')
                else
                  match scan_members fuel (c' :: r') with
                  | Some (pairs, rest) => Some (VDict (dict_of_pairs pairs), rest)
                  | None => None
                  end
            | [] => None
            end
          else if (n =? 91)%N then
            match skip_ws r with
            | c' :: r' =>
                if (N_of_ascii c' =? 93)%N then Some (VList [], r')
                else
                  match scan_items fuel (c' :: r') with
                  | Some (items, rest) => Some (VList items, rest)
                  | None => None
                  end
            | [] => None
            end
          else if (n =? 110)%N then
            match starts_with "null" s with
            | Some rest => Some (VNone, rest)
            | None => None
            end
          else if (n =? 116)%N then
            match starts_with "true" s with
            | Some rest => Some (VBool true, rest)
            | None => None
            end
          else if (n =? 102)%N then
            match starts_with "false" s with
            | Some rest => Some (VBool false, rest)
            | None => None
            end
          else scan_number s
      end
  end
with scan_items (fuel : nat) (s : text) : option (list value * text) :=
  match fuel with
  | O => None
  | S fuel =>
      match scan_value fuel s with
      | None => None
      | Some (v, r) =>
          match skip_ws r with
          | c :: r' =>
              if (N_of_ascii c =? 93)%N then Some ([v], r')
              else if (N_of_ascii c =? 44)%N then
                match scan_items fuel (skip_ws r') with
                | Some (vs, rest) => Some (v :: vs, rest)
                | None => None
                end
              else None
          | [] => None
          end
      end
  end
with scan_members (fuel : nat) (s : text)
  : option (list (string * value) * text) :=
  match fuel with
  | O => None
  | S fuel =>
      match s with
      | c :: r =>
          if (N_of_ascii c =? 34)%N then
            match scan_string r with
            | None => None
            | Some (key, r1) =>
                match skip_ws r1 with
                | c1 :: r2 =>
                    if (N_of_ascii c1 =? 58)%N then
                      match scan_value fuel (skip_ws r2) with
                      | None => None
                      | Some (v, r3) =>
                          match skip_ws r3 with
                          | c3 :: r4 =>
                              if (N_of_ascii c3 =? 125)%N then Some ([(key, v)], r4)
                              else if (N_of_ascii c3 =? 44)%N then
                                match scan_members fuel (skip_ws r4) with
                                | Some (kvs, rest) => Some ((key, v) :: kvs, rest)
                                | None => None
                                end
                              else None
                          | [] => None
                          end
                      end
                    else None
                | [] => None
                end
            end
          else None
      | [] => None
      end
  end.

(** [json.loads]: one value between optional whitespace.  [None] stands
    for [JSONDecodeError], and for a document outside the model (a float,
    a code point above 255). *)
Definition loads (s : string) : option value :=
  let t := chars s in
  match scan_value (S (length t)) (skip_ws t) with
  | Some (v, rest) =>
      match skip_ws rest with
      | [] => Some v
      | _ :: _ => None
      end
  | None => None
  end.

(** ** Values that are Python objects *)

(** The number of constructors of a value. *)
Fixpoint size (v : value) : nat :=
  match v with
  | VList l => S (list_sum (map (fun x => S (size x)) l))
  | VDict d => S (list_sum (map (fun kx => S (size (snd kx))) d))
  | _ => 1
  end.

(** The keys of every dict of the value are pairwise distinct, as they
    are in a Python [dict]. *)
Fixpoint dict_keys_distinct (v : value) : Prop :=
  match v with
  | VList l => foldr (fun x acc => dict_keys_distinct x /\ acc) True l
  | VDict d =>
      NoDup (map fst d)
      /\ foldr (fun kx acc => dict_keys_distinct (snd kx) /\ acc) True d
  | _ => True
  end.

(** A text that does not begin with a digit. *)
Definition no_digit_ahead (s : text) : Prop :=
  match s with
  | [] => True
  | c :: _ => digit_of c = None
  end.

(** A text that is empty or begins with a comma or a line feed: what
    the encoder writes after a value. *)
Definition delimited (s : text) : Prop :=
  match s with
  | [] => True
  | c :: _ => c = ","%char \/ c = lf
  end.

(** A number whose first digit is not 0. *)
Definition leading_digit (d : Decimal.uint) : Prop :=
  match d with
  | Decimal.Nil | Decimal.D0 _ => False
  | _ => True
  end.

(** A character that starts a value: not whitespace, not a closing
    bracket or brace. *)
Definition opens_value (c : ascii) : Prop :=
  is_ws c = false /\ (N_of_ascii c =? 93)%N = false
  /\ (N_of_ascii c =? 125)%N = false.

(** The text of the items after the first, in a list at [level]. *)
Definition more_items (level : nat) (xs : list value) : text :=
  concat (map (fun y => ","%char :: newline_indent (S level)
                        ++ encode (S level) y) xs).

(** The text of the members after the first, in a dict at [level]. *)
Definition more_members (level : nat) (kxs : list (string * value)) : text :=
  concat (map (fun ky => ","%char :: newline_indent (S level)
                         ++ encode_string (fst ky) ++ chars ": "
                         ++ encode (S level) (snd ky)) kxs).

(** The sizes of the items of a list, each counted with its cell. *)
Definition items_size (xs : list value) : nat :=
  list_sum (map (fun x => S (size x)) xs).

Definition members_size (kxs : list (string * value)) : nat :=
  list_sum (map (fun kx => S (size (snd kx))) kxs).

Definition items_distinct (xs : list value) : Prop :=
  foldr (fun x acc => dict_keys_distinct x /\ acc) True xs.

Definition members_distinct (kxs : list (string * value)) : Prop :=
  foldr (fun kx acc => dict_keys_distinct (snd kx) /\ acc) True kxs.

End Json.

(* ===================================================================== *)
(** * scripts/utils.py *)
(* ===================================================================== *)

Module Utils.

(** [extract_file_extension]. *)
Definition extract_file_extension (filename : string) : string :=
  if negb (Py.contains_char "." filename) then ""
  else Py.lower (Py.last_field "." filename).

(** [parse_task_metadata], restricted to the two entries read elsewhere. *)
Definition parse_task_metadata (metadata : gmap string Py.value)
  : Py.value * Py.value :=
  (default (Py.VStr "") (metadata !! "task_url"),
   default (Py.VInt 0) (metadata !! "credit_usage")).

End Utils.

(* ===================================================================== *)
(** * Objects returned by the remote service *)
(* ===================================================================== *)

Module Remote.

(** A content item of an output message.  The code probes the attributes
    [text] and [type] with [hasattr]; [None] stands for an attribute
    that is missing or holds [None]. *)
Record ContentItem : Type := {
  ci_text : option string;
  ci_type : option string;
  ci_fileName : string;
  ci_fileUrl : string;
}.

Record Message : Type := {
  role : string;
  content : list ContentItem;
}.

(** A task snapshot.  [metadata] and [output] are [None] when the object
    has no such attribute. *)
Record Task : Type := {
  id : string;
  status : string;
  metadata : option (gmap string Py.value);
  output : option (list Message);
}.


(** Two content-item shapes of the service. *)
Definition text_item (t : string) : ContentItem :=
  {| ci_text := Some t; ci_type := Some "output_text";
     ci_fileName := ""; ci_fileUrl := "" |}.

Definition output_file_item (name url : string) : ContentItem :=
  {| ci_text := None; ci_type := Some "output_file";
     ci_fileName := name; ci_fileUrl := url |}.

(** What one call of [client.responses.retrieve] yields: a snapshot, or
    an exception (a transport error) with its message. *)
Inductive reply : Type :=
| Snapshot (t : Task)
| TransportError (msg : string).

(** What [client.post("/files", ...)] yields when it does not raise. *)
Record FileRecord : Type := {
  fr_id : string;
  fr_upload_url : string;
}.

(** The calls made on the network by the upload path. *)
Inductive net_call : Type :=
| PostFiles (filename : string)
| PutBytes (url : string) (data : list ascii).

(** The remote side of the upload path.  Each answer may depend on the
    calls made before it.  [None] and [false] stand for a raised
    exception ([raise_for_status] included). *)
Record UploadService : Type := {
  post_files : list net_call -> string -> option FileRecord;
  put_bytes : list net_call -> string -> list ascii -> bool;
}.

End Remote.

(* ===================================================================== *)
(** * scripts/file_manager.py *)
(* ===================================================================== *)

Module FileManager.
Import Remote.

(** A file selected in the upload widget: [file.name], the bytes
    [file.read()] returns, and [file.type]. *)
Record SelectedFile : Type := {
  sf_name : string;
  sf_data : list ascii;
  sf_type : string;
}.

(** [len(file_data)]. *)
Definition size_of (f : SelectedFile) : Z := Z.of_nat (length (sf_data f)).

(** [upload_file_to_manus]: register, then PUT the bytes; any exception
    gives [None].  [hist] is the list of network calls made so far, the
    second component the list after the call. *)
Definition upload_file_to_manus (svc : UploadService) (hist : list net_call)
    (file_data : list ascii) (filename : string)
  : option string * list net_call :=
  let hist1 := hist ++ [PostFiles filename] in
  match post_files svc hist filename with
  | None => (None, hist1)
  | Some file_record =>
      let hist2 := hist1 ++ [PutBytes (fr_upload_url file_record) file_data] in
      if put_bytes svc hist1 (fr_upload_url file_record) file_data
      then (Some (fr_id file_record), hist2)
      else (None, hist2)
  end.

(** One entry of [upload_results]. *)
Record UploadResult : Type := {
  ur_filename : string;
  ur_file_id : option string;
  ur_size : Z;
  ur_timestamp : string;
  ur_status : string;
}.

(** The variables the "Upload All Files" loop updates. *)
Record UploadLoop : Type := {
  ul_calls : list net_call;
  uploaded_count : Z;
  upload_results : list UploadResult;
}.

(** One iteration of the loop; [now] is the clock reading taken in it. *)
Definition upload_all_step (svc : UploadService) (st : UploadLoop)
    (item : SelectedFile * string) : UploadLoop :=
  let '(file, now) := item in
  let file_data := sf_data file in
  let '(file_id, calls) :=
    upload_file_to_manus svc (ul_calls st) file_data (sf_name file) in
  if Py.opt_str_truthy file_id then
    {| ul_calls := calls;
       uploaded_count := uploaded_count st + 1;
       upload_results := upload_results st ++
         [ {| ur_filename := sf_name file; ur_file_id := file_id;
              ur_size := Z.of_nat (length file_data);
              ur_timestamp := now; ur_status := "success" |} ] |}
  else
    {| ul_calls := calls;
       uploaded_count := uploaded_count st;
       upload_results := upload_results st ++
         [ {| ur_filename := sf_name file; ur_file_id := None;
              ur_size := Z.of_nat (length file_data);
              ur_timestamp := now; ur_status := "failed" |} ] |}.

(** The "Upload All Files" handler: the loop over the selected files, each
    paired with the clock reading of its iteration. *)
Definition upload_all_files (svc : UploadService)
    (files : list (SelectedFile * string)) : UploadLoop :=
  fold_left (upload_all_step svc) files
    {| ul_calls := []; uploaded_count := 0; upload_results := [] |}.

(** The registration or the byte upload of [file] fails when attempted
    after the calls [hist]. *)
Definition upload_fails (svc : UploadService) (hist : list net_call)
    (file : SelectedFile) : Prop :=
  match post_files svc hist (sf_name file) with
  | None => True
  | Some file_record =>
      put_bytes svc (hist ++ [PostFiles (sf_name file)])
        (fr_upload_url file_record) (sf_data file) = false
  end.

(** The file names of the registration calls of a log, in order. *)
Definition registrations (calls : list net_call) : list string :=
  omap (fun c => match c with PostFiles n => Some n | PutBytes _ _ => None end)
    calls.

(** The limits of [config.py] as the specification words them: the size
    is at most [max_file_size_mb] megabytes and the extension is in the
    allow-list.  No function of the sources computes this. *)
Definition spec_within_limits (c : Config.ManusConfig) (f : SelectedFile) : bool :=
  (size_of f <=? Config.max_file_size_mb c * 1024 * 1024)
  && bool_decide (Utils.extract_file_extension (sf_name f)
                    ∈ default [] (Config.supported_file_types c)).

End FileManager.

(* ===================================================================== *)
(** * scripts/app.py *)
(* ===================================================================== *)

Module App.
Import Remote.

(** ** Task creation *)

Inductive input_item : Type :=
| InputText (text : string)
| InputFile (file_id : string)
| InputImage (image_url : string).

(** The arguments of [client.responses.create]: the content of the single
    user message and [extra_body]. *)
Record CreateRequest : Type := {
  rq_content : list input_item;
  rq_task_mode : string;
  rq_agent_profile : string;
  rq_timeout_seconds : Z;
  rq_task_id : option string;
}.

(** The request [create_task] assembles. *)
Definition create_request (user_input : string)
    (uploaded_file_ids : option (list string)) (image_url : option string)
    (agent_profile : string) (previous_task_id : option string)
    (timeout_seconds : Z) : CreateRequest :=
  {| rq_content :=
       [InputText user_input]
       ++ match uploaded_file_ids with
          | Some ids => map InputFile ids
          | None => []
          end
       ++ (if Py.opt_str_truthy image_url
           then [InputImage (default "" image_url)] else []);
     rq_task_mode := "agent";
     rq_agent_profile := agent_profile;
     rq_timeout_seconds := timeout_seconds;
     rq_task_id :=
       if Py.opt_str_truthy previous_task_id then previous_task_id else None |}.

(** ** Observable events *)

(** Remote calls, sleeps and what the progress widgets are told.  The
    elapsed-time metric reads the wall clock and is left out.  A message
    whose text is fixed up to the clock reading, and begins with a character
    above 255, is a constructor without text: [ShowSuccess] is
    [status_text.success] ("Task completed in ...s"), [ShowWarning] is
    [status_text.warning] ("Task pending user input"), [ShowTaskError] is
    [status_text.error] of the message "Task encountered an error", each
    after its emoji; [ShowInfo st] is [status_text.info] of the processing
    message that names the status [st].  [ShowError text] is [st.error] or
    [status_text.error] of a text built from an exception. *)
Inductive event : Type :=
| CallCreate (rq : CreateRequest)
| CallRetrieve (task_id : string)
| Sleep (seconds : Z)
| Progress (percent : Z)
| ShowSuccess
| ShowWarning
| ShowInfo (status : string)
| ShowError (text : string)
| ShowTaskError.

(** [create_task]: the request is assembled from the arguments as they
    are and sent; [created] is what [client.responses.create] yields.  An
    exception is shown and gives [None]. *)
Definition create_task (created : reply) (user_input : string)
    (uploaded_file_ids : option (list string)) (image_url : option string)
    (agent_profile : string) (previous_task_id : option string)
    (timeout_seconds : Z) : option Task * list event :=
  let rq := create_request user_input uploaded_file_ids image_url agent_profile
              previous_task_id timeout_seconds in
  match created with
  | Snapshot response => (Some response, [CallCreate rq])
  | TransportError msg =>
      (None, [CallCreate rq; ShowError ("Error creating task: " +:+ msg)])
  end.

(** ** The polling loop *)

(** [Returned r]: the function returned [r].  [StillPolling]: every
    reply of the script was consumed and the loop is at its next
    [retrieve]. *)
Inductive poll_result : Type :=
| Returned (r : option Task)
| StillPolling.

(** The [while True] loop of [poll_task_status], one iteration per reply
    of the script. *)
Fixpoint poll_loop (task_id : string) (poll_count : Z) (script : list reply)
  : poll_result * list event :=
  match script with
  | [] => (StillPolling, [])
  | TransportError msg :: _ =>
      (Returned None,
       [CallRetrieve task_id; ShowError ("Error checking status: " +:+ msg)])
  | Snapshot task_update :: rest =>
      let current_status := status task_update in
      if String.eqb current_status "completed" then
        (Returned (Some task_update),
         [CallRetrieve task_id; Progress 100; ShowSuccess])
      else if String.eqb current_status "error" then
        (Returned (Some task_update),
         [CallRetrieve task_id; Progress 100; ShowTaskError])
      else if String.eqb current_status "pending" then
        (Returned (Some task_update),
         [CallRetrieve task_id; Progress 75; ShowWarning])
      else
        let progress := Z.min (50 + poll_count * 2) 95 in
        let '(r, evs) := poll_loop task_id (poll_count + 1) rest in
        (r, [CallRetrieve task_id; Progress progress;
             ShowInfo current_status; Sleep 3] ++ evs)
  end.

(** [poll_task_status]: the progress bar is created at 0, then the loop
    runs with [poll_count = 0]. *)
Definition poll_task_status (task_id : string) (script : list reply)
  : poll_result * list event :=
  let '(r, evs) := poll_loop task_id 0 script in
  (r, Progress 0 :: evs).

(** The task identifiers of the [retrieve] calls of a log, in order. *)
Definition retrievals (evs : list event) : list string :=
  omap (fun e => match e with CallRetrieve i => Some i | _ => None end) evs.

(** The durations of the sleeps of a log, in order. *)
Definition sleeps (evs : list event) : list Z :=
  omap (fun e => match e with Sleep n => Some n | _ => None end) evs.

(** The statuses on which the loop returns the snapshot. *)
Definition stops_polling (st : string) : bool :=
  String.eqb st "completed" || String.eqb st "error" || String.eqb st "pending".

#[global] Instance stops_polling_dec (t : Task) :
  Decision (stops_polling (status t) = true).
Proof. solve_decision. Defined.

(** ** Extraction of the reply *)

(** One iteration of the inner loop over [message.content]; the pair is
    ([assistant_text], [output_files]). *)
Definition extract_item (acc : string * list string) (content_item : ContentItem)
  : string * list string :=
  let '(assistant_text, output_files) := acc in
  if Py.opt_str_truthy (ci_text content_item) then
    (assistant_text +:+ default "" (ci_text content_item) +:+ Py.newline,
     output_files)
  else if bool_decide (ci_type content_item = Some "output_file") then
    (assistant_text, output_files ++ [ci_fileName content_item])
  else acc.

(** One iteration of the outer loop over [completed_task.output]. *)
Definition extract_message (acc : string * list string) (message : Message)
  : string * list string :=
  if String.eqb (role message) "assistant"
  then fold_left extract_item (content message) acc
  else acc.

(** The extraction loop of the chat handler. *)
Definition extract_output (completed_task : Task) : string * list string :=
  match output completed_task with
  | Some out => fold_left extract_message out ("", [])
  | None => ("", [])
  end.

(** The text stored when nothing was extracted.  The source begins it
    with the check mark U+2705, a character above 255: the string here holds
    the three UTF-8 bytes of that character instead, so it is two characters
    longer than the text of the source.  The properties use it by name
    only. *)
Definition completed_placeholder : string := "✅ Task completed successfully".

(** The [content] entry of the stored assistant message. *)
Definition reply_content (assistant_text : string) : string :=
  if Py.str_truthy assistant_text then Py.strip assistant_text
  else completed_placeholder.

(** ** Session state *)

(** A conversation message: a dict built entry by entry and later
    serialised, so its keys are kept in insertion order. *)
Definition message : Type := list (string * Py.value).

(** A list object holding messages is named by its address in the
    store: [st.session_state.messages] and the ['messages'] entry of a
    history record may name the same object. *)
Abbreviation loc := nat.

(** An entry of [st.session_state.uploaded_files]. *)
Record StagedFile : Type := {
  uf_id : string;
  uf_name : string;
  uf_size : Z;
  uf_type : string;
}.

(** An entry of [st.session_state.conversation_history]. *)
Record Conversation : Type := {
  conv_timestamp : string;
  conv_messages : loc;
  conv_task_count : Z;
  conv_credits_used : Z;
}.

(** [st.session_state], with the store of message-list objects. *)
Record SessionState : Type := {
  messages : loc;
  current_task_id : option string;
  uploaded_files : list StagedFile;
  conversation_history : list Conversation;
  total_credits_used : Z;
  task_count : Z;
  api_key : string;
  store : list (list message);
}.

(** The state after the initialisation block at the top of the script. *)
Definition initial_state : SessionState :=
  {| messages := 0%nat; current_task_id := None; uploaded_files := [];
     conversation_history := []; total_credits_used := 0; task_count := 0;
     api_key := ""; store := [[]] |}.

(** The list an address names. *)
Definition deref (s : SessionState) (l : loc) : list message :=
  default [] (store s !! l).

(** [st.session_state.messages.append(m)]: the object is updated in
    place, for every name it has. *)
Definition append_message (m : message) (s : SessionState) : SessionState :=
  {| messages := messages s; current_task_id := current_task_id s;
     uploaded_files := uploaded_files s;
     conversation_history := conversation_history s;
     total_credits_used := total_credits_used s; task_count := task_count s;
     api_key := api_key s;
     store := alter (fun l => l ++ [m]) (messages s) (store s) |}.

Definition set_uploaded_files (fs : list StagedFile) (s : SessionState)
  : SessionState :=
  {| messages := messages s; current_task_id := current_task_id s;
     uploaded_files := fs;
     conversation_history := conversation_history s;
     total_credits_used := total_credits_used s; task_count := task_count s;
     api_key := api_key s; store := store s |}.

Definition set_messages (l : loc) (s : SessionState) : SessionState :=
  {| messages := l; current_task_id := current_task_id s;
     uploaded_files := uploaded_files s;
     conversation_history := conversation_history s;
     total_credits_used := total_credits_used s; task_count := task_count s;
     api_key := api_key s; store := store s |}.

Definition set_current_task_id (i : option string) (s : SessionState)
  : SessionState :=
  {| messages := messages s; current_task_id := i;
     uploaded_files := uploaded_files s;
     conversation_history := conversation_history s;
     total_credits_used := total_credits_used s; task_count := task_count s;
     api_key := api_key s; store := store s |}.

Definition set_task_count (n : Z) (s : SessionState) : SessionState :=
  {| messages := messages s; current_task_id := current_task_id s;
     uploaded_files := uploaded_files s;
     conversation_history := conversation_history s;
     total_credits_used := total_credits_used s; task_count := n;
     api_key := api_key s; store := store s |}.

Definition set_total_credits_used (n : Z) (s : SessionState) : SessionState :=
  {| messages := messages s; current_task_id := current_task_id s;
     uploaded_files := uploaded_files s;
     conversation_history := conversation_history s;
     total_credits_used := n; task_count := task_count s;
     api_key := api_key s; store := store s |}.

Definition set_api_key (k : string) (s : SessionState) : SessionState :=
  {| messages := messages s; current_task_id := current_task_id s;
     uploaded_files := uploaded_files s;
     conversation_history := conversation_history s;
     total_credits_used := total_credits_used s; task_count := task_count s;
     api_key := k; store := store s |}.

(** Allocation of a new list object with the given contents; the result
    is its address and the state that holds it. *)
Definition alloc (l : list message) (s : SessionState) : loc * SessionState :=
  (length (store s),
   {| messages := messages s; current_task_id := current_task_id s;
      uploaded_files := uploaded_files s;
      conversation_history := conversation_history s;
      total_credits_used := total_credits_used s; task_count := task_count s;
      api_key := api_key s; store := store s ++ [l] |}).

(** [save_conversation_to_history]; [now] is the clock reading. *)
Definition save_conversation_to_history (now : string) (s : SessionState)
  : SessionState :=
  match deref s (messages s) with
  | [] => s
  | _ :: _ =>
      let '(copy, s1) := alloc (deref s (messages s)) s in
      let conversation :=
        {| conv_timestamp := now; conv_messages := copy;
           conv_task_count := task_count s;
           conv_credits_used := total_credits_used s |} in
      {| messages := messages s1; current_task_id := current_task_id s1;
         uploaded_files := uploaded_files s1;
         conversation_history := conversation_history s1 ++ [conversation];
         total_credits_used := total_credits_used s1;
         task_count := task_count s1;
         api_key := api_key s1; store := store s1 |}
  end.

(** The "New Chat" button. *)
Definition new_chat (now : string) (s : SessionState) : SessionState :=
  let s1 := save_conversation_to_history now s in
  let '(fresh, s2) := alloc [] s1 in
  set_uploaded_files [] (set_current_task_id None (set_messages fresh s2)).

(** The "Load" button of the [idx]-th entry of the reversed history: the
    session's message list becomes the very list object of that entry.
    There is no such button when [idx] is out of range. *)
Definition load_conversation (now : string) (idx : nat) (s : SessionState)
  : SessionState :=
  match reverse (conversation_history s) !! idx with
  | None => s
  | Some conv =>
      set_messages (conv_messages conv) (save_conversation_to_history now s)
  end.

(** The "Clear Files" button. *)
Definition clear_files (s : SessionState) : SessionState :=
  set_uploaded_files [] s.

(** ** The sidebar upload handler *)

(** The values of the sidebar widgets read by the handlers. *)
Record Widgets : Type := {
  w_api_key : string;
  w_agent_profile : string;
  w_timeout_seconds : Z;
}.

(** [upload_file_to_manus] of this script (the same code as in
    [file_manager.py]). *)
Definition upload_file_to_manus (svc : UploadService) (hist : list net_call)
    (file_data : list ascii) (filename : string)
  : option string * list net_call :=
  let hist1 := hist ++ [PostFiles filename] in
  match post_files svc hist filename with
  | None => (None, hist1)
  | Some file_record =>
      let hist2 := hist1 ++ [PutBytes (fr_upload_url file_record) file_data] in
      if put_bytes svc hist1 (fr_upload_url file_record) file_data
      then (Some (fr_id file_record), hist2)
      else (None, hist2)
  end.

(** One iteration of the "Process All Uploads" loop. *)
Definition process_upload_step (svc : UploadService)
    (st : list net_call * SessionState) (file : FileManager.SelectedFile)
  : list net_call * SessionState :=
  let '(calls, s) := st in
  let file_data := FileManager.sf_data file in
  let '(file_id, calls1) :=
    upload_file_to_manus svc calls file_data (FileManager.sf_name file) in
  if Py.opt_str_truthy file_id then
    (calls1,
     set_uploaded_files
       (uploaded_files s ++
          [ {| uf_id := default "" file_id;
               uf_name := FileManager.sf_name file;
               uf_size := Z.of_nat (length file_data);
               uf_type := FileManager.sf_type file |} ]) s)
  else (calls1, s).

(** The "Process All Uploads" button: shown when files are selected and
    an API key is entered. *)
Definition process_all_uploads (w : Widgets) (svc : UploadService)
    (files : list FileManager.SelectedFile) (s : SessionState)
  : list net_call * SessionState :=
  match files with
  | [] => ([], s)
  | _ :: _ =>
      if Py.str_truthy (w_api_key w)
      then fold_left (process_upload_step svc) files ([], set_uploaded_files [] s)
      else ([], s)
  end.

(** ** The chat handler *)

(** What the environment supplies to one run of the chat handler. *)
Record ChatEnv : Type := {
  ce_now_sent : string;          (* clock reading for the user message *)
  ce_created : reply;            (* the answer of [responses.create] *)
  ce_replies : list reply;       (* the successive [responses.retrieve] *)
  ce_now_done : string;          (* clock reading for the assistant message *)
}.

(** How a run of the script ends, with the session state it leaves:
    [st.rerun()], the end of the script, an uncaught exception, or a
    polling loop that has consumed every scripted reply. *)
Inductive outcome : Type :=
| Rerun (s : SessionState)
| Finished (s : SessionState)
| Raised (e : Py.exn) (s : SessionState)
| Polling (s : SessionState).

Definition state_of (o : outcome) : SessionState :=
  match o with
  | Rerun s | Finished s | Raised _ s | Polling s => s
  end.

(** The dict [user_message]. *)
Definition user_message (user_input now : string) (staged : list StagedFile)
  : message :=
  [ ("role", Py.VStr "user"); ("content", Py.VStr user_input);
    ("timestamp", Py.VStr now) ]
  ++ match staged with
     | [] => []
     | _ :: _ => [ ("files", Py.VList (map (fun f => Py.VStr (uf_name f)) staged)) ]
     end.

(** The dict [assistant_message]. *)
Definition assistant_message (assistant_text : string) (task_url credits_used : Py.value)
    (now : string) (output_files : list string) : message :=
  [ ("role", Py.VStr "assistant");
    ("content", Py.VStr (reply_content assistant_text));
    ("task_url", task_url);
    ("credits", credits_used);
    ("timestamp", Py.VStr now) ]
  ++ match output_files with
     | [] => []
     | _ :: _ => [ ("output_files", Py.VList (map Py.VStr output_files)) ]
     end.

(** The part of the chat handler that follows a truthy [completed_task]:
    extraction, credit tracking, the assistant message, clearing of the
    staged files, rerun.  (The rendering by [display_task_output] leaves
    the state alone and is not modelled.) *)
Definition record_completion (now : string) (task_url : Py.value)
    (completed_task : Task) (s : SessionState) : outcome :=
  let '(assistant_text, output_files) := extract_output completed_task in
  let tracked :=
    match metadata completed_task with
    | Some md =>
        let credits_used := default (Py.VInt 0) (md !! "credit_usage") in
        match Py.int_add (total_credits_used s) credits_used with
        | inl e => inl e
        | inr total => inr (credits_used, set_total_credits_used total s)
        end
    | None => inr (Py.VInt 0, s)
    end in
  match tracked with
  | inl e => Raised e s
  | inr (credits_used, s1) =>
      let m := assistant_message assistant_text task_url credits_used
                 now output_files in
      Rerun (set_uploaded_files [] (append_message m s1))
  end.

(** The state once the user message is stored. *)
Definition after_send (env : ChatEnv) (user_input : string) (s : SessionState)
  : SessionState :=
  append_message (user_message user_input (ce_now_sent env) (uploaded_files s)) s.

(** The state once the task is created and counted. *)
Definition after_create (response : Task) (s : SessionState) : SessionState :=
  set_task_count (task_count s + 1)
    (set_current_task_id (Some (id response)) s).

(** One run of the script in which the user sent [user_input]. *)
Definition chat_turn (w : Widgets) (env : ChatEnv) (user_input : string)
    (s : SessionState) : outcome * list event :=
  if negb (Py.str_truthy (w_api_key w)) then (Finished s, [])
  else if negb (Py.str_truthy user_input) then (Finished s, [])
  else
    let s1 := after_send env user_input s in
    let file_ids := map uf_id (uploaded_files s1) in
    let rq :=
      create_request user_input
        (match file_ids with [] => None | _ :: _ => Some file_ids end)
        None (w_agent_profile w) (current_task_id s1) (w_timeout_seconds w) in
    match ce_created env with
    | TransportError msg =>
        (Finished s1, [CallCreate rq; ShowError ("Error creating task: " +:+ msg)])
    | Snapshot response =>
        let s2 := after_create response s1 in
        match metadata response with
        | None => (Raised Py.AttributeError s2, [CallCreate rq])
        | Some md =>
            let task_url := default (Py.VStr "") (md !! "task_url") in
            let '(polled, evs) := poll_task_status (id response) (ce_replies env) in
            match polled with
            | StillPolling => (Polling s2, CallCreate rq :: evs)
            | Returned None => (Finished s2, CallCreate rq :: evs)
            | Returned (Some completed_task) =>
                (record_completion (ce_now_done env) task_url completed_task s2,
                 CallCreate rq :: evs)
            end
        end
    end.

(** The file identifiers a request attaches, in order. *)
Definition attached (rq : CreateRequest) : list string :=
  omap (fun i => match i with InputFile f => Some f | _ => None end)
    (rq_content rq).

(** ** Sessions *)

(** The user actions that change the session state. *)
Inductive action : Type :=
| Chat (w : Widgets) (env : ChatEnv) (user_input : string)
| NewChat (now : string)
| LoadConversation (now : string) (idx : nat)
| ClearFiles
| ProcessUploads (w : Widgets) (svc : UploadService)
    (files : list FileManager.SelectedFile)
| SaveApiKey (k : string).

(** The session state one action leaves. *)
Definition perform (s : SessionState) (a : action) : SessionState :=
  match a with
  | Chat w env user_input => state_of (fst (chat_turn w env user_input s))
  | NewChat now => new_chat now s
  | LoadConversation now idx => load_conversation now idx s
  | ClearFiles => clear_files s
  | ProcessUploads w svc files => snd (process_all_uploads w svc files s)
  | SaveApiKey k => set_api_key k s
  end.

(** The session state after a sequence of actions. *)
Definition run_session (acts : list action) : SessionState :=
  fold_left perform acts initial_state.

(** ** Export *)

(** [str(v)] as an f-string inserts it; the [repr] of a list or a dict
    is outside the model. *)
Definition format_value (v : Py.value) : option string :=
  match v with
  | Py.VStr s => Some s
  | Py.VInt n => Some (string_of_list_ascii (Json.encode_int n))
  | Py.VNone => Some "None"
  | Py.VBool true => Some "True"
  | Py.VBool false => Some "False"
  | Py.VList _ | Py.VDict _ => None
  end.

(** [msg['role'].upper()]: defined when the entry is a string (and its
    upper case is within the model). *)
Definition upper_role (msg : message) : option string :=
  match Py.dict_get "role" msg with
  | Some (Py.VStr r) => Py.upper r
  | _ => None
  end.

(** One iteration of the markdown loop. *)
Definition markdown_step (acc : option string) (msg : message) : option string :=
  md_content ← acc;
  role ← upper_role msg;
  content ← Py.dict_get "content" msg ≫= format_value;
  timestamp ← format_value (default (Py.VStr "") (Py.dict_get "timestamp" msg));
  Some (md_content +:+ "## " +:+ role +:+ Py.newline +:+ "*" +:+ timestamp
        +:+ "*" +:+ Py.newline +:+ Py.newline +:+ content +:+ Py.newline
        +:+ Py.newline +:+ "---" +:+ Py.newline +:+ Py.newline).

(** One iteration of the plain-text loop. *)
Definition txt_step (acc : option string) (msg : message) : option string :=
  txt_content ← acc;
  role ← upper_role msg;
  content ← Py.dict_get "content" msg ≫= format_value;
  Some (txt_content +:+ role +:+ ": " +:+ content +:+ Py.newline +:+ Py.newline).

(** [export_conversation_history].  [None]: the function raises (a
    message lacks a key the format reads) or leaves the model. *)
Definition export_conversation_history (messages : list message)
    (format : string) : option string :=
  if String.eqb format "json" then
    Some (Json.dumps (Py.VList (map Py.VDict messages)))
  else if String.eqb format "markdown" then
    fold_left markdown_step messages
      (Some ("# Manus AI Conversation History" +:+ Py.newline +:+ Py.newline))
  else if String.eqb format "txt" then
    fold_left txt_step messages (Some "")
  else Some "".

(** The role and the content of a message. *)
Definition role_content (msg : message) : option Py.value * option Py.value :=
  (Py.dict_get "role" msg, Py.dict_get "content" msg).

(** The roles and contents of a parsed export: of each object of the
    array, in order. *)
Definition parsed_role_contents (parsed : Py.value)
  : list (option Py.value * option Py.value) :=
  match parsed with
  | Py.VList items =>
      map (fun item => match item with
                       | Py.VDict d => role_content d
                       | _ => (None, None)
                       end) items
  | _ => []
  end.

(** A message whose dicts, at every depth, have pairwise distinct keys. *)
Definition well_formed_message (msg : message) : Prop :=
  Json.dict_keys_distinct (Py.VDict msg).

(** ** The extraction as the specification words it *)

(** The content items of the assistant-role messages, in order. *)
Definition assistant_items (out : list Message) : list ContentItem :=
  concat (map content (filter (fun m => role m = "assistant") out)).

(** Every text of a list of items. *)
Definition spec_texts (items : list ContentItem) : list string :=
  omap ci_text items.

(** The file name of every [output_file] item. *)
Definition spec_files (items : list ContentItem) : list string :=
  omap (fun c => if bool_decide (ci_type c = Some "output_file")
                 then Some (ci_fileName c) else None) items.

(** The newline-joined texts of the assistant messages. *)
Definition spec_reply (out : list Message) : string :=
  String.concat Py.newline (spec_texts (assistant_items out)).

(** ** The extraction as the loop computes it *)

(** The texts the loop appends: those that are not empty. *)
Definition kept_texts (items : list ContentItem) : list string :=
  omap (fun c => if Py.opt_str_truthy (ci_text c) then ci_text c else None) items.

(** The file names the loop appends: those of the [output_file] items
    that carry no text. *)
Definition kept_files (items : list ContentItem) : list string :=
  omap (fun c => if Py.opt_str_truthy (ci_text c) then None
                 else if bool_decide (ci_type c = Some "output_file")
                      then Some (ci_fileName c) else None) items.

(** Each text followed by a newline, concatenated. *)
Definition terminated_lines (texts : list string) : string :=
  foldr (fun t acc => t +:+ Py.newline +:+ acc) "" texts.

(** An item of one of the variants of the data model: a text, or an
    output file without text, or an item that is neither. *)
Definition variant_item (c : ContentItem) : Prop :=
  match ci_text c with
  | Some _ => ci_type c <> Some "output_file"
  | None => True
  end.


(** The snapshots among the replies of a script. *)
Definition snapshots (script : list reply) : list Task :=
  omap (fun r => match r with Snapshot t => Some t | TransportError _ => None end)
    script.


(** An action other than a chat turn. *)
Definition is_chat (a : action) : bool :=
  match a with Chat _ _ _ => true | _ => false end.

(** Every saved conversation holds at least one message. *)
Definition history_nonempty (s : SessionState) : Prop :=
  Forall (fun conv => deref s (conv_messages conv) <> [])
    (conversation_history s).

(** A state that has the history of [s] and no list of [s] emptied. *)
Definition extends (s s' : SessionState) : Prop :=
  conversation_history s' = conversation_history s
  /\ forall l, deref s l <> [] -> deref s' l <> [].


End App.

(* ===================================================================== *)
(** * More string methods *)
(* ===================================================================== *)

Module PyStr.
Import Py.

(** [len(s)]. *)
Definition len (s : string) : Z := Z.of_nat (String.length s).

(** [s[:k]]: the first [k] characters, counted from the end when [k] is
    negative. *)
Definition slice_to (k : Z) (s : string) : string :=
  String.substring 0 (Z.to_nat (if 0 <=? k then k else len s + k)) s.

(** [s.replace(old, new)] for one-character [old] and [new]. *)
Fixpoint replace_char (old new : ascii) (s : string) : string :=
  match s with
  | EmptyString => EmptyString
  | String c r =>
      String (if Ascii.eqb c old then new else c) (replace_char old new r)
  end.

(** [c in s] for a character [c] of a list. *)
Definition char_in (c : ascii) (l : list ascii) : bool :=
  existsb (Ascii.eqb c) l.

(** [needle in hay]: [needle] occurs in [hay] as a substring. *)
Fixpoint contains (needle hay : string) : bool :=
  String.prefix needle hay
  || match hay with
     | EmptyString => false
     | String _ r => contains needle r
     end.

(** The loop of [s.split()]: [cur] is the word being read, last character
    first. *)
Fixpoint split_go (cur : list ascii) (s : string) : list string :=
  match s with
  | EmptyString =>
      match cur with
      | [] => []
      | _ :: _ => [string_of_list_ascii (rev cur)]
      end
  | String c r =>
      if is_space c then
        match cur with
        | [] => split_go [] r
        | _ :: _ => string_of_list_ascii (rev cur) :: split_go [] r
        end
      else split_go (c :: cur) r
  end.

(** [s.split()]: the maximal runs of characters that are not whitespace. *)
Definition split (s : string) : list string := split_go [] s.

(** No character of the string is whitespace. *)
Fixpoint no_space (s : string) : bool :=
  match s with
  | EmptyString => true
  | String c r => negb (is_space c) && no_space r
  end.

End PyStr.

(* ===================================================================== *)
(** * [json.dumps] without [indent] *)
(* ===================================================================== *)

Module JsonCompact.
Import Py Json.

(** The encoder with the default separators: items are separated by a
    comma and a space, a key and its value by a colon and a space. *)
Fixpoint encode (v : value) : text :=
  match v with
  | VNone => chars "null"
  | VBool true => chars "true"
  | VBool false => chars "false"
  | VInt n => encode_int n
  | VStr s => encode_string s
  | VList [] => chars "[]"
  | VList (x :: xs) =>
      "["%char :: encode x
      ++ concat (map (fun y => chars ", " ++ encode y) xs)
      ++ ["]"%char]
  | VDict [] => chars "{}"
  | VDict (kx :: kxs) =>
      "{"%char :: (encode_string (fst kx) ++ chars ": " ++ encode (snd kx))
      ++ concat (map (fun ky => chars ", " ++ encode_string (fst ky)
                                ++ chars ": " ++ encode (snd ky)) kxs)
      ++ ["}"%char]
  end.

(** [json.dumps(obj)]. *)
Definition dumps (obj : value) : string := string_of_list_ascii (encode obj).

(** The text of the items after the first. *)
Definition more_items (xs : list value) : text :=
  concat (map (fun y => chars ", " ++ encode y) xs).

(** The text of the members after the first. *)
Definition more_members (kxs : list (string * value)) : text :=
  concat (map (fun ky => chars ", " ++ encode_string (fst ky)
                         ++ chars ": " ++ encode (snd ky)) kxs).

(** A text that is empty or begins with a comma, a closing bracket or a
    closing brace: what this encoder writes after a value. *)
Definition closed (s : text) : Prop :=
  match s with
  | [] => True
  | c :: _ => c = ","%char \/ c = "]"%char \/ c = "}"%char
  end.

End JsonCompact.

(* ===================================================================== *)
(** * scripts/utils.py, the other helpers *)
(* ===================================================================== *)

Module Helpers.
Import Py.

(** [truncate_string]. *)
Definition truncate_string (text : string) (max_length : Z) : string :=
  if PyStr.len text <=? max_length then text
  else PyStr.slice_to (max_length - 3) text +:+ "...".

Definition image_extensions : list string :=
  ["png"; "jpg"; "jpeg"; "gif"; "webp"; "bmp"; "svg"].

Definition document_extensions : list string :=
  ["pdf"; "docx"; "doc"; "txt"; "md"; "rtf"].

Definition code_extensions : list string :=
  ["py"; "js"; "jsx"; "ts"; "tsx"; "html"; "css"; "json"; "xml"; "yaml"; "yml"].

(** [is_image_file]. *)
Definition is_image_file (filename : string) : bool :=
  bool_decide (Utils.extract_file_extension filename ∈ image_extensions).

(** [is_document_file]. *)
Definition is_document_file (filename : string) : bool :=
  bool_decide (Utils.extract_file_extension filename ∈ document_extensions).

(** [is_code_file]. *)
Definition is_code_file (filename : string) : bool :=
  bool_decide (Utils.extract_file_extension filename ∈ code_extensions).

(** The characters [sanitize_filename] replaces: less-than, greater-than,
    colon, double quote, slash, backslash, bar, question mark, star. *)
Definition invalid_chars : list ascii :=
  ["<"; ">"; ":"; "034"; "/"; "092"; "|"; "?"; "*"]%char.

(** [sanitize_filename]. *)
Definition sanitize_filename (filename : string) : string :=
  fold_left (fun name char => PyStr.replace_char char "_"%char name)
    invalid_chars filename.

Inductive arith_error : Type := ZeroDivisionError.

(** [estimate_reading_time]; [inl] is the [ZeroDivisionError] of a zero
    [words_per_minute]. *)
Definition estimate_reading_time (text : string) (words_per_minute : Z)
  : arith_error + Z :=
  let word_count := Z.of_nat (length (PyStr.split text)) in
  if words_per_minute =? 0 then inl ZeroDivisionError
  else inr (Z.max 1 (word_count / words_per_minute)).

(** One entry of the list [merged] of [merge_conversation_messages]: the
    role defaults to [unknown], the content to the empty string.  [None]:
    the role is not a string (it has no [upper]), or the line leaves the
    model. *)
Definition merge_line (msg : App.message) : option string :=
  role ← match default (VStr "unknown") (dict_get "role" msg) with
          | VStr r => upper r
          | _ => None
          end;
  content ← App.format_value (default (VStr "") (dict_get "content" msg));
  Some (role +:+ ": " +:+ content).

(** [merge_conversation_messages]. *)
Definition merge_conversation_messages (messages : list App.message)
  : option string :=
  String.concat (newline +:+ newline) <$> mapM merge_line messages.

(** [export_to_json], on values that [json] serialises by itself (the
    [default=str] fallback is then never called). *)
Definition export_to_json (data : value) (pretty : bool) : string :=
  if pretty then Json.dumps data else JsonCompact.dumps data.

(** [parse_search_query]. *)
Definition parse_search_query (query : string) : list string :=
  map (fun term => lower (strip term))
    (filter (fun term => str_truthy (strip term) = true) (PyStr.split query)).

(** [match_search_query]. *)
Definition match_search_query (text : string) (query_terms : list string) : bool :=
  let text_lower := lower text in
  forallb (fun term => PyStr.contains term text_lower) query_terms.

End Helpers.

(* ===================================================================== *)
(** * scripts/file_manager.py, analytics *)
(* ===================================================================== *)

Module FileViews.
Import Py.

(** A file object of [client.files.list()].  [rf_status] is [None] when
    the object has no [status] attribute. *)
Record RemoteFile : Type := {
  rf_id : string;
  rf_filename : string;
  rf_status : option string;
  rf_created_at : Z;
}.

(** [d[k] = d.get(k, 0) + 1]. *)
Definition tally `{Countable K} (k : K) (d : gmap K Z) : gmap K Z :=
  <[k := default 0 (d !! k) + 1]> d.

(** [getattr(file, 'status', 'unknown')]. *)
Definition status_of (file : RemoteFile) : string :=
  default "unknown" (rf_status file).

(** The extension the analysis counts a file under. *)
Definition type_of (file : RemoteFile) : string :=
  if contains_char "."%char (rf_filename file)
  then lower (last_field "."%char (rf_filename file))
  else "other".

(** The dict [analysis]. *)
Record Analysis : Type := {
  total_files : Z;
  by_status : gmap string Z;
  by_type : gmap string Z;
  total_size : Z;
  files_by_date : gmap Z Z;
}.

(** One iteration of the loop of [analyze_files]; [date_of] turns a
    timestamp into its local calendar day. *)
Definition analyze_step (date_of : Z -> Z) (analysis : Analysis)
    (file : RemoteFile) : Analysis :=
  {| total_files := total_files analysis;
     by_status := tally (status_of file) (by_status analysis);
     by_type := tally (type_of file) (by_type analysis);
     total_size := total_size analysis;
     files_by_date := tally (date_of (rf_created_at file)) (files_by_date analysis) |}.

(** [analyze_files]; [None] is the empty dict returned for no files. *)
Definition analyze_files (date_of : Z -> Z) (files : list RemoteFile)
  : option Analysis :=
  match files with
  | [] => None
  | _ :: _ =>
      Some (fold_left (analyze_step date_of) files
              {| total_files := Z.of_nat (length files); by_status := ∅;
                 by_type := ∅; total_size := 0; files_by_date := ∅ |})
  end.

(** The number of elements of a list that a key function sends to [k]. *)
Definition occurrences `{EqDecision K} {A} (key : A -> K) (k : K) (l : list A) : Z :=
  Z.of_nat (length (filter (fun x => key x = k) l)).

End FileViews.

(* ===================================================================== *)
(** * scripts/file_manager.py, the list of the "Manage Files" tab *)
(* ===================================================================== *)

Module ManageTab.
Import Py FileViews.

(** [sorted(l, key=..., reverse=...)] is the stable sort.  [before x y]
    says that [x], which comes earlier in the input, is put before [y]:
    its key is at most the key of [y], or at least that key when [reverse]
    is set. *)
Fixpoint insert_by {A} (before : A -> A -> bool) (x : A) (l : list A) : list A :=
  match l with
  | [] => [x]
  | y :: r => if before x y then x :: l else y :: insert_by before x r
  end.

Definition sorted_by {A} (before : A -> A -> bool) (l : list A) : list A :=
  foldr (insert_by before) [] l.

(** The search filter, applied when the search box is not empty. *)
Definition search_step (search_query : string) (files : list RemoteFile)
  : list RemoteFile :=
  if str_truthy search_query
  then filter (fun f => PyStr.contains (lower search_query)
                          (lower (rf_filename f)) = true) files
  else files.

(** [[f for f in files if f.status in status_filter]]; [None]: a file has
    no [status] attribute and the comprehension raises. *)
Fixpoint keep_status (status_filter : list string) (files : list RemoteFile)
  : option (list RemoteFile) :=
  match files with
  | [] => Some []
  | f :: r =>
      st ← rf_status f;
      rest ← keep_status status_filter r;
      Some (if bool_decide (st ∈ status_filter) then f :: rest else rest)
  end.

(** The status filter, applied when a status is selected. *)
Definition status_step (status_filter : list string) (files : list RemoteFile)
  : option (list RemoteFile) :=
  match status_filter with
  | [] => Some files
  | _ :: _ => keep_status status_filter files
  end.

(** The extension the type filter looks at. *)
Definition type_ext (f : RemoteFile) : string :=
  if contains_char "."%char (rf_filename f)
  then lower (last_field "."%char (rf_filename f))
  else "".

Definition image_exts : list string := ["png"; "jpg"; "jpeg"; "gif"; "webp"].

(** The type filter, applied when a type is selected. *)
Definition type_step (type_filter : list string) (files : list RemoteFile)
  : list RemoteFile :=
  match type_filter with
  | [] => files
  | _ :: _ =>
      filter (fun f => type_ext f ∈ type_filter
                       \/ (type_ext f ∈ image_exts /\ "images" ∈ type_filter))
        files
  end.

Definition newest_first (a b : RemoteFile) : bool :=
  rf_created_at b <=? rf_created_at a.

Definition oldest_first (a b : RemoteFile) : bool :=
  rf_created_at a <=? rf_created_at b.

Definition a_to_z (a b : RemoteFile) : bool :=
  String.leb (rf_filename a) (rf_filename b).

Definition z_to_a (a b : RemoteFile) : bool :=
  String.leb (rf_filename b) (rf_filename a).

(** The sort: the first of the four words that occurs in [sort_by]
    decides; with none of them the list stays as it is. *)
Definition sort_step (sort_by : string) (files : list RemoteFile)
  : list RemoteFile :=
  if PyStr.contains "Newest" sort_by then sorted_by newest_first files
  else if PyStr.contains "Oldest" sort_by then sorted_by oldest_first files
  else if PyStr.contains "A-Z" sort_by then sorted_by a_to_z files
  else if PyStr.contains "Z-A" sort_by then sorted_by z_to_a files
  else files.

(** The list [files] the tab displays, from the non-empty listing [data]
    of the service (for an empty listing the tab shows a notice and no
    list); [None]: the block raises [AttributeError] and the handler around
    it shows the error. *)
Definition shown_files (search_query : string) (status_filter type_filter : list string)
    (sort_by : string) (data : list RemoteFile) : option (list RemoteFile) :=
  files ← status_step status_filter (search_step search_query data);
  Some (sort_step sort_by (type_step type_filter files)).

End ManageTab.

(* ===================================================================== *)
(** * Notions used to state the properties *)
(* ===================================================================== *)

Module Observations.
Import Remote App.

(** The values a log gives to the progress bar, in order. *)
Definition progress_values (evs : list event) : list Z :=
  omap (fun e => match e with Progress p => Some p | _ => None end) evs.

(** The value the bar is given at the non-terminal snapshot number [k],
    counted from 0. *)
Definition bar_at (k : nat) : Z := Z.min (50 + Z.of_nat k * 2) 95.

(** The value the bar is given at a snapshot that ends the loop. *)
Definition bar_at_end (t : Task) : Z :=
  if String.eqb (status t) "pending" then 75 else 100.


(** The state [s'] has the current list of [s], extended by [added] when
    its address is allocated, and every other list as it is in [s]. *)
Definition grows_current (s s' : SessionState) (added : list message) : Prop :=
  messages s' = messages s
  /\ length (store s') = length (store s)
  /\ (forall l, l <> messages s -> deref s' l = deref s l)
  /\ ((messages s < length (store s))%nat ->
      deref s' (messages s) = deref s (messages s) ++ added).


(** A result record is either a success with a non-empty identifier or a
    failure without identifier. *)
Definition record_consistent (rec : FileManager.UploadResult) : Prop :=
  (FileManager.ur_status rec = "success"
   /\ Py.opt_str_truthy (FileManager.ur_file_id rec) = true)
  \/ (FileManager.ur_status rec = "failed" /\ FileManager.ur_file_id rec = None).

(** The number of success records of a list. *)
Definition successes (results : list FileManager.UploadResult) : Z :=
  Z.of_nat (length (filter (fun rec => FileManager.ur_status rec = "success") results)).



(** No character of the name is one of those [sanitize_filename]
    replaces. *)
Fixpoint clean_name (s : string) : bool :=
  match s with
  | EmptyString => true
  | String c r => negb (PyStr.char_in c Helpers.invalid_chars) && clean_name r
  end.


(** Every character of the string is whitespace. *)
Fixpoint all_space (s : string) : bool :=
  match s with
  | EmptyString => true
  | String c r => Py.is_space c && all_space r
  end.

(** A search term as [parse_search_query] produces them: not empty,
    without whitespace, in lower case. *)
Definition search_term (t : string) : Prop :=
  t <> "" /\ PyStr.no_space t = true /\ Py.lower t = t.


(** The message has a ['role'] and a ['content'] entry. *)
Definition has_role_and_content (msg : message) : Prop :=
  is_Some (Py.dict_get "role" msg) /\ is_Some (Py.dict_get "content" msg).

(** A message as the chat handler stores them: the role is [user] or
    [assistant], the content and the timestamp are strings. *)
Definition chat_message (msg : message) : Prop :=
  (Py.dict_get "role" msg = Some (Py.VStr "user")
   \/ Py.dict_get "role" msg = Some (Py.VStr "assistant"))
  /\ (exists c, Py.dict_get "content" msg = Some (Py.VStr c))
  /\ (exists t, Py.dict_get "timestamp" msg = Some (Py.VStr t)).

(** Every message of every list of the store is a chat message. *)
Definition chat_messages_only (s : SessionState) : Prop :=
  Forall (Forall chat_message) (store s).


(** The sum of the counts of a tally. *)
Definition tally_total `{Countable K} (d : gmap K Z) : Z :=
  map_fold (fun _ n acc => n + acc) 0 d.

(** What a finished tally holds under [k], when [n] elements fall under
    it: no entry for none, the number otherwise. *)
Definition tally_entry (n : Z) : option Z :=
  if n =? 0 then None else Some n.


(** The file passes the search box: the box is empty, or the lowered
    query occurs in the lowered file name. *)
Definition search_passes (q : string) (f : FileViews.RemoteFile) : Prop :=
  q = "" \/ PyStr.contains (Py.lower q) (Py.lower (FileViews.rf_filename f)) = true.

(** The file has a status, and it is selected. *)
Definition status_in (sf : list string) (f : FileViews.RemoteFile) : Prop :=
  match FileViews.rf_status f with
  | Some st => st ∈ sf
  | None => False
  end.

#[global] Instance status_in_dec sf f : Decision (status_in sf f).
Proof. unfold status_in. destruct (FileViews.rf_status f); apply _. Defined.

(** The file passes the status selection: nothing is selected, or the
    status of the file is. *)
Definition status_passes (sf : list string) (f : FileViews.RemoteFile) : Prop :=
  sf = [] \/ status_in sf f.

(** The file passes the type selection: nothing is selected, or its
    extension is, or it is an image and [images] is selected. *)
Definition type_passes (tf : list string) (f : FileViews.RemoteFile) : Prop :=
  tf = [] \/ ManageTab.type_ext f ∈ tf
  \/ (ManageTab.type_ext f ∈ ManageTab.image_exts /\ "images" ∈ tf).

#[global] Instance search_passes_dec q f : Decision (search_passes q f).
Proof. unfold search_passes. apply _. Defined.

#[global] Instance status_passes_dec sf f : Decision (status_passes sf f).
Proof. unfold status_passes. apply _. Defined.

#[global] Instance type_passes_dec tf f : Decision (type_passes tf f).
Proof. unfold type_passes. apply _. Defined.

(** The file passes the three filters. *)
Definition passes_filters (q : string) (sf tf : list string)
    (f : FileViews.RemoteFile) : Prop :=
  search_passes q f /\ status_passes sf f /\ type_passes tf f.

#[global] Instance passes_filters_dec q sf tf f : Decision (passes_filters q sf tf f).
Proof. unfold passes_filters. apply _. Defined.

(** The elements of [l] are in the order [before], and those with the
    same [key] are in the order they have in [source]. *)
Definition stably_sorted {A K} `{EqDecision K} (before : A -> A -> bool)
    (key : A -> K) (source l : list A) : Prop :=
  StronglySorted (fun a b => before a b = true) l
  /\ forall k, filter (fun a => key a = k) l = filter (fun a => key a = k) source.


(** ** Upload batches, file by file *)

(** The calls one file causes after the calls [hist]: the registration,
    followed by the byte upload when the registration is answered. *)
Definition file_calls (svc : UploadService) (hist : list net_call)
    (file : FileManager.SelectedFile) : list net_call :=
  PostFiles (FileManager.sf_name file)
  :: match post_files svc hist (FileManager.sf_name file) with
     | Some file_record =>
         [PutBytes (fr_upload_url file_record) (FileManager.sf_data file)]
     | None => []
     end.

(** The identifier the file ends up with after the calls [hist]: the one
    the registration returned, when the registration and the byte upload
    both succeed and the identifier is not empty; otherwise none. *)
Definition file_outcome (svc : UploadService) (hist : list net_call)
    (file : FileManager.SelectedFile) : option string :=
  match post_files svc hist (FileManager.sf_name file) with
  | Some file_record =>
      if put_bytes svc (hist ++ [PostFiles (FileManager.sf_name file)])
           (fr_upload_url file_record) (FileManager.sf_data file)
         && Py.str_truthy (fr_id file_record)
      then Some (fr_id file_record)
      else None
  | None => None
  end.

(** The calls of a batch: those of each file in turn, each made after all
    the calls before it. *)
Fixpoint batch_calls (svc : UploadService) (hist : list net_call)
    (files : list FileManager.SelectedFile) : list net_call :=
  match files with
  | [] => []
  | file :: rest =>
      file_calls svc hist file
      ++ batch_calls svc (hist ++ file_calls svc hist file) rest
  end.

(** The record of the file manager for a file with the given outcome. *)
Definition record_of (file : FileManager.SelectedFile) (now : string)
    (outcome : option string) : FileManager.UploadResult :=
  {| FileManager.ur_filename := FileManager.sf_name file;
     FileManager.ur_file_id := outcome;
     FileManager.ur_size := FileManager.size_of file;
     FileManager.ur_timestamp := now;
     FileManager.ur_status := match outcome with
                              | Some _ => "success"
                              | None => "failed"
                              end |}.

(** One record per file, in input order, each with the outcome of its own
    file. *)
Fixpoint batch_records (svc : UploadService) (hist : list net_call)
    (batch : list (FileManager.SelectedFile * string))
  : list FileManager.UploadResult :=
  match batch with
  | [] => []
  | (file, now) :: rest =>
      record_of file now (file_outcome svc hist file)
      :: batch_records svc (hist ++ file_calls svc hist file) rest
  end.

(** The entry the sidebar stages for a file with the given outcome: none
    for a file without identifier. *)
Definition staged_of (file : FileManager.SelectedFile) (outcome : option string)
  : list StagedFile :=
  match outcome with
  | Some file_id =>
      [ {| uf_id := file_id; uf_name := FileManager.sf_name file;
           uf_size := FileManager.size_of file;
           uf_type := FileManager.sf_type file |} ]
  | None => []
  end.

(** The staged entries of a batch: one for each file that got an
    identifier, in input order. *)
Fixpoint batch_staging (svc : UploadService) (hist : list net_call)
    (files : list FileManager.SelectedFile) : list StagedFile :=
  match files with
  | [] => []
  | file :: rest =>
      staged_of file (file_outcome svc hist file)
      ++ batch_staging svc (hist ++ file_calls svc hist file) rest
  end.

(** A service whose answers do not depend on the calls made before. *)
Definition ignores_history (svc : UploadService) : Prop :=
  (forall hist hist' name, post_files svc hist name = post_files svc hist' name)
  /\ (forall hist hist' url data,
        put_bytes svc hist url data = put_bytes svc hist' url data).

End Observations.

(* ===================================================================== *)
(** * Concrete inputs *)
(* ===================================================================== *)

Module Samples.
Import Remote App.

Definition widgets : Widgets :=
  {| w_api_key := "sk-test-key"; w_agent_profile := "speed";
     w_timeout_seconds := 60 |}.

Definition assistant_says (texts : list string) : Message :=
  {| role := "assistant"; content := map text_item texts |}.

(** A snapshot of task [task_1] with the given status, [credit_usage]
    entry and output. *)
Definition snapshot (st : string) (credit : Py.value) (out : list Message)
  : Task :=
  {| id := "task_1"; status := st;
     metadata := Some (<["credit_usage" := credit]> ∅);
     output := Some out |}.

Definition created : Task :=
  {| id := "task_1"; status := "created";
     metadata := Some (<["task_url" := Py.VStr "https://manus.im/app/task_1"]> ∅);
     output := None |}.

(** A task that goes created, running, completed, answers "Done." and
    reports the given credit usage. *)
Definition run_reporting (credit : Py.value) : ChatEnv :=
  {| ce_now_sent := "2024-05-01 10:00:00";
     ce_created := Snapshot created;
     ce_replies :=
       [ Snapshot (snapshot "running" credit []);
         Snapshot (snapshot "completed" credit [assistant_says ["Done."]]) ];
     ce_now_done := "2024-05-01 10:00:06" |}.

(** A task whose second retrieval fails in transport. *)
Definition run_interrupted : ChatEnv :=
  {| ce_now_sent := "2024-05-01 10:00:00";
     ce_created := Snapshot created;
     ce_replies :=
       [ Snapshot (snapshot "running" (Py.VInt 0) []);
         TransportError "Connection reset by peer";
         Snapshot (snapshot "completed" (Py.VInt 2) [assistant_says ["Done."]]) ];
     ce_now_done := "2024-05-01 10:00:06" |}.

(** A service that registers every file and accepts every upload. *)
Definition accepting : UploadService :=
  {| post_files := fun hist name =>
       Some {| fr_id := "file_" +:+ name;
               fr_upload_url := "https://upload.manus.im/" +:+ name |};
     put_bytes := fun _ _ _ => true |}.

(** A service that refuses to register [report.pdf] and serves the rest. *)
Definition refusing_report : UploadService :=
  {| post_files := fun hist name =>
       if String.eqb name "report.pdf" then None
       else Some {| fr_id := "file_" +:+ name;
                    fr_upload_url := "https://upload.manus.im/" +:+ name |};
     put_bytes := fun _ _ _ => true |}.

Definition notes_txt : FileManager.SelectedFile :=
  {| FileManager.sf_name := "notes.txt";
     FileManager.sf_data := list_ascii_of_string "hello";
     FileManager.sf_type := "text/plain" |}.

Definition report_pdf : FileManager.SelectedFile :=
  {| FileManager.sf_name := "report.pdf";
     FileManager.sf_data := list_ascii_of_string "%PDF-1.7";
     FileManager.sf_type := "application/pdf" |}.

(** A configuration whose allow-list holds the single extension [pdf]. *)
Definition pdf_only : Config.ManusConfig :=
  {| Config.base_url := "https://api.manus.im";
     Config.api_key := Some "sk-test-key";
     Config.default_agent_profile := "quality";
     Config.default_timeout_seconds := 300;
     Config.max_file_size_mb := 100;
     Config.file_expiry_hours := 48;
     Config.supported_file_types := Some ["pdf"];
     Config.default_task_limit := 50;
     Config.max_task_limit := 100 |}.

(** A completed task whose assistant message holds a text that begins
    with a space, an empty text and a third text. *)
Definition padded_output : list Message :=
  [ assistant_says [" a"; ""; "b"] ].

Definition padded_task : Task := snapshot "completed" (Py.VInt 1) padded_output.

(** The completed task of the specification's scenario, with one output
    file added after the text. *)
Definition done_output : list Message :=
  [ {| role := "user"; content := [text_item "Summarize this text"] |};
    {| role := "assistant";
       content := [ text_item "Done.";
                    output_file_item "summary.md" "https://files.manus.im/summary.md" ] |} ].

Definition done_task : Task := snapshot "completed" (Py.VInt 2) done_output.

(** The conversation of the scenario: the user's message with one
    attached file, and the assistant's reply with one output file. *)
Definition conversation : list message :=
  [ user_message "Summarize this text" "2024-05-01 10:00:00"
      [ {| uf_id := "file_notes.txt"; uf_name := "notes.txt"; uf_size := 5;
           uf_type := "text/plain" |} ];
    assistant_message ("Done." +:+ Py.newline)
      (Py.VStr "https://manus.im/app/task_1") (Py.VInt 2)
      "2024-05-01 10:00:06" ["summary.md"] ].

Definition summarize : action :=
  Chat widgets (run_reporting (Py.VInt 5)) "Summarize this text".


(** A listing of the file service: two files created at the same time
    and a later one. *)
Definition report_file : FileViews.RemoteFile :=
  {| FileViews.rf_id := "file_1"; FileViews.rf_filename := "report.pdf";
     FileViews.rf_status := Some "ready"; FileViews.rf_created_at := 1714550400 |}.

Definition photo_file : FileViews.RemoteFile :=
  {| FileViews.rf_id := "file_2"; FileViews.rf_filename := "Photo.PNG";
     FileViews.rf_status := Some "uploaded"; FileViews.rf_created_at := 1714557600 |}.

Definition notes_file : FileViews.RemoteFile :=
  {| FileViews.rf_id := "file_3"; FileViews.rf_filename := "notes.txt";
     FileViews.rf_status := Some "ready"; FileViews.rf_created_at := 1714550400 |}.

Definition listing : list FileViews.RemoteFile :=
  [report_file; photo_file; notes_file].

End Samples.

(* ===================================================================== *)
(** * Properties *)
(* ===================================================================== *)

Section ConfigFacts.
Import Config.

Lemma key_present_truthy (c : ManusConfig) :
  Py.opt_str_truthy (api_key c) = true <-> key_present c.
Proof.
  unfold key_present. split.
  - destruct (api_key c) as [[|a k]|] eqn:E; simpl; try discriminate.
    intros _. exists (String a k). split; [reflexivity | discriminate].
  - intros (k & -> & Hk). destruct k; [congruence | reflexivity].
Qed.

(** C8 (as amended). [validate] accepts a configuration exactly when an
    API key is present, the timeout lies in [60,600] and the task fetch limit
    lies in [1, max_task_limit]; a timeout of 599 is accepted (the other two
    conditions being met, as in the defaults with a key), a timeout of 601
    is rejected whatever the other fields are.  It is a check that no remote
    call waits for: [create_task] sends the request with the timeout it is
    given, whatever that is, and the chat handler, once a key and a message
    are entered, sends the value of its timeout widget. *)
Theorem validate_accepts_exactly :
  (forall c : ManusConfig,
      validate c = true <->
      key_present c /\
      60 <= default_timeout_seconds c <= 600 /\
      1 <= default_task_limit c <= max_task_limit c) /\
  (forall a k,
      validate (with_timeout 599 (with_api_key (Some (String a k)) field_defaults)) = true) /\
  (forall c : ManusConfig, validate (with_timeout 601 c) = false) /\
  (forall created user_input file_ids image_url profile previous timeout,
      exists rq rest,
        snd (App.create_task created user_input file_ids image_url profile
               previous timeout)
        = App.CallCreate rq :: rest
        /\ App.rq_timeout_seconds rq = timeout) /\
  (forall w env user_input s,
      Py.str_truthy (App.w_api_key w) = true ->
      Py.str_truthy user_input = true ->
      exists rq evs,
        snd (App.chat_turn w env user_input s) = App.CallCreate rq :: evs
        /\ App.rq_timeout_seconds rq = App.w_timeout_seconds w
        /\ head (snd (App.create_task (App.ce_created env) user_input
                        (match map App.uf_id (App.uploaded_files s) with
                         | [] => None
                         | _ :: _ => Some (map App.uf_id (App.uploaded_files s))
                         end)
                        None (App.w_agent_profile w) (App.current_task_id s)
                        (App.w_timeout_seconds w)))
           = Some (App.CallCreate rq)).
Proof.
  split; [| split; [| split; [| split]]].
  - intros c. rewrite <- key_present_truthy. unfold validate.
    destruct (Py.opt_str_truthy (api_key c)); simpl.
    + destruct (Z.ltb_spec (default_timeout_seconds c) 60),
               (Z.gtb_spec (default_timeout_seconds c) 600),
               (Z.ltb_spec (default_task_limit c) 1),
               (Z.gtb_spec (default_task_limit c) (max_task_limit c));
        simpl; split; intros; try discriminate; try lia; auto.
    + split; [discriminate | intros [? _]; discriminate].
  - intros a k. reflexivity.
  - intros c. unfold validate. simpl.
    destruct (negb _); reflexivity.
  - intros created user_input file_ids image_url profile previous timeout.
    unfold App.create_task. destruct created as [response|msg]; by eexists _, _.
  - intros w env user_input s Hk Hu. unfold App.chat_turn, App.create_task.
    rewrite Hk, Hu. cbn [negb].
    change (App.uploaded_files (App.after_send env user_input s))
      with (App.uploaded_files s).
    change (App.current_task_id (App.after_send env user_input s))
      with (App.current_task_id s).
    destruct (App.ce_created env) as [response|msg]; [|by eexists _, _].
    destruct (Remote.metadata response) as [md|]; [|by eexists _, _].
    destruct (App.poll_task_status _ _) as [[[t|]|] evs]; by eexists _, _.
Qed.

(** C8 as stated fails: no remote call waits for [validate].  A timeout
    of 601, which [validate] rejects, is sent by [create_task] as it is; and
    with the default configuration and no key in the environment, which
    [validate] rejects too, the chat handler creates the task all the same
    once a key is typed into the page. *)
Lemma invalid_timeout_reaches_the_service :
  validate (with_timeout 601 (with_api_key (Some "sk-test-key") field_defaults))
  = false
  /\ App.create_task (Remote.Snapshot Samples.created) "Summarize this text"
       None None "quality" None 601
     = (Some Samples.created,
        [App.CallCreate
           {| App.rq_content := [App.InputText "Summarize this text"];
              App.rq_task_mode := "agent";
              App.rq_agent_profile := "quality";
              App.rq_timeout_seconds := 601;
              App.rq_task_id := None |}])
  /\ validate (post_init None field_defaults) = false
  /\ head (snd (App.chat_turn Samples.widgets (Samples.run_reporting (Py.VInt 5))
                  "Summarize this text" App.initial_state))
     = Some (App.CallCreate
               {| App.rq_content := [App.InputText "Summarize this text"];
                  App.rq_task_mode := "agent";
                  App.rq_agent_profile := "speed";
                  App.rq_timeout_seconds := 60;
                  App.rq_task_id := None |}).
Proof. repeat split; reflexivity. Qed.

End ConfigFacts.

(* --------------------------------------------------------------------- *)
(** ** The polling loop *)
(* --------------------------------------------------------------------- *)

Section PollFacts.
Import Remote App.

Lemma poll_task_status_fst tid script :
  fst (poll_task_status tid script) = fst (poll_loop tid 0 script).
Proof. unfold poll_task_status. by destruct (poll_loop tid 0 script). Qed.

Lemma poll_task_status_snd tid script :
  snd (poll_task_status tid script) = Progress 0 :: snd (poll_loop tid 0 script).
Proof. unfold poll_task_status. by destruct (poll_loop tid 0 script). Qed.



Lemma poll_loop_nonterminal tid n t rest :
  stops_polling (status t) = false ->
  poll_loop tid n (Snapshot t :: rest)
  = (fst (poll_loop tid (n + 1) rest),
     [CallRetrieve tid; Progress (Z.min (50 + n * 2) 95);
      ShowInfo (status t); Sleep 3] ++ snd (poll_loop tid (n + 1) rest)).
Proof.
  unfold stops_polling. intros H.
  apply orb_false_elim in H as [H H3]. apply orb_false_elim in H as [H1 H2].
  simpl. rewrite H1, H2, H3.
  by destruct (poll_loop tid (n + 1) rest).
Qed.

Lemma poll_loop_terminal tid n t rest :
  stops_polling (status t) = true ->
  fst (poll_loop tid n (Snapshot t :: rest)) = Returned (Some t)
  /\ retrievals (snd (poll_loop tid n (Snapshot t :: rest))) = [tid]
  /\ sleeps (snd (poll_loop tid n (Snapshot t :: rest))) = [].
Proof.
  unfold stops_polling. intros H. simpl.
  destruct (String.eqb (status t) "completed"); [done|].
  destruct (String.eqb (status t) "error"); [done|].
  destruct (String.eqb (status t) "pending"); [done|]. done.
Qed.



End PollFacts.

(* --------------------------------------------------------------------- *)
(** ** Strings *)
(* --------------------------------------------------------------------- *)

Section StringFacts.

Lemma string_app_cons a s t : String a s +:+ t = String a (s +:+ t).
Proof. reflexivity. Qed.

Lemma string_app_nil_r s : s +:+ "" = s.
Proof. induction s as [|a s IH]; [done|]. by rewrite string_app_cons, IH. Qed.

Lemma string_app_assoc s t u : (s +:+ t) +:+ u = s +:+ (t +:+ u).
Proof.
  induction s as [|a s IH]; [done|]. by rewrite !string_app_cons, IH.
Qed.

Lemma rstrip_newline s : Py.rstrip (s +:+ Py.newline) = Py.rstrip s.
Proof.
  induction s as [|a s IH]; [done|].
  rewrite string_app_cons. cbn [Py.rstrip]. by rewrite IH.
Qed.

Lemma lstrip_newline s :
  Py.lstrip (s +:+ Py.newline) = Py.lstrip s +:+ Py.newline
  \/ (Py.lstrip (s +:+ Py.newline) = "" /\ Py.lstrip s = "").
Proof.
  induction s as [|a s IH]; [by right|].
  rewrite string_app_cons. cbn [Py.lstrip].
  destruct (Py.is_space a); [done|]. by left.
Qed.

(** Stripping forgets a final newline. *)
Lemma strip_newline s : Py.strip (s +:+ Py.newline) = Py.strip s.
Proof.
  unfold Py.strip. destruct (lstrip_newline s) as [-> | [-> ->]]; [|done].
  apply rstrip_newline.
Qed.

End StringFacts.

(* --------------------------------------------------------------------- *)
(** ** Extraction of the reply *)
(* --------------------------------------------------------------------- *)

Section ExtractFacts.
Import Remote App.

Lemma extract_items_acc items text files :
  fold_left extract_item items (text, files)
  = (text +:+ terminated_lines (kept_texts items), files ++ kept_files items).
Proof.
  revert text files. induction items as [|c items IH]; intros text files.
  - cbn. by rewrite string_app_nil_r, app_nil_r.
  - cbn [fold_left]. unfold extract_item at 2.
    unfold kept_texts, kept_files in *. cbn [omap list_omap].
    destruct (Py.opt_str_truthy (ci_text c)) eqn:Ht.
    + destruct (ci_text c) as [t|]; [|done]. rewrite IH. cbn.
      by rewrite !string_app_assoc.
    + case_bool_decide; rewrite IH; cbn; [|done].
      by rewrite <- app_assoc.
Qed.

Lemma terminated_lines_app xs ys :
  terminated_lines (xs ++ ys) = terminated_lines xs +:+ terminated_lines ys.
Proof.
  unfold terminated_lines. induction xs as [|x xs IH]; [done|].
  cbn. by rewrite IH, !string_app_assoc.
Qed.

(** A non-empty list of lines, each newline-terminated, is their
    newline-join followed by one newline. *)
Lemma terminated_lines_join x xs :
  terminated_lines (x :: xs) = String.concat Py.newline (x :: xs) +:+ Py.newline.
Proof.
  revert x. induction xs as [|y ys IH]; intros x.
  - cbn. by rewrite string_app_nil_r.
  - change (terminated_lines (x :: y :: ys))
      with (x +:+ Py.newline +:+ terminated_lines (y :: ys)).
    rewrite IH. cbn [String.concat]. by rewrite !string_app_assoc.
Qed.

Lemma extract_messages_acc out text files :
  fold_left extract_message out (text, files)
  = (text +:+ terminated_lines (kept_texts (assistant_items out)),
     files ++ kept_files (assistant_items out)).
Proof.
  revert text files. induction out as [|m out IH]; intros text files.
  - cbn. by rewrite string_app_nil_r, app_nil_r.
  - cbn [fold_left]. unfold extract_message at 2.
    unfold assistant_items. cbn [filter list_filter].
    destruct (String.eqb_spec (role m) "assistant") as [E|E].
    + rewrite decide_True by done. cbn [map concat].
      rewrite extract_items_acc, IH. fold (assistant_items out).
      unfold kept_texts, kept_files.
      rewrite !omap_app, terminated_lines_app.
      by rewrite string_app_assoc, <- app_assoc.
    + rewrite decide_False by done. apply IH.
Qed.

(** On items of the variants of the data model whose texts are all
    non-empty, the loop keeps every text and every output file. *)
Lemma kept_all items :
  Forall variant_item items ->
  Forall (fun t => t <> "") (spec_texts items) ->
  kept_texts items = spec_texts items /\ kept_files items = spec_files items.
Proof.
  unfold kept_texts, kept_files, spec_texts, spec_files.
  induction items as [|c items IH]; intros Hv Ht; [done|].
  apply Forall_cons in Hv as [Hc Hv]. unfold variant_item in Hc.
  cbn [omap list_omap] in *.
  destruct (ci_text c) as [t|] eqn:Et; cbn in *.
  - apply Forall_cons in Ht as [Hne Ht].
    destruct (IH Hv Ht) as [-> ->].
    destruct t as [|a t]; [done|]. cbn.
    by rewrite bool_decide_eq_false_2.
  - destruct (IH Hv Ht) as [-> ->]. done.
Qed.

(** C2 (as amended). The extraction loop appends, in message and item
    order, each non-empty text of the assistant-role messages followed by a
    newline, and collects the file names of their [output_file] items that
    carry no text; messages of another role contribute nothing.  The
    stored reply is that text stripped of surrounding whitespace, or a fixed
    placeholder when no text was found.  When the items are of the
    variants of the data model, no text is empty and the newline-joined
    texts neither are empty nor begin or end with whitespace, the stored
    reply is exactly the newline-join of the texts and the side list is
    exactly the [output_file] file names, in order. *)
Theorem extraction_of_reply (task : Task) (out : list Message) :
  output task = Some out ->
  let items := assistant_items out in
  extract_output task = (terminated_lines (kept_texts items), kept_files items)
  /\ reply_content (fst (extract_output task))
     = match kept_texts items with
       | [] => completed_placeholder
       | _ :: _ => Py.strip (String.concat Py.newline (kept_texts items))
       end
  /\ (Forall variant_item items ->
      Forall (fun t => t <> "") (spec_texts items) ->
      spec_reply out <> "" ->
      Py.strip (spec_reply out) = spec_reply out ->
      reply_content (fst (extract_output task)) = spec_reply out
      /\ snd (extract_output task) = spec_files items).
Proof.
  intros Hout items.
  assert (E : extract_output task
              = (terminated_lines (kept_texts items), kept_files items)).
  { unfold extract_output. rewrite Hout, extract_messages_acc. done. }
  split; [exact E|]. rewrite E. cbn [fst snd].
  assert (R : reply_content (terminated_lines (kept_texts items))
              = match kept_texts items with
                | [] => completed_placeholder
                | _ :: _ => Py.strip (String.concat Py.newline (kept_texts items))
                end).
  { destruct (kept_texts items) as [|x xs] eqn:K; [done|].
    rewrite terminated_lines_join. unfold reply_content.
    rewrite strip_newline.
    destruct (String.concat Py.newline (x :: xs) +:+ Py.newline) eqn:D; [|done].
    destruct (String.concat Py.newline (x :: xs)); discriminate. }
  split; [exact R|].
  intros Hv Ht Hne Hs. rewrite R.
  destruct (kept_all items Hv Ht) as [Kt Kf]. rewrite Kt, Kf.
  split; [|done].
  unfold spec_reply in *. fold items in Hne, Hs |- *.
  destruct (spec_texts items); [done|]. exact Hs.
Qed.

(** C2: on the scenario's task the stored reply is "Done." and the side
    list holds the one output file. *)
Lemma extraction_of_reply_witness :
  reply_content (fst (extract_output Samples.done_task)) = "Done."
  /\ snd (extract_output Samples.done_task) = ["summary.md"].
Proof.
  apply (proj2 (proj2 (extraction_of_reply Samples.done_task Samples.done_output
                         eq_refl))).
  - repeat constructor; vm_compute; congruence.
  - repeat constructor; vm_compute; congruence.
  - vm_compute; congruence.
  - vm_compute; reflexivity.
Defined.

(** C2 as stated fails: for the texts " a", "" and "b" the newline-join
    is " a\n\nb", while the loop builds " a\nb\n" (the empty text is
    skipped, each kept text is newline-terminated) and the stored reply is
    "a\nb" (stripped). *)
Lemma reply_is_not_the_plain_join :
  spec_reply Samples.padded_output
  = " a" +:+ Py.newline +:+ Py.newline +:+ "b"
  /\ fst (extract_output Samples.padded_task)
     = " a" +:+ Py.newline +:+ "b" +:+ Py.newline
  /\ reply_content (fst (extract_output Samples.padded_task))
     = "a" +:+ Py.newline +:+ "b"
  /\ fst (extract_output Samples.padded_task) <> spec_reply Samples.padded_output
  /\ reply_content (fst (extract_output Samples.padded_task))
     <> spec_reply Samples.padded_output.
Proof. vm_compute. repeat split; (reflexivity || discriminate). Qed.

End ExtractFacts.

(* --------------------------------------------------------------------- *)
(** ** Credit tracking *)
(* --------------------------------------------------------------------- *)

Section CreditFacts.
Import Remote App.

(** What [record_completion] adds to the counter: the [credit_usage]
    entry when it is an [int] (or a [bool]), nothing otherwise. *)
Lemma poll_loop_returns_snapshot tid n script t :
  fst (poll_loop tid n script) = Returned (Some t) -> t ∈ snapshots script.
Proof.
  revert n. induction script as [|r rest IH]; intros n; [done|].
  destruct r as [u|msg]; [|done]. cbn [poll_loop snapshots omap list_omap].
  repeat (case_match; [intros [= ->]; apply list_elem_of_here|]).
  destruct (poll_loop tid (n + 1) rest) as [r evs] eqn:E. cbn.
  intros ->. apply list_elem_of_further. apply (IH (n + 1)). by rewrite E.
Qed.

Lemma poll_returns_snapshot tid script t :
  fst (poll_task_status tid script) = Returned (Some t) -> t ∈ snapshots script.
Proof. rewrite poll_task_status_fst. apply poll_loop_returns_snapshot. Qed.



(** The upload loop touches nothing but the staged files. *)
Lemma process_upload_fold svc files calls s :
  let s' := snd (fold_left (process_upload_step svc) files (calls, s)) in
  total_credits_used s' = total_credits_used s
  /\ conversation_history s' = conversation_history s
  /\ store s' = store s.
Proof.
  revert calls s. induction files as [|f files IH]; intros calls s; [done|].
  cbn [fold_left]. unfold process_upload_step at 2 4 6.
  destruct (upload_file_to_manus svc calls _ _) as [file_id calls1].
  destruct (Py.opt_str_truthy file_id); exact (IH calls1 _).
Qed.

Lemma process_all_uploads_core w svc files s :
  let s' := snd (process_all_uploads w svc files s) in
  total_credits_used s' = total_credits_used s
  /\ conversation_history s' = conversation_history s
  /\ store s' = store s.
Proof.
  unfold process_all_uploads. destruct files as [|f files]; [done|].
  destruct (Py.str_truthy (w_api_key w)); [|done].
  apply (process_upload_fold svc (f :: files) [] (set_uploaded_files [] s)).
Qed.








(** The scenario of the specification: a task that goes created, running,
    completed, answers "Done." and reports 2 credits leaves the two messages
    in the conversation and the counter at 2. *)
Example chat_turn_scenario :
  let env := Samples.run_reporting (Py.VInt 2) in
  let out := chat_turn Samples.widgets env "Summarize this text" initial_state in
  let s := state_of (fst out) in
  total_credits_used s = 2
  /\ task_count s = 1
  /\ deref s (messages s)
     = [ user_message "Summarize this text" (ce_now_sent env) [];
         assistant_message ("Done." +:+ Py.newline)
           (Py.VStr "https://manus.im/app/task_1") (Py.VInt 2)
           (ce_now_done env) [] ]
  /\ Py.dict_get "content" (assistant_message ("Done." +:+ Py.newline)
                              (Py.VStr "https://manus.im/app/task_1") (Py.VInt 2)
                              (ce_now_done env) [])
     = Some (Py.VStr "Done.")
  /\ sleeps (snd out) = [3]
  /\ retrievals (snd out) = ["task_1"; "task_1"].
Proof. vm_compute. repeat split; reflexivity. Qed.

(** C3: at a completed task whose [credit_usage] entry is the string
    "5", the addition raises [TypeError]: the run stops with the counter
    unchanged and without the assistant message, where the claim has the
    value parsed (or taken as 0) and the run completed. *)
Lemma credit_usage_string_raises :
  let env := Samples.run_reporting (Py.VStr "5") in
  let s2 := after_create Samples.created
              (after_send env "Summarize this text" initial_state) in
  fst (chat_turn Samples.widgets env "Summarize this text" initial_state)
  = Raised Py.TypeError s2
  /\ total_credits_used s2 = 0
  /\ deref s2 (messages s2)
     = [user_message "Summarize this text" (ce_now_sent env) []].
Proof. vm_compute. repeat split; reflexivity. Qed.

End CreditFacts.

(* --------------------------------------------------------------------- *)
(** ** Transport errors while polling *)
(* --------------------------------------------------------------------- *)

Section AbortFacts.
Import Remote App.

Lemma poll_loop_transport_error tid n pre msg rest :
  Forall (fun t => stops_polling (status t) = false) pre ->
  exists evs,
    poll_loop tid n (map Snapshot pre ++ TransportError msg :: rest)
    = (Returned None, evs ++ [ShowError ("Error checking status: " +:+ msg)])
    /\ retrievals evs = replicate (S (length pre)) tid
    /\ sleeps evs = replicate (length pre) 3.
Proof.
  intros H. revert n. induction H as [|t pre Ht _ IH]; intros n.
  - exists [CallRetrieve tid]. done.
  - destruct (IH (n + 1)) as (evs & E & R & S).
    cbn [map app]. rewrite poll_loop_nonterminal by done. rewrite E.
    eexists (_ :: _ :: _ :: _ :: evs). split; [reflexivity|].
    unfold retrievals, sleeps in *. cbn. by rewrite R, S.
Qed.

(** C7. When a retrieval raises during the polling loop (every earlier
    snapshot being non-terminal), [poll_task_status] returns [None] after
    showing the error, and the chat handler ends there: the session state
    is the one polling started from.  The counter is what it was before the
    turn, the message lists hold the user's message and no assistant
    message, the history and the staged files are untouched. *)
Theorem transport_error_aborts_poll
    (w : Widgets) (env : ChatEnv) (user_input : string) (s : SessionState)
    (response : Task) (md : gmap string Py.value)
    (pre : list Task) (msg : string) (rest : list reply) :
  Py.str_truthy (w_api_key w) = true ->
  Py.str_truthy user_input = true ->
  ce_created env = Snapshot response ->
  metadata response = Some md ->
  ce_replies env = map Snapshot pre ++ TransportError msg :: rest ->
  Forall (fun t => stops_polling (status t) = false) pre ->
  let s1 := after_send env user_input s in
  let s2 := after_create response s1 in
  exists evs,
    poll_task_status (id response) (ce_replies env)
    = (Returned None, evs ++ [ShowError ("Error checking status: " +:+ msg)])
    /\ retrievals evs = replicate (S (length pre)) (id response)
    /\ fst (chat_turn w env user_input s) = Finished s2
    /\ total_credits_used s2 = total_credits_used s
    /\ store s2 = store s1
    /\ conversation_history s2 = conversation_history s
    /\ uploaded_files s2 = uploaded_files s.
Proof.
  intros Hk Hu Hc Hm Hr Hpre s1 s2.
  destruct (poll_loop_transport_error (id response) 0 pre msg rest Hpre)
    as (evs & E & R & _).
  exists (Progress 0 :: evs). unfold poll_task_status. rewrite Hr, E.
  split; [done|]. split; [exact R|]. split; [|done].
  unfold chat_turn. rewrite Hk, Hu, Hc, Hm. cbn [negb].
  unfold poll_task_status. rewrite Hr, E. done.
Qed.

Lemma transport_error_aborts_poll_witness :
  exists evs,
    poll_task_status "task_1" (ce_replies Samples.run_interrupted)
    = (Returned None,
       evs ++ [ShowError ("Error checking status: " +:+ "Connection reset by peer")])
    /\ retrievals evs = replicate 2 "task_1"
    /\ fst (chat_turn Samples.widgets Samples.run_interrupted
              "Summarize this text" initial_state)
       = Finished (after_create Samples.created
                     (after_send Samples.run_interrupted
                        "Summarize this text" initial_state))
    /\ total_credits_used
         (after_create Samples.created
            (after_send Samples.run_interrupted "Summarize this text" initial_state))
       = total_credits_used initial_state
    /\ store (after_create Samples.created
                (after_send Samples.run_interrupted "Summarize this text"
                   initial_state))
       = store (after_send Samples.run_interrupted "Summarize this text"
                  initial_state)
    /\ conversation_history
         (after_create Samples.created
            (after_send Samples.run_interrupted "Summarize this text" initial_state))
       = conversation_history initial_state
    /\ uploaded_files
         (after_create Samples.created
            (after_send Samples.run_interrupted "Summarize this text" initial_state))
       = uploaded_files initial_state.
Proof.
  apply (transport_error_aborts_poll Samples.widgets Samples.run_interrupted
           "Summarize this text" initial_state Samples.created
           (<["task_url" := Py.VStr "https://manus.im/app/task_1"]> ∅)
           [Samples.snapshot "running" (Py.VInt 0) []]
           "Connection reset by peer"
           [Snapshot (Samples.snapshot "completed" (Py.VInt 2)
                        [Samples.assistant_says ["Done."]])]);
    try reflexivity.
  repeat constructor.
Defined.

End AbortFacts.

(* --------------------------------------------------------------------- *)
(** ** The conversation history *)
(* --------------------------------------------------------------------- *)

Section HistoryFacts.
Import Remote App.

Lemma deref_alloc x s l :
  deref s l <> [] -> deref (snd (alloc x s)) l = deref s l.
Proof.
  unfold deref, alloc. cbn. intros H.
  destruct (store s !! l) as [v|] eqn:E; [|done].
  by rewrite (lookup_app_l_Some _ _ _ _ E).
Qed.

(** Appending to the current list empties no list, whatever names it. *)
Lemma deref_append_message m s l :
  deref s l <> [] -> deref (append_message m s) l <> [].
Proof.
  unfold deref, append_message. cbn. intros H.
  destruct (decide (messages s = l)) as [->|Hne].
  - rewrite list_lookup_alter_eq. destruct (store s !! l) as [v|]; [|done].
    cbn. intros Hv. by apply app_eq_nil in Hv as [_ ?].
  - by rewrite list_lookup_alter_ne.
Qed.

Lemma extends_history_nonempty s s' :
  extends s s' -> history_nonempty s -> history_nonempty s'.
Proof.
  unfold history_nonempty. intros [Hh Hd] H. rewrite Hh.
  eapply Forall_impl; [exact H|]. intros conv. apply Hd.
Qed.

Lemma extends_refl s : extends s s.
Proof. by split. Qed.

Lemma extends_trans s1 s2 s3 : extends s1 s2 -> extends s2 s3 -> extends s1 s3.
Proof. intros [H1 D1] [H2 D2]. split; [congruence | auto]. Qed.

Lemma extends_same_store s s' :
  conversation_history s' = conversation_history s -> store s' = store s ->
  extends s s'.
Proof. intros Hh Hs. split; [done|]. unfold deref. by rewrite Hs. Qed.

Lemma extends_append_message m s : extends s (append_message m s).
Proof. split; [done|]. intros l. apply deref_append_message. Qed.

Lemma extends_record_completion now url task s :
  extends s (state_of (record_completion now url task s)).
Proof.
  unfold record_completion.
  destruct (extract_output task) as [text files].
  destruct (metadata task) as [md|]; cbn.
  - destruct (Py.int_add _ _) as [e|total]; cbn; [apply extends_refl|].
    eapply extends_trans; [|apply extends_same_store; reflexivity].
    eapply extends_trans; [|apply extends_append_message].
    by apply extends_same_store.
  - eapply extends_trans; [|apply extends_same_store; reflexivity].
    apply extends_append_message.
Qed.

Lemma extends_chat_turn w env user_input s :
  extends s (state_of (fst (chat_turn w env user_input s))).
Proof.
  unfold chat_turn.
  destruct (negb (Py.str_truthy (w_api_key w))); [apply extends_refl|].
  destruct (negb (Py.str_truthy user_input)); [apply extends_refl|].
  assert (E1 : extends s (after_send env user_input s))
    by apply extends_append_message.
  destruct (ce_created env) as [response|msg]; [|exact E1].
  assert (E2 : extends s (after_create response (after_send env user_input s))).
  { eapply extends_trans; [exact E1|]. by apply extends_same_store. }
  destruct (metadata response) as [md|]; [|exact E2].
  destruct (poll_task_status _ _) as [[[t|]|] evs]; cbn [fst state_of];
    try exact E2.
  eapply extends_trans; [exact E2|]. apply extends_record_completion.
Qed.

(** What [save_conversation_to_history] does to the history. *)
Lemma save_conversation_history now s :
  let s' := save_conversation_to_history now s in
  match deref s (messages s) with
  | [] => s' = s
  | _ :: _ =>
      exists conv,
        conversation_history s' = conversation_history s ++ [conv]
        /\ conv_messages conv = length (store s)
        /\ store s' = store s ++ [deref s (messages s)]
  end.
Proof.
  unfold save_conversation_to_history.
  destruct (deref s (messages s)) as [|m ms] eqn:E; [done|].
  cbn. eexists. done.
Qed.

Lemma save_conversation_nonempty now s :
  history_nonempty s -> history_nonempty (save_conversation_to_history now s).
Proof.
  intros H. pose proof (save_conversation_history now s) as S. cbn in S.
  destruct (deref s (messages s)) as [|m ms] eqn:E; [by rewrite S|].
  destruct S as (conv & Hh & Hc & Hs).
  unfold history_nonempty, deref in *. rewrite Hh, Hs.
  apply Forall_app. split.
  - eapply Forall_impl; [exact H|]. intros c Hc'. cbn in Hc'.
    destruct (store s !! conv_messages c) as [v|] eqn:L; [|done].
    by rewrite (lookup_app_l_Some _ _ _ _ L).
  - apply Forall_singleton. rewrite Hc.
    rewrite lookup_app_r by done. by rewrite Nat.sub_diag.
Qed.

Lemma history_nonempty_same s s' :
  conversation_history s' = conversation_history s -> store s' = store s ->
  history_nonempty s -> history_nonempty s'.
Proof. intros Hh Hs. apply extends_history_nonempty. by apply extends_same_store. Qed.

Lemma history_nonempty_alloc x s :
  history_nonempty s -> history_nonempty (snd (alloc x s)).
Proof.
  apply extends_history_nonempty. split; [done|].
  intros l Hl. by rewrite deref_alloc.
Qed.

Lemma perform_history_nonempty s a :
  history_nonempty s -> history_nonempty (perform s a).
Proof.
  intros H. destruct a as [w env u|now|now idx| |w svc files|k]; cbn.
  - eapply extends_history_nonempty; [apply extends_chat_turn | exact H].
  - unfold new_chat. cbn.
    eapply history_nonempty_same; [..|apply history_nonempty_alloc,
      save_conversation_nonempty, H]; reflexivity.
  - unfold load_conversation. destruct (_ !! idx); [|exact H].
    eapply history_nonempty_same; [..|apply save_conversation_nonempty, H];
      reflexivity.
  - exact H.
  - destruct (process_all_uploads_core w svc files s) as (_ & Hh & Hs).
    by eapply history_nonempty_same.
  - exact H.
Qed.

Lemma session_history_nonempty acts s :
  history_nonempty s -> history_nonempty (fold_left perform acts s).
Proof.
  revert s. induction acts as [|a acts IH]; intros s H; [done|].
  cbn. by apply IH, perform_history_nonempty.
Qed.

(** C10. "New Chat" on an empty conversation leaves the history as it is;
    on a non-empty one it appends one entry, which holds a copy of the
    current messages; and along any session, whatever the actions (chat
    turns, new chats, loads of saved conversations, which make the current
    list the saved entry's own list), every history entry holds at least
    one message. *)
Theorem history_holds_no_empty_conversation :
  (forall now s, deref s (messages s) = [] ->
      conversation_history (new_chat now s) = conversation_history s)
  /\ (forall now s, deref s (messages s) <> [] ->
      exists conv,
        conversation_history (new_chat now s) = conversation_history s ++ [conv]
        /\ deref (new_chat now s) (conv_messages conv) = deref s (messages s))
  /\ (forall acts conv,
        conv ∈ conversation_history (run_session acts) ->
        deref (run_session acts) (conv_messages conv) <> []).
Proof.
  split; [|split].
  - intros now s E. unfold new_chat, save_conversation_to_history.
    by rewrite E.
  - intros now s E. pose proof (save_conversation_history now s) as S.
    cbn in S. unfold new_chat. cbn.
    destruct (deref s (messages s)) as [|m ms] eqn:D; [done|].
    destruct S as (conv & Hh & Hc & Hs). exists conv. split; [done|].
    unfold deref. cbn. rewrite Hs, Hc.
    rewrite lookup_app_l by (rewrite length_app; cbn; lia).
    rewrite lookup_app_r by done. by rewrite Nat.sub_diag.
  - intros acts conv Hin.
    assert (H : history_nonempty (run_session acts)).
    { apply session_history_nonempty. constructor. }
    unfold history_nonempty in H. rewrite Forall_forall in H. by apply H.
Qed.

(** C10: a chat turn, "New Chat", a load of the saved conversation and a
    second chat turn.  The history then holds the first conversation, whose
    list the load made current, so that the second turn's two messages were
    appended to it, and the copy the load saved; neither is empty. *)
Lemma history_holds_no_empty_conversation_witness :
  let s := run_session
             [ Samples.summarize; NewChat "2024-05-01 10:05:00";
               LoadConversation "2024-05-01 10:06:00" 0; Samples.summarize ] in
  let saved := {| conv_timestamp := "2024-05-01 10:05:00"; conv_messages := 1%nat;
                  conv_task_count := 1; conv_credits_used := 5 |} in
  conversation_history s = [saved]
  /\ messages s = conv_messages saved
  /\ length (deref s (conv_messages saved)) = 4%nat
  /\ deref s (conv_messages saved) <> [].
Proof.
  cbv zeta. split; [vm_compute; reflexivity|].
  split; [vm_compute; reflexivity|]. split; [vm_compute; reflexivity|].
  apply (proj2 (proj2 history_holds_no_empty_conversation)).
  vm_compute. apply list_elem_of_here.
Defined.

End HistoryFacts.

(* --------------------------------------------------------------------- *)
(** ** Upload batches *)
(* --------------------------------------------------------------------- *)

Section UploadFacts.
Import Remote.

Lemma fm_upload_fails svc hist file :
  FileManager.upload_fails svc hist file ->
  fst (FileManager.upload_file_to_manus svc hist
         (FileManager.sf_data file) (FileManager.sf_name file)) = None.
Proof.
  unfold FileManager.upload_fails, FileManager.upload_file_to_manus.
  destruct (post_files svc hist _) as [r|]; [|done].
  by intros ->.
Qed.

Lemma app_upload_fails svc hist file :
  FileManager.upload_fails svc hist file ->
  fst (App.upload_file_to_manus svc hist
         (FileManager.sf_data file) (FileManager.sf_name file)) = None.
Proof. apply fm_upload_fails. Qed.

(** Every call of [upload_file_to_manus] begins with a registration. *)
Lemma fm_upload_registers svc hist data name :
  FileManager.registrations
    (snd (FileManager.upload_file_to_manus svc hist data name))
  = FileManager.registrations hist ++ [name].
Proof.
  unfold FileManager.upload_file_to_manus, FileManager.registrations.
  destruct (post_files svc hist name) as [r|];
    [destruct (put_bytes svc _ _ _)|];
    cbn [snd]; rewrite !omap_app; cbn; by rewrite ?app_nil_r.
Qed.

Lemma upload_all_step_results svc st file now :
  exists rec,
    FileManager.upload_results (FileManager.upload_all_step svc st (file, now))
    = FileManager.upload_results st ++ [rec]
    /\ FileManager.ur_filename rec = FileManager.sf_name file
    /\ (FileManager.ur_status rec = "success"
        \/ FileManager.ur_status rec = "failed")
    /\ (FileManager.upload_fails svc (FileManager.ul_calls st) file ->
        rec = {| FileManager.ur_filename := FileManager.sf_name file;
                 FileManager.ur_file_id := None;
                 FileManager.ur_size := FileManager.size_of file;
                 FileManager.ur_timestamp := now;
                 FileManager.ur_status := "failed" |})
    /\ FileManager.registrations
         (FileManager.ul_calls (FileManager.upload_all_step svc st (file, now)))
       = FileManager.registrations (FileManager.ul_calls st)
         ++ [FileManager.sf_name file].
Proof.
  unfold FileManager.upload_all_step.
  pose proof (fm_upload_fails svc (FileManager.ul_calls st) file) as F.
  pose proof (fm_upload_registers svc (FileManager.ul_calls st)
                (FileManager.sf_data file) (FileManager.sf_name file)) as R.
  destruct (FileManager.upload_file_to_manus svc _ _ _) as [file_id calls].
  cbn [fst snd] in *.
  destruct (Py.opt_str_truthy file_id) eqn:T; eexists;
    (split; [reflexivity|]); cbn; repeat split; auto.
  intros H. rewrite (F H) in T. discriminate.
Qed.

Lemma upload_all_fold svc files st :
  exists more,
    FileManager.upload_results (fold_left (FileManager.upload_all_step svc) files st)
    = FileManager.upload_results st ++ more
    /\ map FileManager.ur_filename more
       = map (fun x => FileManager.sf_name (fst x)) files
    /\ Forall (fun rec => FileManager.ur_status rec = "success"
                          \/ FileManager.ur_status rec = "failed") more
    /\ FileManager.registrations
         (FileManager.ul_calls (fold_left (FileManager.upload_all_step svc) files st))
       = FileManager.registrations (FileManager.ul_calls st)
         ++ map (fun x => FileManager.sf_name (fst x)) files.
Proof.
  revert st. induction files as [|[file now] files IH]; intros st.
  - exists []. cbn. by rewrite !app_nil_r.
  - cbn [fold_left].
    destruct (upload_all_step_results svc st file now)
      as (rec & E & N & S & _ & R).
    destruct (IH (FileManager.upload_all_step svc st (file, now)))
      as (more & E' & N' & S' & R').
    exists (rec :: more). rewrite E', E, R', R. cbn.
    rewrite <- !app_assoc, N, N'. repeat split; try done.
    by constructor.
Qed.

(** The sidebar loop stages nothing for a file whose upload fails. *)
Lemma process_upload_step_failed svc calls s file :
  FileManager.upload_fails svc calls file ->
  App.process_upload_step svc (calls, s) file
  = (snd (App.upload_file_to_manus svc calls
            (FileManager.sf_data file) (FileManager.sf_name file)), s).
Proof.
  intros H. unfold App.process_upload_step.
  pose proof (app_upload_fails svc calls file H) as F.
  destruct (App.upload_file_to_manus svc calls _ _) as [file_id calls1].
  cbn in F. by rewrite F.
Qed.

(** Every staged entry carries the identifier a successful upload of a
    file of the batch returned. *)
Lemma process_upload_fold_staged svc files calls s :
  Forall (fun e =>
            e ∈ App.uploaded_files s
            \/ exists file hist,
                 file ∈ files
                 /\ App.uf_name e = FileManager.sf_name file
                 /\ fst (App.upload_file_to_manus svc hist
                           (FileManager.sf_data file) (FileManager.sf_name file))
                    = Some (App.uf_id e))
    (App.uploaded_files
       (snd (fold_left (App.process_upload_step svc) files (calls, s)))).
Proof.
  revert calls s. induction files as [|f files IH]; intros calls s.
  - cbn. apply Forall_forall. by left.
  - cbn [fold_left]. unfold App.process_upload_step at 2.
    destruct (App.upload_file_to_manus svc calls _ _) as [file_id calls1] eqn:U.
    destruct (Py.opt_str_truthy file_id) eqn:T.
    + eapply Forall_impl; [apply IH|]. cbn.
      intros e [He | (file & hist & Hin & Hn & Hu)].
      * apply elem_of_app in He as [He | He]; [by left|].
        apply list_elem_of_singleton in He as ->. right.
        exists f, calls. rewrite U. cbn.
        destruct file_id; [|done]. split; [apply list_elem_of_here | done].
      * right. exists file, hist. split; [by apply list_elem_of_further | done].
    + eapply Forall_impl; [apply IH|]. cbn.
      intros e [He | (file & hist & Hin & Hn & Hu)]; [by left|].
      right. exists file, hist. split; [by apply list_elem_of_further | done].
Qed.

(** The task-creation request of a chat turn attaches the identifiers of
    the staged files, and nothing else. *)
Lemma chat_turn_attaches w env user_input s :
  Py.str_truthy (App.w_api_key w) = true ->
  Py.str_truthy user_input = true ->
  exists rq evs,
    snd (App.chat_turn w env user_input s) = App.CallCreate rq :: evs
    /\ App.attached rq = map App.uf_id (App.uploaded_files s).
Proof.
  intros Hk Hu. unfold App.chat_turn. rewrite Hk, Hu. cbn [negb].
  change (App.uploaded_files (App.after_send env user_input s))
    with (App.uploaded_files s).
  set (ids := map App.uf_id (App.uploaded_files s)).
  assert (A : forall prev,
    App.attached
      (App.create_request user_input
         match ids with [] => None | _ :: _ => Some ids end None
         (App.w_agent_profile w) prev (App.w_timeout_seconds w))
    = ids).
  { intros prev. unfold App.attached, App.create_request.
    cbn [App.rq_content Py.opt_str_truthy]. rewrite app_nil_r.
    cbn [app omap list_omap].
    destruct ids as [|i l]; [done|].
    induction (i :: l) as [|x xs IH]; [done|]. cbn. by rewrite IH. }
  destruct (App.ce_created env) as [response|msg]; [|by eexists _, _].
  destruct (metadata response) as [md|]; [|by eexists _, _].
  destruct (App.poll_task_status _ _) as [[[t|]|] evs]; by eexists _, _.
Qed.

Lemma process_upload_fold_registers svc files calls s :
  FileManager.registrations
    (fst (fold_left (App.process_upload_step svc) files (calls, s)))
  = FileManager.registrations calls ++ map FileManager.sf_name files.
Proof.
  revert calls s. induction files as [|f files IH]; intros calls s.
  - cbn. by rewrite app_nil_r.
  - cbn [fold_left]. unfold App.process_upload_step at 2.
    pose proof (fm_upload_registers svc calls (FileManager.sf_data f)
                  (FileManager.sf_name f)) as R.
    change (FileManager.upload_file_to_manus svc calls (FileManager.sf_data f)
              (FileManager.sf_name f))
      with (App.upload_file_to_manus svc calls (FileManager.sf_data f)
              (FileManager.sf_name f)) in R.
    destruct (App.upload_file_to_manus svc calls _ _) as [file_id calls1].
    cbn [snd] in R.
    destruct (Py.opt_str_truthy file_id); rewrite IH, R, <- app_assoc; done.
Qed.

(** What one call of [upload_file_to_manus] does, read off the service:
    the calls it adds and the identifier the handlers keep. *)
Lemma fm_upload_exact svc hist file :
  snd (FileManager.upload_file_to_manus svc hist
         (FileManager.sf_data file) (FileManager.sf_name file))
  = hist ++ Observations.file_calls svc hist file
  /\ (let file_id :=
        fst (FileManager.upload_file_to_manus svc hist
               (FileManager.sf_data file) (FileManager.sf_name file)) in
      (if Py.opt_str_truthy file_id then file_id else None)
      = Observations.file_outcome svc hist file).
Proof.
  unfold FileManager.upload_file_to_manus, Observations.file_calls,
    Observations.file_outcome.
  destruct (post_files svc hist _) as [r|]; [|done].
  destruct (put_bytes svc _ _ _); cbn [fst snd andb Py.opt_str_truthy].
  - split; [by rewrite <- app_assoc|]. by destruct (Py.str_truthy (fr_id r)).
  - split; [by rewrite <- app_assoc | done].
Qed.

Lemma upload_all_step_exact svc st file now :
  FileManager.ul_calls (FileManager.upload_all_step svc st (file, now))
  = FileManager.ul_calls st
    ++ Observations.file_calls svc (FileManager.ul_calls st) file
  /\ FileManager.upload_results (FileManager.upload_all_step svc st (file, now))
     = FileManager.upload_results st
       ++ [Observations.record_of file now
             (Observations.file_outcome svc (FileManager.ul_calls st) file)].
Proof.
  unfold FileManager.upload_all_step.
  destruct (fm_upload_exact svc (FileManager.ul_calls st) file) as [C O].
  cbv zeta in O.
  destruct (FileManager.upload_file_to_manus svc _ _ _) as [file_id calls].
  cbn [fst snd] in *. rewrite <- O, C.
  destruct (Py.opt_str_truthy file_id) eqn:T; cbn; split; try done.
  destruct file_id; [done | discriminate].
Qed.

Lemma upload_all_fold_exact svc batch : forall st,
  FileManager.ul_calls (fold_left (FileManager.upload_all_step svc) batch st)
  = FileManager.ul_calls st
    ++ Observations.batch_calls svc (FileManager.ul_calls st) (map fst batch)
  /\ FileManager.upload_results
       (fold_left (FileManager.upload_all_step svc) batch st)
     = FileManager.upload_results st
       ++ Observations.batch_records svc (FileManager.ul_calls st) batch.
Proof.
  induction batch as [|[file now] batch IH]; intros st.
  - cbn. by rewrite !app_nil_r.
  - cbn [fold_left map fst Observations.batch_calls Observations.batch_records].
    destruct (upload_all_step_exact svc st file now) as [C R].
    destruct (IH (FileManager.upload_all_step svc st (file, now))) as [-> ->].
    rewrite C, R, <- !app_assoc. done.
Qed.

Lemma upload_all_files_exact svc batch :
  FileManager.ul_calls (FileManager.upload_all_files svc batch)
  = Observations.batch_calls svc [] (map fst batch)
  /\ FileManager.upload_results (FileManager.upload_all_files svc batch)
     = Observations.batch_records svc [] batch.
Proof. apply upload_all_fold_exact. Qed.

Lemma process_upload_step_exact svc calls s file :
  App.process_upload_step svc (calls, s) file
  = (calls ++ Observations.file_calls svc calls file,
     App.set_uploaded_files
       (App.uploaded_files s
        ++ Observations.staged_of file (Observations.file_outcome svc calls file))
       s).
Proof.
  unfold App.process_upload_step.
  destruct (fm_upload_exact svc calls file) as [C O]. cbv zeta in O.
  change (FileManager.upload_file_to_manus svc calls (FileManager.sf_data file)
            (FileManager.sf_name file))
    with (App.upload_file_to_manus svc calls (FileManager.sf_data file)
            (FileManager.sf_name file)) in *.
  destruct (App.upload_file_to_manus svc calls _ _) as [file_id calls1].
  cbn [fst snd] in *. rewrite <- O, C.
  destruct (Py.opt_str_truthy file_id) eqn:T.
  - destruct file_id; [done | discriminate].
  - cbn [Observations.staged_of]. rewrite app_nil_r. by destruct s.
Qed.

Lemma process_upload_fold_exact svc files : forall calls s,
  fold_left (App.process_upload_step svc) files (calls, s)
  = (calls ++ Observations.batch_calls svc calls files,
     App.set_uploaded_files
       (App.uploaded_files s ++ Observations.batch_staging svc calls files) s).
Proof.
  induction files as [|f files IH]; intros calls s.
  - cbn. rewrite !app_nil_r. by destruct s.
  - cbn [fold_left Observations.batch_calls Observations.batch_staging].
    rewrite process_upload_step_exact, IH. cbn. by rewrite <- !app_assoc.
Qed.

(** The staging the "Process All Uploads" button leaves. *)
Lemma process_all_uploads_exact w svc files s :
  App.process_all_uploads w svc files s
  = match files with
    | [] => ([], s)
    | _ :: _ =>
        if Py.str_truthy (App.w_api_key w)
        then (Observations.batch_calls svc [] files,
              App.set_uploaded_files (Observations.batch_staging svc [] files) s)
        else ([], s)
    end.
Proof.
  unfold App.process_all_uploads. destruct files as [|f files]; [done|].
  destruct (Py.str_truthy (App.w_api_key w)); [|done].
  by rewrite process_upload_fold_exact.
Qed.

Lemma file_outcome_ignores svc hist file :
  Observations.ignores_history svc ->
  Observations.file_outcome svc hist file = Observations.file_outcome svc [] file.
Proof.
  intros [P B]. unfold Observations.file_outcome.
  rewrite (P hist []). destruct (post_files svc [] _) as [r|]; [|done].
  by rewrite (B _ ([] ++ [PostFiles (FileManager.sf_name file)])).
Qed.

Lemma batch_records_ignores svc batch : forall hist,
  Observations.ignores_history svc ->
  Observations.batch_records svc hist batch
  = map (fun x => Observations.record_of (fst x) (snd x)
                    (Observations.file_outcome svc [] (fst x))) batch.
Proof.
  induction batch as [|[file now] batch IH]; intros hist H; [done|].
  cbn [Observations.batch_records map fst snd].
  by rewrite IH, (file_outcome_ignores svc hist file H).
Qed.

Lemma batch_staging_ignores svc files : forall hist,
  Observations.ignores_history svc ->
  Observations.batch_staging svc hist files
  = concat (map (fun f => Observations.staged_of f
                            (Observations.file_outcome svc [] f)) files).
Proof.
  induction files as [|f files IH]; intros hist H; [done|].
  cbn [Observations.batch_staging map concat].
  by rewrite IH, (file_outcome_ignores svc hist f H).
Qed.

(** C6. In the file manager's batch handler the result records are one per
    file, in input order, and the record of a file is that of its own
    outcome: [success] with the identifier when its registration and its
    byte upload succeed, [failed] without identifier otherwise, whatever
    became of the files before it (which the service may have seen, and
    nothing else carries over).  For a service whose answers do not depend on
    earlier calls, each record is a function of its file alone.  In the chat
    sidebar's handler the staged entries are those of the files that got an
    identifier, in input order, the failing files staging nothing; and the
    next task-creation request attaches exactly the identifiers of the staged
    entries, hence none of a file that failed. *)
Theorem failed_upload_is_isolated :
  (forall svc batch,
      FileManager.upload_results (FileManager.upload_all_files svc batch)
      = Observations.batch_records svc [] batch)
  /\ (forall svc batch,
        Observations.ignores_history svc ->
        FileManager.upload_results (FileManager.upload_all_files svc batch)
        = map (fun x => Observations.record_of (fst x) (snd x)
                          (Observations.file_outcome svc [] (fst x))) batch)
  /\ (forall svc batch,
        map FileManager.ur_filename
          (FileManager.upload_results (FileManager.upload_all_files svc batch))
        = map (fun x => FileManager.sf_name (fst x)) batch)
  /\ (forall svc files1 file now files2,
        FileManager.upload_fails svc
          (FileManager.ul_calls (FileManager.upload_all_files svc files1)) file ->
        FileManager.upload_results
          (FileManager.upload_all_files svc (files1 ++ (file, now) :: files2))
        !! length files1
        = Some {| FileManager.ur_filename := FileManager.sf_name file;
                  FileManager.ur_file_id := None;
                  FileManager.ur_size := FileManager.size_of file;
                  FileManager.ur_timestamp := now;
                  FileManager.ur_status := "failed" |})
  /\ (forall w svc files s,
        Py.str_truthy (App.w_api_key w) = true -> files <> [] ->
        App.uploaded_files (snd (App.process_all_uploads w svc files s))
        = Observations.batch_staging svc [] files)
  /\ (forall w env user_input s,
        Py.str_truthy (App.w_api_key w) = true ->
        Py.str_truthy user_input = true ->
        exists rq evs,
          snd (App.chat_turn w env user_input s) = App.CallCreate rq :: evs
          /\ App.attached rq = map App.uf_id (App.uploaded_files s))
  /\ (forall w svc files s w' env user_input,
        Py.str_truthy (App.w_api_key w) = true -> files <> [] ->
        Py.str_truthy (App.w_api_key w') = true ->
        Py.str_truthy user_input = true ->
        exists rq evs,
          snd (App.chat_turn w' env user_input
                 (snd (App.process_all_uploads w svc files s)))
          = App.CallCreate rq :: evs
          /\ App.attached rq
             = map App.uf_id (Observations.batch_staging svc [] files)).
Proof.
  pose (init := {| FileManager.ul_calls := []; FileManager.uploaded_count := 0;
                   FileManager.upload_results := [] |}).
  assert (S : forall w svc files s,
             Py.str_truthy (App.w_api_key w) = true -> files <> [] ->
             App.uploaded_files (snd (App.process_all_uploads w svc files s))
             = Observations.batch_staging svc [] files).
  { intros w svc files s Hk Hne. rewrite process_all_uploads_exact, Hk.
    by destruct files. }
  split; [|split; [|split; [|split; [|split; [|split]]]]].
  - intros svc batch. apply upload_all_files_exact.
  - intros svc batch H.
    destruct (upload_all_files_exact svc batch) as [_ ->].
    by apply batch_records_ignores.
  - intros svc batch. unfold FileManager.upload_all_files.
    destruct (upload_all_fold svc batch init) as (more & E & N & _).
    unfold init in E. rewrite E. exact N.
  - intros svc files1 file now files2 H.
    unfold FileManager.upload_all_files in *. rewrite fold_left_app.
    cbn [fold_left]. fold init in H |- *.
    destruct (upload_all_fold svc files1 init) as (more1 & E1 & N1 & _).
    destruct (upload_all_step_results svc
                (fold_left (FileManager.upload_all_step svc) files1 init) file now)
      as (rec & E & _ & _ & F & _).
    destruct (upload_all_fold svc files2
                (FileManager.upload_all_step svc
                   (fold_left (FileManager.upload_all_step svc) files1 init)
                   (file, now))) as (more2 & E2 & _).
    rewrite E2, E, E1, (F H). cbn [FileManager.upload_results init app].
    assert (L : length more1 = length files1).
    { rewrite <- (length_map FileManager.ur_filename), N1. apply length_map. }
    rewrite <- L, <- app_assoc. rewrite lookup_app_r by done.
    by rewrite Nat.sub_diag.
  - exact S.
  - apply chat_turn_attaches.
  - intros w svc files s w' env user_input Hk Hne Hk' Hu.
    destruct (chat_turn_attaches w' env user_input
                (snd (App.process_all_uploads w svc files s)) Hk' Hu)
      as (rq & evs & E & A).
    exists rq, evs. split; [exact E|]. by rewrite A, S.
Qed.

(** C5 (as amended). Neither upload handler checks a file's size or
    extension.  Whatever the file is, [upload_file_to_manus] makes the
    registration call, and the byte upload exactly when the registration is
    answered.  In a batch each file causes these calls in input order: the
    log of the file manager's handler and that of the sidebar's handler (when
    an API key is entered) are the calls of the files one after the other.
    The file manager keeps one record per file, in input order, each with
    status [success] or [failed]; the sidebar stages the files that got an
    identifier and keeps no record of the others; the status [rejected] does
    not occur. *)
Theorem every_file_is_registered :
  (forall svc hist file,
      snd (FileManager.upload_file_to_manus svc hist
             (FileManager.sf_data file) (FileManager.sf_name file))
      = hist ++ Observations.file_calls svc hist file
      /\ snd (App.upload_file_to_manus svc hist
                (FileManager.sf_data file) (FileManager.sf_name file))
         = hist ++ Observations.file_calls svc hist file)
  /\ (forall svc batch,
        let run := FileManager.upload_all_files svc batch in
        FileManager.ul_calls run = Observations.batch_calls svc [] (map fst batch)
        /\ FileManager.registrations (FileManager.ul_calls run)
           = map (fun x => FileManager.sf_name (fst x)) batch
        /\ map FileManager.ur_filename (FileManager.upload_results run)
           = map (fun x => FileManager.sf_name (fst x)) batch
        /\ Forall (fun rec => FileManager.ur_status rec = "success"
                              \/ FileManager.ur_status rec = "failed")
             (FileManager.upload_results run)
        /\ Forall (fun rec => FileManager.ur_status rec <> "rejected")
             (FileManager.upload_results run))
  /\ (forall w svc f files s,
        fst (App.process_all_uploads w svc (f :: files) s)
        = (if Py.str_truthy (App.w_api_key w)
           then Observations.batch_calls svc [] (f :: files) else [])
        /\ FileManager.registrations
             (fst (App.process_all_uploads w svc (f :: files) s))
           = (if Py.str_truthy (App.w_api_key w)
              then map FileManager.sf_name (f :: files) else [])
        /\ App.uploaded_files (snd (App.process_all_uploads w svc (f :: files) s))
           = (if Py.str_truthy (App.w_api_key w)
              then Observations.batch_staging svc [] (f :: files)
              else App.uploaded_files s)).
Proof.
  split; [|split].
  - intros svc hist file. split; apply fm_upload_exact.
  - intros svc batch. cbv zeta.
    destruct (upload_all_files_exact svc batch) as [C _].
    unfold FileManager.upload_all_files in *.
    set (init := {| FileManager.ul_calls := []; FileManager.uploaded_count := 0;
                    FileManager.upload_results := [] |}) in *.
    destruct (upload_all_fold svc batch init) as (more & R & N & S & G).
    split; [exact C|]. split; [exact G|]. rewrite R. split; [exact N|].
    split; [exact S|].
    eapply Forall_impl; [exact S|]. cbn. by intros rec [-> | ->].
  - intros w svc f files s. split; [|split].
    + rewrite process_all_uploads_exact.
      by destruct (Py.str_truthy (App.w_api_key w)).
    + unfold App.process_all_uploads.
      destruct (Py.str_truthy (App.w_api_key w)); [|done].
      apply (process_upload_fold_registers svc (f :: files) []).
    + rewrite process_all_uploads_exact.
      by destruct (Py.str_truthy (App.w_api_key w)).
Qed.

(** C5 as stated fails: under a configuration that allows [pdf] files
    only, a text file is registered and uploaded like any other, and recorded
    as a success. *)
Lemma file_outside_limits_is_uploaded :
  let run := FileManager.upload_all_files Samples.accepting
               [(Samples.notes_txt, "2024-05-01 10:00:00")] in
  Config.validate Samples.pdf_only = true
  /\ FileManager.spec_within_limits Samples.pdf_only Samples.notes_txt = false
  /\ FileManager.ul_calls run
     = [PostFiles "notes.txt";
        PutBytes "https://upload.manus.im/notes.txt" (list_ascii_of_string "hello")]
  /\ map FileManager.ur_status (FileManager.upload_results run) = ["success"]
  /\ map FileManager.ur_file_id (FileManager.upload_results run)
     = [Some "file_notes.txt"].
Proof. vm_compute. repeat split; reflexivity. Qed.

(** C6: a batch of three files whose second is refused by the service
    yields the records success, failed, success, in input order: the file
    after the failing one is uploaded and keeps its identifier. *)
Lemma failed_upload_is_isolated_witness :
  Observations.ignores_history Samples.refusing_report
  /\ FileManager.upload_results
       (FileManager.upload_all_files Samples.refusing_report
          [ (Samples.notes_txt, "10:00:00"); (Samples.report_pdf, "10:00:01");
            (Samples.notes_txt, "10:00:02") ])
     = [ {| FileManager.ur_filename := "notes.txt";
            FileManager.ur_file_id := Some "file_notes.txt";
            FileManager.ur_size := 5;
            FileManager.ur_timestamp := "10:00:00";
            FileManager.ur_status := "success" |};
         {| FileManager.ur_filename := "report.pdf";
            FileManager.ur_file_id := None;
            FileManager.ur_size := 8;
            FileManager.ur_timestamp := "10:00:01";
            FileManager.ur_status := "failed" |};
         {| FileManager.ur_filename := "notes.txt";
            FileManager.ur_file_id := Some "file_notes.txt";
            FileManager.ur_size := 5;
            FileManager.ur_timestamp := "10:00:02";
            FileManager.ur_status := "success" |} ].
Proof.
  assert (H : Observations.ignores_history Samples.refusing_report)
    by (split; reflexivity).
  split; [exact H|].
  exact (proj1 (proj2 failed_upload_is_isolated) Samples.refusing_report
           [ (Samples.notes_txt, "10:00:00"); (Samples.report_pdf, "10:00:01");
             (Samples.notes_txt, "10:00:02") ] H).
Defined.

End UploadFacts.

(* --------------------------------------------------------------------- *)
(** ** JSON: decoding what the encoder wrote *)
(* --------------------------------------------------------------------- *)

Section JsonFacts.
Import Py Json.

(** The scanner undoes the escape of one character. *)
Lemma scan_string_escape_char c r :
  scan_string (escape_char c ++ r) = cons_char c (scan_string r).
Proof. destruct c as [[] [] [] [] [] [] [] []]; reflexivity. Qed.

Lemma scan_string_escape s rest :
  scan_string (escape s ++ quote :: rest) = Some (s, rest).
Proof.
  induction s as [|c s IH]; [done|].
  cbn [escape]. by rewrite <- app_assoc, scan_string_escape_char, IH.
Qed.

Lemma scan_string_encode s rest :
  exists t, encode_string s ++ rest = quote :: t
            /\ scan_string t = Some (s, rest).
Proof.
  exists (escape s ++ quote :: rest). split.
  - unfold encode_string. cbn. by rewrite <- app_assoc.
  - apply scan_string_escape.
Qed.

Lemma scan_digits_encode d rest :
  no_digit_ahead rest -> scan_digits (encode_uint d ++ rest) = (d, rest).
Proof.
  intros H. induction d as [|d IH|d IH|d IH|d IH|d IH|d IH|d IH|d IH|d IH|d IH];
    try (cbn; by rewrite IH).
  cbn. destruct rest as [|c r]; [done|]. cbn in *. by rewrite H.
Qed.

Lemma delimited_no_digit rest : delimited rest -> no_digit_ahead rest.
Proof. destruct rest as [|c r]; [done|]. by intros [-> | ->]. Qed.

Lemma delimited_no_float rest : delimited rest -> continues_number rest = false.
Proof. destruct rest as [|c r]; [done|]. by intros [-> | ->]. Qed.

(** The decimal digits of a positive number do not begin with 0. *)
Lemma to_uint_leading p : leading_digit (Pos.to_uint p).
Proof.
  assert (U : Decimal.unorm (Pos.to_uint p) = Pos.to_uint p).
  { rewrite <- (DecimalPos.Unsigned.to_of (Pos.to_uint p)).
    by rewrite DecimalPos.Unsigned.of_to. }
  pose proof (DecimalPos.Unsigned.to_uint_nonzero p) as Z.
  pose proof (DecimalPos.Unsigned.to_uint_nonnil p) as N.
  destruct (Pos.to_uint p) as [|d| | | | | | | | |]; try done.
  unfold Decimal.unorm in U. cbn [Decimal.nzhead] in U.
  pose proof (DecimalFacts.nb_digits_nzhead d) as L.
  destruct (Decimal.nzhead d) eqn:E; try discriminate.
  - injection U as <-. by destruct Z.
  - injection U as ->. cbn in L. lia.
Qed.

Lemma scan_integer_encode d rest :
  leading_digit d -> no_digit_ahead rest ->
  scan_integer (encode_uint d ++ rest) = Some (Decimal.Pos d, rest)
  /\ scan_integer ("-"%char :: encode_uint d ++ rest) = Some (Decimal.Neg d, rest).
Proof.
  intros L H.
  pose proof (scan_digits_encode d rest H) as S.
  destruct d; try done; cbn [encode_uint app] in *;
    set (tl := encode_uint d ++ rest) in *; clearbody tl;
    unfold scan_integer; lazy -[scan_digits]; by rewrite S.
Qed.

Lemma scan_number_encode n rest :
  delimited rest -> scan_number (encode_int n ++ rest) = Some (VInt n, rest).
Proof.
  intros D. unfold scan_number, encode_int.
  pose proof (DecimalZ.of_to n) as R.
  destruct n as [|p|p]; cbn [Z.to_int] in *.
  - change (scan_integer (encode_uint Decimal.zero ++ rest))
      with (Some (Decimal.Pos Decimal.zero, rest)).
    cbv beta iota. by rewrite delimited_no_float.
  - destruct (scan_integer_encode (Pos.to_uint p) rest) as [-> _];
      [apply to_uint_leading | by apply delimited_no_digit |].
    cbv beta iota. by rewrite delimited_no_float, R.
  - cbn [app].
    destruct (scan_integer_encode (Pos.to_uint p) rest) as [_ ->];
      [apply to_uint_leading | by apply delimited_no_digit |].
    cbv beta iota. by rewrite delimited_no_float, R.
Qed.

Lemma skip_ws_indent level t : skip_ws (newline_indent level ++ t) = skip_ws t.
Proof.
  unfold newline_indent.
  change (skip_ws ((lf :: repeat " "%char (2 * level)) ++ t))
    with (skip_ws (repeat " "%char (2 * level) ++ t)).
  induction (2 * level)%nat as [|n IH]; [done|]. exact IH.
Qed.

Lemma encode_uint_head d :
  leading_digit d ->
  exists c t, encode_uint d = c :: t /\ opens_value c.
Proof. destruct d; try done; intros _; by eexists _, _. Qed.

Lemma encode_head level v :
  exists c t, encode level v = c :: t /\ opens_value c.
Proof.
  destruct v as [|[]|n|s|[|x xs]|[|kx kxs]]; try by eexists _, _.
  unfold encode, encode_int. destruct n as [|p|p]; cbn [Z.to_int].
  - by eexists _, _.
  - apply encode_uint_head, to_uint_leading.
  - by eexists _, _.
Qed.

Lemma skip_ws_value level v t :
  skip_ws (encode level v ++ t) = encode level v ++ t.
Proof.
  destruct (encode_head level v) as (c & u & -> & W & _).
  cbn [app skip_ws]. by rewrite W.
Qed.

Lemma dict_set_fresh d k v :
  k ∉ map fst d -> dict_set d k v = d ++ [(k, v)].
Proof.
  induction d as [|[k' v'] d IH]; [done|]. cbn. intros H.
  apply not_elem_of_cons in H as [Hne H].
  destruct (String.eqb_spec k' k) as [->|_]; [done|]. by rewrite IH.
Qed.

Lemma dict_of_pairs_acc d acc :
  NoDup (map fst (acc ++ d)) ->
  fold_left (fun d kv => dict_set d (fst kv) (snd kv)) d acc = acc ++ d.
Proof.
  revert acc. induction d as [|[k v] d IH]; intros acc H.
  - by rewrite app_nil_r.
  - cbn [fold_left fst snd]. rewrite dict_set_fresh.
    + rewrite IH; rewrite <- app_assoc; done.
    + rewrite map_app in H. apply NoDup_app in H as (_ & H & _).
      intros Hin. apply (H k Hin). cbn. apply list_elem_of_here.
Qed.

(** [dict(pairs)] keeps pairs with distinct keys as they are. *)
Lemma dict_of_pairs_distinct d : NoDup (map fst d) -> dict_of_pairs d = d.
Proof. intros H. unfold dict_of_pairs. by rewrite dict_of_pairs_acc. Qed.

Lemma encode_list_cons level x xs rest :
  encode level (VList (x :: xs)) ++ rest
  = "["%char :: newline_indent (S level)
    ++ encode (S level) x
    ++ more_items level xs ++ newline_indent level ++ "]"%char :: rest.
Proof.
  cbn [encode]. unfold more_items.
  rewrite <- !app_comm_cons, <- !app_assoc. done.
Qed.

Lemma encode_dict_cons level k x kxs rest :
  encode level (VDict ((k, x) :: kxs)) ++ rest
  = "{"%char :: newline_indent (S level)
    ++ encode_string k ++ chars ": " ++ encode (S level) x
    ++ more_members level kxs ++ newline_indent level ++ "}"%char :: rest.
Proof.
  cbn [encode fst snd]. unfold more_members.
  rewrite <- !app_comm_cons, <- !app_assoc. done.
Qed.

Lemma scan_items_step fuel s :
  scan_items (S fuel) s
  = match scan_value fuel s with
    | None => None
    | Some (v, r) =>
        match skip_ws r with
        | c :: r' =>
            if (N_of_ascii c =? 93)%N then Some ([v], r')
            else if (N_of_ascii c =? 44)%N then
              match scan_items fuel (skip_ws r') with
              | Some (vs, rest) => Some (v :: vs, rest)
              | None => None
              end
            else None
        | [] => None
        end
    end.
Proof. reflexivity. Qed.

Lemma scan_members_step fuel t :
  scan_members (S fuel) (quote :: t)
  = match scan_string t with
    | None => None
    | Some (key, r1) =>
        match skip_ws r1 with
        | c1 :: r2 =>
            if (N_of_ascii c1 =? 58)%N then
              match scan_value fuel (skip_ws r2) with
              | None => None
              | Some (v, r3) =>
                  match skip_ws r3 with
                  | c3 :: r4 =>
                      if (N_of_ascii c3 =? 125)%N then Some ([(key, v)], r4)
                      else if (N_of_ascii c3 =? 44)%N then
                        match scan_members fuel (skip_ws r4) with
                        | Some (kvs, rest) => Some ((key, v) :: kvs, rest)
                        | None => None
                        end
                      else None
                  | [] => None
                  end
              end
            else None
        | [] => None
        end
    end.
Proof. reflexivity. Qed.

(** A member: the key is read back, the colon and the space are passed. *)
Lemma scan_members_head fuel k t :
  scan_members (S fuel) (encode_string k ++ chars ": " ++ t)
  = match scan_value fuel (skip_ws t) with
    | None => None
    | Some (v, r3) =>
        match skip_ws r3 with
        | c3 :: r4 =>
            if (N_of_ascii c3 =? 125)%N then Some ([(k, v)], r4)
            else if (N_of_ascii c3 =? 44)%N then
              match scan_members fuel (skip_ws r4) with
              | Some (kvs, rest) => Some ((k, v) :: kvs, rest)
              | None => None
              end
            else None
        | [] => None
        end
    end.
Proof.
  unfold encode_string. rewrite <- app_comm_cons, <- app_assoc.
  rewrite scan_members_step. cbn [app]. rewrite scan_string_escape.
  reflexivity.
Qed.

Lemma delimited_more_items level xs t :
  delimited (more_items level xs ++ newline_indent level ++ t).
Proof. destruct xs; cbn; auto. Qed.

Lemma delimited_more_members level kxs t :
  delimited (more_members level kxs ++ newline_indent level ++ t).
Proof. destruct kxs; cbn; auto. Qed.

Section Nested.
Variable bound : nat.
Hypothesis scan_smaller :
  forall fuel : nat, (fuel < bound)%nat ->
  forall v level rest,
    (size v < fuel)%nat -> dict_keys_distinct v -> delimited rest ->
    scan_value fuel (encode level v ++ rest) = Some (v, rest).

Lemma scan_items_encode xs : forall x (fuel : nat) level rest,
  (fuel <= bound)%nat ->
  (items_size (x :: xs) < fuel)%nat ->
  items_distinct (x :: xs) ->
  scan_items fuel
    (encode (S level) x ++ more_items level xs
     ++ newline_indent level ++ "]"%char :: rest)
  = Some (x :: xs, rest).
Proof.
  induction xs as [|y ys IH]; intros x fuel level rest Hb Hs [Hx Hd];
    (destruct fuel as [|fuel]; [cbn in Hs; lia|]);
    unfold items_size in Hs; cbn [map list_sum fold_right] in Hs;
    rewrite scan_items_step;
    (rewrite scan_smaller; [| lia | lia | done | apply delimited_more_items]).
  - cbn [more_items map concat app]. by rewrite skip_ws_indent.
  - unfold more_items at 1. cbn [map concat]. fold (more_items level ys).
    rewrite <- app_assoc. cbn [app].
    change (skip_ws ("," :: ?t))%char with ("," :: t)%char.
    cbv beta iota.
    change (N_of_ascii "," =? 93)%N with false.
    change (N_of_ascii "," =? 44)%N with true. cbv beta iota.
    rewrite <- app_assoc, skip_ws_indent, skip_ws_value.
    rewrite (IH y fuel level rest); [done | lia | | done].
    unfold items_size. cbn [map list_sum fold_right]. lia.
Qed.

Lemma scan_members_encode kxs : forall k x (fuel : nat) level rest,
  (fuel <= bound)%nat ->
  (members_size ((k, x) :: kxs) < fuel)%nat ->
  members_distinct ((k, x) :: kxs) ->
  scan_members fuel
    (encode_string k ++ chars ": " ++ encode (S level) x
     ++ more_members level kxs ++ newline_indent level ++ "}"%char :: rest)
  = Some ((k, x) :: kxs, rest).
Proof.
  induction kxs as [|[k' y] kys IH]; intros k x fuel level rest Hb Hs [Hx Hd];
    (destruct fuel as [|fuel]; [cbn in Hs; lia|]);
    unfold members_size in Hs; cbn [map list_sum fold_right snd] in Hs;
    rewrite scan_members_head, skip_ws_value;
    (rewrite scan_smaller; [| lia | lia | done | apply delimited_more_members]).
  - cbn [more_members map concat app]. by rewrite skip_ws_indent.
  - unfold more_members at 1. cbn [map concat fst snd].
    fold (more_members level kys).
    rewrite <- app_assoc. cbn [app].
    change (skip_ws ("," :: ?t))%char with ("," :: t)%char.
    cbv beta iota.
    change (N_of_ascii "," =? 125)%N with false.
    change (N_of_ascii "," =? 44)%N with true. cbv beta iota.
    rewrite <- !app_assoc, skip_ws_indent.
    assert (W : forall t, skip_ws (encode_string k' ++ t) = encode_string k' ++ t)
      by done.
    rewrite W, (IH k' y fuel level rest); [done | lia | | done].
    unfold members_size. cbn [map list_sum fold_right snd]. lia.
Qed.

End Nested.

(** A value that begins with a digit or a minus sign is read as a
    number. *)
Lemma scan_value_number fuel n rest :
  scan_value (S fuel) (encode_int n ++ rest) = scan_number (encode_int n ++ rest).
Proof.
  unfold encode_int. destruct n as [|p|p]; cbn [Z.to_int]; [done| |done].
  pose proof (to_uint_leading p) as L.
  destruct (Pos.to_uint p); done.
Qed.

Lemma scan_value_list fuel t :
  scan_value (S fuel) ("["%char :: t)
  = match skip_ws t with
    | c' :: r' =>
        if (N_of_ascii c' =? 93)%N then Some (VList [], r')
        else
          match scan_items fuel (c' :: r') with
          | Some (items, rest) => Some (VList items, rest)
          | None => None
          end
    | [] => None
    end.
Proof. reflexivity. Qed.

Lemma scan_value_dict fuel t :
  scan_value (S fuel) ("{"%char :: t)
  = match skip_ws t with
    | c' :: r' =>
        if (N_of_ascii c' =? 125)%N then Some (VDict [], r')
        else
          match scan_members fuel (c' :: r') with
          | Some (pairs, rest) => Some (VDict (dict_of_pairs pairs), rest)
          | None => None
          end
    | [] => None
    end.
Proof. reflexivity. Qed.

(** The decoder reads back a value the encoder wrote, and stops where
    the value ends. *)
Lemma scan_value_encode (fuel : nat) : forall v level rest,
  (size v < fuel)%nat -> dict_keys_distinct v -> delimited rest ->
  scan_value fuel (encode level v ++ rest) = Some (v, rest).
Proof.
  induction fuel as [fuel IH] using lt_wf_ind. intros v level rest Hs Hd Hr.
  destruct fuel as [|fuel]; [lia|].
  destruct v as [|[]|n|s|[|x xs]|[|[k x] kxs]]; try reflexivity.
  - change (encode level (VInt n)) with (encode_int n).
    rewrite scan_value_number. by apply scan_number_encode.
  - change (encode level (VStr s)) with (encode_string s).
    destruct (scan_string_encode s rest) as (t & -> & E).
    change (scan_value (S fuel) (quote :: t))
      with (match scan_string t with
            | Some (str, rest) => Some (VStr str, rest)
            | None => None
            end).
    by rewrite E.
  - rewrite encode_list_cons, scan_value_list, skip_ws_indent, skip_ws_value.
    destruct (encode_head (S level) x) as (c & u & E & _ & C & _).
    rewrite E at 1. cbn [app]. rewrite C. rewrite app_comm_cons, <- E.
    rewrite (scan_items_encode (S fuel)); [done | | lia | | done].
    + intros f Hf. apply IH. lia.
    + cbn [size] in Hs. unfold items_size. lia.
  - destruct Hd as [Hk Hd].
    rewrite encode_dict_cons, scan_value_dict, skip_ws_indent.
    assert (W : forall t, skip_ws (encode_string k ++ t) = encode_string k ++ t)
      by done.
    rewrite W. unfold encode_string at 1. cbn [app].
    change (N_of_ascii quote =? 125)%N with false. cbv beta iota.
    change (quote :: (escape k ++ [quote]) ++ ?t) with (encode_string k ++ t).
    rewrite (scan_members_encode (S fuel)); [| | lia | | done].
    + by rewrite dict_of_pairs_distinct.
    + intros f Hf. apply IH. lia.
    + cbn [size] in Hs. unfold members_size. lia.
Qed.

Lemma length_newline_indent level : (1 <= length (newline_indent level))%nat.
Proof. cbn. lia. Qed.

Lemma items_size_cons x xs : items_size (x :: xs) = S (size x + items_size xs).
Proof. reflexivity. Qed.

Lemma members_size_cons kx kxs :
  members_size (kx :: kxs) = S (size (snd kx) + members_size kxs).
Proof. reflexivity. Qed.

Lemma length_more_items level y ys :
  length (more_items level (y :: ys))
  = S (length (newline_indent (S level)) + length (encode (S level) y)
       + length (more_items level ys)).
Proof.
  unfold more_items. cbn [map concat]. rewrite length_app. cbn [length].
  rewrite length_app. lia.
Qed.

Lemma length_more_members level ky kys :
  (S (length (encode (S level) (snd ky)) + length (more_members level kys))
   <= length (more_members level (ky :: kys)))%nat.
Proof.
  unfold more_members. cbn [map concat]. rewrite length_app. cbn [length].
  rewrite !length_app. lia.
Qed.

(** The encoding of a value has at least as many characters as the value
    has constructors. *)
Lemma size_le_length (n : nat) : forall v level,
  (size v <= n)%nat -> (size v <= length (encode level v))%nat.
Proof.
  induction n as [n IH] using lt_wf_ind. intros v level Hn.
  assert (Hitems : forall xs l, (items_size xs < n)%nat ->
            (items_size xs <= length (more_items l xs))%nat).
  { induction xs as [|y ys IHys]; intros l H; [cbn; lia|].
    rewrite items_size_cons in *. rewrite length_more_items.
    pose proof (IH (size y) ltac:(lia) y (S l) ltac:(lia)).
    pose proof (IHys l ltac:(lia)). lia. }
  assert (Hmembers : forall kxs l, (members_size kxs < n)%nat ->
            (members_size kxs <= length (more_members l kxs))%nat).
  { induction kxs as [|ky kys IHkys]; intros l H; [cbn; lia|].
    rewrite members_size_cons in *.
    pose proof (length_more_members l ky kys).
    pose proof (IH (size (snd ky)) ltac:(lia) (snd ky) (S l) ltac:(lia)).
    pose proof (IHkys l ltac:(lia)). lia. }
  destruct v as [|[]|m|s|[|x xs]|[|[k x] kxs]];
    try (destruct (encode_head level (VInt m)) as (c & t & -> & _); cbn; lia);
    try (cbn; lia).
  - pose proof (encode_list_cons level x xs []) as E.
    rewrite app_nil_r in E. rewrite E.
    change (size (VList (x :: xs))) with (S (items_size (x :: xs))) in *.
    rewrite items_size_cons in *.
    cbn [length]. rewrite !length_app.
    pose proof (IH (size x) ltac:(lia) x (S level) ltac:(lia)).
    pose proof (Hitems xs level ltac:(lia)).
    pose proof (length_newline_indent (S level)). lia.
  - pose proof (encode_dict_cons level k x kxs []) as E.
    rewrite app_nil_r in E. rewrite E.
    change (size (VDict ((k, x) :: kxs)))
      with (S (members_size ((k, x) :: kxs))) in *.
    rewrite members_size_cons in *. cbn [snd] in *.
    cbn [length]. rewrite !length_app.
    pose proof (IH (size x) ltac:(lia) x (S level) ltac:(lia)).
    pose proof (Hmembers kxs level ltac:(lia)).
    pose proof (length_newline_indent (S level)). lia.
Qed.

(** [json.loads] gives back every value [json.dumps] was given, provided
    its dicts have distinct keys. *)
Lemma loads_dumps v : dict_keys_distinct v -> loads (dumps v) = Some v.
Proof.
  intros Hd. unfold loads, dumps, chars.
  rewrite list_ascii_of_string_of_list_ascii.
  pose proof (skip_ws_value 0 v []) as W. rewrite app_nil_r in W. rewrite W.
  pose proof (scan_value_encode (S (length (encode 0 v))) v 0 []) as S.
  rewrite app_nil_r in S. rewrite S; [done | | done | done].
  pose proof (size_le_length (size v) v 0 ltac:(lia)). lia.
Qed.

End JsonFacts.

(* --------------------------------------------------------------------- *)
(** ** Export of a conversation *)
(* --------------------------------------------------------------------- *)

Section ExportFacts.
Import Py App.

Lemma messages_distinct (msgs : list message) :
  Forall well_formed_message msgs ->
  Json.dict_keys_distinct (VList (map VDict msgs)).
Proof.
  induction 1 as [|m msgs Hm _ IH]; [done|]. cbn [map].
  split; [exact Hm | exact IH].
Qed.

(** C9. For every sequence of messages (Python dicts: their keys are
    pairwise distinct), parsing the JSON export gives back the sequence of
    message objects itself, hence the same ordered sequence of role and
    content pairs. *)
Theorem json_export_round_trip (msgs : list message) :
  Forall well_formed_message msgs ->
  (export_conversation_history msgs "json" ≫= Json.loads)
  = Some (VList (map VDict msgs))
  /\ parsed_role_contents
       <$> (export_conversation_history msgs "json" ≫= Json.loads)
     = Some (map role_content msgs).
Proof.
  intros H.
  assert (E : export_conversation_history msgs "json" ≫= Json.loads
              = Some (VList (map VDict msgs))).
  { unfold export_conversation_history. cbn [String.eqb].
    change (String.eqb "json" "json") with true. cbn [mbind option_bind].
    by apply loads_dumps, messages_distinct. }
  split; [exact E|]. rewrite E. cbn [fmap option_fmap option_map].
  f_equal. unfold parsed_role_contents. rewrite map_map. done.
Qed.

(** C9: the scenario's conversation comes back from its JSON export. *)
Lemma json_export_round_trip_witness :
  (export_conversation_history Samples.conversation "json" ≫= Json.loads)
  = Some (VList (map VDict Samples.conversation))
  /\ parsed_role_contents
       <$> (export_conversation_history Samples.conversation "json" ≫= Json.loads)
     = Some [ (Some (VStr "user"), Some (VStr "Summarize this text"));
              (Some (VStr "assistant"), Some (VStr "Done.")) ].
Proof.
  apply (json_export_round_trip Samples.conversation).
  repeat constructor; try (apply (bool_decide_unpack _); vm_compute; exact I).
Defined.

End ExportFacts.

(* --------------------------------------------------------------------- *)
(** ** The polling loop on any script *)
(* --------------------------------------------------------------------- *)

Section PollScriptFacts.
Import Remote App.

Lemma poll_loop_returns_terminal tid n script t :
  fst (poll_loop tid n script) = Returned (Some t) ->
  stops_polling (status t) = true.
Proof.
  revert n. induction script as [|r rest IH]; intros n; [done|].
  destruct r as [u|msg]; [|done].
  destruct (stops_polling (status u)) eqn:S.
  - destruct (poll_loop_terminal tid n u rest S) as (-> & _). by intros [= <-].
  - rewrite poll_loop_nonterminal by done. apply IH.
Qed.

(** X1. Whatever the replies are (snapshots and transport errors in any
    order), a snapshot the loop returns is one of the snapshots it received
    and its status is [completed], [error] or [pending]: the loop never hands
    a task that is still running to its caller. *)
Theorem poll_returns_only_terminal (tid : string) (script : list reply) (t : Task) :
  fst (poll_task_status tid script) = Returned (Some t) ->
  stops_polling (status t) = true /\ t ∈ snapshots script.
Proof.
  intros H. split.
  - rewrite poll_task_status_fst in H. by eapply poll_loop_returns_terminal.
  - by eapply poll_returns_snapshot.
Qed.

Lemma poll_returns_only_terminal_witness :
  stops_polling (status (Samples.snapshot "completed" (Py.VInt 2)
                           [Samples.assistant_says ["Done."]])) = true
  /\ Samples.snapshot "completed" (Py.VInt 2) [Samples.assistant_says ["Done."]]
     ∈ snapshots (ce_replies (Samples.run_reporting (Py.VInt 2))).
Proof.
  apply (poll_returns_only_terminal "task_1"). reflexivity.
Defined.

Lemma progress_values_app a b :
  Observations.progress_values (a ++ b)
  = Observations.progress_values a ++ Observations.progress_values b.
Proof. apply omap_app. Qed.

Lemma poll_loop_progress_values tid ts : forall k : nat,
  match list_find (fun t => stops_polling (status t) = true) ts with
  | Some (i, t) =>
      Observations.progress_values (snd (poll_loop tid (Z.of_nat k) (map Snapshot ts)))
      = map Observations.bar_at (seq k i) ++ [Observations.bar_at_end t]
  | None =>
      Observations.progress_values (snd (poll_loop tid (Z.of_nat k) (map Snapshot ts)))
      = map Observations.bar_at (seq k (length ts))
  end.
Proof.
  induction ts as [|t ts IH]; intros k; [done|].
  cbn [list_find map]. case_decide as Ht.
  - cbn [seq map app]. unfold stops_polling in Ht. unfold Observations.bar_at_end.
    cbn [poll_loop].
    destruct (String.eqb (status t) "completed") eqn:C.
    { apply String.eqb_eq in C. by rewrite C. }
    destruct (String.eqb (status t) "error") eqn:E.
    { apply String.eqb_eq in E. by rewrite E. }
    destruct (String.eqb (status t) "pending"); done.
  - apply not_true_is_false in Ht.
    rewrite poll_loop_nonterminal by done. cbn [snd].
    rewrite progress_values_app.
    replace (Z.of_nat k + 1) with (Z.of_nat (S k)) by lia.
    specialize (IH (S k)).
    destruct (list_find _ ts) as [[i u]|];
      cbn [fmap option_fmap option_map prod_map fst snd length seq map];
      rewrite IH; reflexivity.
Qed.

Lemma poll_loop_progress_range tid script : forall n,
  0 <= n ->
  Forall (fun p => 0 <= p <= 100)
    (Observations.progress_values (snd (poll_loop tid n script))).
Proof.
  induction script as [|r rest IH]; intros n Hn; [constructor|].
  destruct r as [u|msg]; [|constructor].
  destruct (stops_polling (status u)) eqn:S.
  - unfold stops_polling in S. cbn [poll_loop].
    destruct (String.eqb (status u) "completed");
      [repeat constructor; lia|].
    destruct (String.eqb (status u) "error");
      [repeat constructor; lia|].
    destruct (String.eqb (status u) "pending");
      [repeat constructor; lia | done].
  - rewrite poll_loop_nonterminal by done. cbn [snd].
    rewrite progress_values_app. apply Forall_app. split.
    + repeat constructor; lia.
    + apply IH. lia.
Qed.

(** X2. The progress bar is created at 0.  On a sequence of snapshots the
    loop then gives it [min(50 + 2k, 95)] at the non-terminal snapshot
    number [k] (counted from 0) and, at the snapshot that ends the loop, 100
    for [completed] and [error] but 75 for [pending], so that the bar may
    move back at the end; a retrieval that raises ends the loop without a
    further value.  Whatever the replies are, every value lies between 0
    and 100, the range the widget accepts. *)
Theorem poll_progress_in_range (tid : string) :
  (forall ts : list Task,
      let shown :=
        Observations.progress_values (snd (poll_task_status tid (map Snapshot ts))) in
      match list_find (fun t => stops_polling (status t) = true) ts with
      | Some (i, t) =>
          shown = 0 :: map Observations.bar_at (seq 0 i)
                       ++ [Observations.bar_at_end t]
      | None => shown = 0 :: map Observations.bar_at (seq 0 (length ts))
      end)
  /\ (forall (pre : list Task) (msg : string) (rest : list reply),
        Forall (fun t => stops_polling (status t) = false) pre ->
        Observations.progress_values
          (snd (poll_task_status tid
                  (map Snapshot pre ++ TransportError msg :: rest)))
        = 0 :: map Observations.bar_at (seq 0 (length pre)))
  /\ (forall script : list reply,
        Forall (fun p => 0 <= p <= 100)
          (Observations.progress_values (snd (poll_task_status tid script)))).
Proof.
  split; [|split].
  - intros ts. cbv zeta. rewrite poll_task_status_snd.
    pose proof (poll_loop_progress_values tid ts 0) as H.
    change (Z.of_nat 0) with 0 in H.
    destruct (list_find _ ts) as [[i t]|];
      change (Observations.progress_values (Progress 0 :: ?l))
        with (0 :: Observations.progress_values l);
      by rewrite H.
  - intros pre msg rest Hpre. rewrite poll_task_status_snd.
    change (Observations.progress_values (Progress 0 :: ?l))
      with (0 :: Observations.progress_values l).
    f_equal. change 0 with (Z.of_nat 0) at 1. generalize 0%nat as k.
    induction Hpre as [|t pre Ht _ IH]; intros k; [done|].
    cbn [map app length seq]. rewrite poll_loop_nonterminal by done.
    cbn [snd]. rewrite progress_values_app.
    replace (Z.of_nat k + 1) with (Z.of_nat (S k)) by lia.
    by rewrite IH.
  - intros script. rewrite poll_task_status_snd.
    change (Observations.progress_values (Progress 0 :: ?l))
      with (0 :: Observations.progress_values l).
    constructor; [lia|]. apply poll_loop_progress_range. lia.
Qed.

End PollScriptFacts.

(* --------------------------------------------------------------------- *)
(** ** Chat turns in sequence *)
(* --------------------------------------------------------------------- *)

Section TurnFacts.
Import Remote App.

Lemma record_completion_outcome now url task s :
  (exists s', record_completion now url task s = Rerun s'
              /\ uploaded_files s' = []
              /\ current_task_id s' = current_task_id s
              /\ task_count s' = task_count s)
  \/ (exists e, record_completion now url task s = Raised e s).
Proof.
  unfold record_completion. destruct (extract_output task) as [text files].
  destruct (metadata task) as [md|]; cbn.
  - destruct (Py.int_add _ _) as [e|total]; [right; by eexists|].
    left. by eexists.
  - left. by eexists.
Qed.

(** The shape of one run of the chat handler, case by case. *)
Lemma chat_turn_cases w env user_input s :
  let o := fst (chat_turn w env user_input s) in
  let s1 := after_send env user_input s in
  (Py.str_truthy (w_api_key w) && Py.str_truthy user_input = false /\ o = Finished s)
  \/ (Py.str_truthy (w_api_key w) && Py.str_truthy user_input = true
      /\ ((exists msg, ce_created env = TransportError msg /\ o = Finished s1)
          \/ (exists r, ce_created env = Snapshot r
                /\ (o = Finished (after_create r s1)
                    \/ o = Polling (after_create r s1)
                    \/ (exists e, o = Raised e (after_create r s1))
                    \/ (exists s', o = Rerun s'
                          /\ uploaded_files s' = []
                          /\ current_task_id s' = Some (id r)
                          /\ task_count s' = task_count s + 1))))).
Proof.
  cbv zeta. unfold chat_turn.
  destruct (Py.str_truthy (w_api_key w)); cbn [negb andb]; [|by left].
  destruct (Py.str_truthy user_input); cbn [negb]; [|by left].
  right. split; [done|].
  destruct (ce_created env) as [r|msg]; [|left; by eexists].
  right. exists r. split; [done|].
  destruct (metadata r) as [md|]; [|right; right; left; by eexists].
  destruct (poll_task_status _ _) as [[[t|]|] evs]; cbn [fst]; [|by left|by right; left].
  destruct (record_completion_outcome (ce_now_done env)
              (default (Py.VStr "") (md !! "task_url")) t
              (after_create r (after_send env user_input s)))
    as [(s' & -> & F & C & T) | (e & ->)].
  - right; right; right. exists s'. by rewrite F, C, T.
  - right; right; left. by eexists.
Qed.

(** X3. A chat turn empties the staged files only when it ends with a
    stored reply; when task creation fails, when polling is aborted or when
    the handler raises, the files stay staged, although they may already
    have been attached to the created task. *)
Theorem staged_files_cleared_on_completion_only
    (w : Widgets) (env : ChatEnv) (user_input : string) (s : SessionState) :
  match fst (chat_turn w env user_input s) with
  | Rerun s' => uploaded_files s' = []
  | Finished s' | Raised _ s' | Polling s' => uploaded_files s' = uploaded_files s
  end.
Proof.
  destruct (chat_turn_cases w env user_input s)
    as [[_ ->] | [_ [(msg & _ & ->) | (r & _ & [-> | [-> | [(e & ->) | (s' & -> & F & _)]]])]]];
    done.
Qed.

(** X4. The request of the next chat turn attaches exactly the files
    the previous turn left staged: none after a turn that stored a reply, and
    the same files once more after a turn that did not (creation failed,
    polling aborted or still going, handler raised). *)
Theorem unfinished_turn_reattaches_files
    (w1 w2 : Widgets) (env1 env2 : ChatEnv) (u1 u2 : string) (s : SessionState) :
  Py.str_truthy (w_api_key w2) = true ->
  Py.str_truthy u2 = true ->
  exists rq evs,
    snd (chat_turn w2 env2 u2 (state_of (fst (chat_turn w1 env1 u1 s))))
    = CallCreate rq :: evs
    /\ attached rq
       = match fst (chat_turn w1 env1 u1 s) with
         | Rerun _ => []
         | _ => map uf_id (uploaded_files s)
         end.
Proof.
  intros Hk Hu.
  destruct (chat_turn_attaches w2 env2 u2 (state_of (fst (chat_turn w1 env1 u1 s)))
              Hk Hu) as (rq & evs & E & A).
  exists rq, evs. split; [exact E|]. rewrite A.
  destruct (chat_turn_cases w1 env1 u1 s)
    as [[_ ->] | [_ [(msg & _ & ->) | (r & _ & [-> | [-> | [(e & ->) | (s' & -> & F & _)]]])]]];
    cbn [state_of]; try done.
  by rewrite F.
Qed.

Lemma unfinished_turn_reattaches_files_witness :
  let staged := [ {| uf_id := "file_notes.txt"; uf_name := "notes.txt";
                     uf_size := 5; uf_type := "text/plain" |} ] in
  let s := set_uploaded_files staged initial_state in
  exists rq evs,
    snd (chat_turn Samples.widgets (Samples.run_reporting (Py.VInt 2)) "Again"
           (state_of (fst (chat_turn Samples.widgets Samples.run_interrupted
                             "Summarize this text" s))))
    = CallCreate rq :: evs
    /\ attached rq = ["file_notes.txt"].
Proof.
  cbv zeta.
  apply (unfinished_turn_reattaches_files Samples.widgets Samples.widgets
           Samples.run_interrupted (Samples.run_reporting (Py.VInt 2))
           "Summarize this text" "Again"); reflexivity.
Defined.

(** The task identifier a request carries: the session's current one when
    it is a non-empty string. *)
Lemma chat_turn_request_task_id w env user_input s :
  Py.str_truthy (w_api_key w) = true ->
  Py.str_truthy user_input = true ->
  exists rq evs,
    snd (chat_turn w env user_input s) = CallCreate rq :: evs
    /\ rq_task_id rq
       = if Py.opt_str_truthy (current_task_id s) then current_task_id s else None.
Proof.
  intros Hk Hu. unfold chat_turn. rewrite Hk, Hu. cbn [negb].
  destruct (ce_created env) as [r|msg]; [|by eexists _, _].
  destruct (metadata r) as [md|]; [|by eexists _, _].
  destruct (poll_task_status _ _) as [[[t|]|] evs]; by eexists _, _.
Qed.

Lemma chat_turn_current_task w env user_input s r :
  Py.str_truthy (w_api_key w) = true ->
  Py.str_truthy user_input = true ->
  ce_created env = Snapshot r ->
  current_task_id (state_of (fst (chat_turn w env user_input s))) = Some (id r).
Proof.
  intros Hk Hu Hc.
  destruct (chat_turn_cases w env user_input s)
    as [[G _] | [_ [(msg & E & _) | (r' & E & H)]]].
  - by rewrite Hk, Hu in G.
  - congruence.
  - rewrite Hc in E. injection E as <-.
    destruct H as [-> | [-> | [(e & ->) | (s' & -> & _ & C & _)]]]; done.
Qed.

(** X5. Once a task was created in a chat turn, whatever became of its
    polling, the next turn's request names that task as the one to continue;
    after "New Chat" the next request names none; and loading a saved
    conversation does not change which task the next request continues. *)
Theorem next_request_continues_last_task
    (w1 w2 : Widgets) (env1 env2 : ChatEnv) (u1 u2 : string) (s : SessionState)
    (r : Task) :
  Py.str_truthy (w_api_key w1) = true -> Py.str_truthy u1 = true ->
  Py.str_truthy (w_api_key w2) = true -> Py.str_truthy u2 = true ->
  ce_created env1 = Snapshot r -> id r <> "" ->
  let s1 := state_of (fst (chat_turn w1 env1 u1 s)) in
  (exists rq evs,
      snd (chat_turn w2 env2 u2 s1) = CallCreate rq :: evs
      /\ rq_task_id rq = Some (id r))
  /\ (forall now, exists rq evs,
        snd (chat_turn w2 env2 u2 (new_chat now s1)) = CallCreate rq :: evs
        /\ rq_task_id rq = None)
  /\ (forall now idx, exists rq evs,
        snd (chat_turn w2 env2 u2 (load_conversation now idx s1))
        = CallCreate rq :: evs
        /\ rq_task_id rq = Some (id r)).
Proof.
  intros Hk1 Hu1 Hk2 Hu2 Hc Hid s1.
  assert (C : current_task_id s1 = Some (id r))
    by (by apply chat_turn_current_task).
  assert (T : Py.opt_str_truthy (Some (id r)) = true)
    by (cbn; by destruct (id r)).
  split; [|split].
  - destruct (chat_turn_request_task_id w2 env2 u2 s1 Hk2 Hu2)
      as (rq & evs & E & I).
    exists rq, evs. split; [exact E|]. by rewrite I, C, T.
  - intros now.
    destruct (chat_turn_request_task_id w2 env2 u2 (new_chat now s1) Hk2 Hu2)
      as (rq & evs & E & I).
    exists rq, evs. split; [exact E|]. rewrite I. unfold new_chat.
    by destruct (alloc [] _).
  - intros now idx.
    destruct (chat_turn_request_task_id w2 env2 u2
                (load_conversation now idx s1) Hk2 Hu2) as (rq & evs & E & I).
    exists rq, evs. split; [exact E|]. rewrite I.
    assert (L : current_task_id (load_conversation now idx s1) = current_task_id s1).
    { unfold load_conversation. destruct (_ !! idx); [|done]. cbn.
      unfold save_conversation_to_history. by destruct (deref s1 (messages s1)). }
    by rewrite L, C, T.
Qed.

Lemma next_request_continues_last_task_witness :
  exists rq evs,
    snd (chat_turn Samples.widgets (Samples.run_reporting (Py.VInt 2)) "And then?"
           (state_of (fst (chat_turn Samples.widgets Samples.run_interrupted
                             "Summarize this text" initial_state))))
    = CallCreate rq :: evs
    /\ rq_task_id rq = Some "task_1".
Proof.
  refine (proj1 (next_request_continues_last_task Samples.widgets Samples.widgets
                   Samples.run_interrupted (Samples.run_reporting (Py.VInt 2))
                   "Summarize this text" "And then?" initial_state Samples.created
                   _ _ _ _ _ _));
    (reflexivity || discriminate).
Defined.

(** The sidebar upload handler changes the staged files and nothing
    else. *)
Lemma process_upload_fold_fields svc files calls s :
  let s' := snd (fold_left (process_upload_step svc) files (calls, s)) in
  task_count s' = task_count s
  /\ current_task_id s' = current_task_id s
  /\ messages s' = messages s
  /\ api_key s' = api_key s.
Proof.
  revert calls s. induction files as [|f files IH]; intros calls s; [done|].
  cbn [fold_left]. unfold process_upload_step at 2 4 6 8.
  destruct (upload_file_to_manus svc calls _ _) as [file_id calls1].
  destruct (Py.opt_str_truthy file_id); exact (IH calls1 _).
Qed.

Lemma process_all_uploads_fields w svc files s :
  let s' := snd (process_all_uploads w svc files s) in
  task_count s' = task_count s
  /\ current_task_id s' = current_task_id s
  /\ messages s' = messages s
  /\ api_key s' = api_key s.
Proof.
  unfold process_all_uploads. destruct files as [|f files]; [done|].
  destruct (Py.str_truthy (w_api_key w)); [|done].
  apply (process_upload_fold_fields svc (f :: files) [] (set_uploaded_files [] s)).
Qed.

(** X6. The task counter grows by exactly one in a chat turn whose task
    creation succeeds, also when polling then fails or the handler raises,
    and stays as it is in every other turn and under every other action. *)
Theorem task_counter_counts_created_tasks :
  (forall w env user_input s,
      task_count (state_of (fst (chat_turn w env user_input s)))
      = task_count s
        + match ce_created env with
          | Snapshot _ =>
              if Py.str_truthy (w_api_key w) && Py.str_truthy user_input
              then 1 else 0
          | TransportError _ => 0
          end)
  /\ (forall s a, is_chat a = false -> task_count (perform s a) = task_count s).
Proof.
  split.
  - intros w env u s.
    destruct (chat_turn_cases w env u s)
      as [[G ->] | [G [(msg & E & ->) | (r & E & H)]]]; rewrite ?G, ?E.
    + cbn. destruct (ce_created env); lia.
    + cbn. lia.
    + destruct H as [-> | [-> | [(e & ->) | (s' & -> & _ & _ & T)]]]; cbn; lia.
  - intros s a H.
    destruct a as [w env u|now|now idx| |w svc files|k]; try done; cbn.
    + unfold new_chat. cbn. unfold save_conversation_to_history.
      by destruct (deref s (messages s)).
    + unfold load_conversation. destruct (_ !! idx); [|done]. cbn.
      unfold save_conversation_to_history. by destruct (deref s (messages s)).
    + apply process_all_uploads_fields.
Qed.

End TurnFacts.

(* --------------------------------------------------------------------- *)
(** ** Saved conversations and the lists they hold *)
(* --------------------------------------------------------------------- *)

Section SharingFacts.
Import Remote App.

Ltac nothing_added := exists []; split; [by rewrite app_nil_r | cbn; lia].

Lemma perform_history_grows s a :
  exists more,
    conversation_history (perform s a) = conversation_history s ++ more
    /\ (length more <= 1)%nat.
Proof.
  assert (S : forall now, exists more,
            conversation_history (save_conversation_to_history now s)
            = conversation_history s ++ more /\ (length more <= 1)%nat).
  { intros now. pose proof (save_conversation_history now s) as H. cbn in H.
    destruct (deref s (messages s)).
    - rewrite H. nothing_added.
    - destruct H as (conv & -> & _). exists [conv]. split; [done | cbn; lia]. }
  destruct a as [w env u|now|now idx| |w svc files|k]; cbn.
  - destruct (extends_chat_turn w env u s) as [-> _]. nothing_added.
  - unfold new_chat. cbn. apply S.
  - unfold load_conversation. destruct (_ !! idx).
    + cbn. apply S.
    + nothing_added.
  - nothing_added.
  - destruct (process_all_uploads_core w svc files s) as (_ & -> & _).
    nothing_added.
  - nothing_added.
Qed.


Lemma grows_current_refl s : Observations.grows_current s s [].
Proof.
  repeat split; try done. intros _. by rewrite app_nil_r.
Qed.

Lemma grows_current_same_store s s' :
  messages s' = messages s -> store s' = store s ->
  Observations.grows_current s s' [].
Proof.
  intros Hm Hs. unfold Observations.grows_current, deref. rewrite Hm, Hs.
  repeat split; try done. intros _. by rewrite app_nil_r.
Qed.

Lemma grows_current_append m s :
  Observations.grows_current s (append_message m s) [m].
Proof.
  unfold Observations.grows_current, deref, append_message. cbn.
  split; [done|]. split; [apply length_alter|]. split.
  - intros l Hl. by rewrite list_lookup_alter_ne.
  - intros Hr. rewrite list_lookup_alter_eq.
    destruct (lookup_lt_is_Some_2 _ _ Hr) as [v ->]. done.
Qed.

Lemma grows_current_trans s1 s2 s3 a b :
  Observations.grows_current s1 s2 a -> Observations.grows_current s2 s3 b ->
  Observations.grows_current s1 s3 (a ++ b).
Proof.
  intros (M1 & L1 & O1 & H1) (M2 & L2 & O2 & H2).
  split; [congruence|]. split; [congruence|]. split.
  - intros l Hl. rewrite O2, O1; [done..|congruence].
  - intros Hr. rewrite M1, L1 in H2. rewrite H2, H1 by done.
    by rewrite app_assoc.
Qed.

Lemma grows_current_record_completion now url task s :
  exists added,
    Observations.grows_current s (state_of (record_completion now url task s)) added.
Proof.
  unfold record_completion. destruct (extract_output task) as [text files].
  destruct (metadata task) as [md|]; cbn.
  - destruct (Py.int_add _ _) as [e|total]; cbn;
      [exists []; apply grows_current_refl|].
    eexists. rewrite <- (app_nil_l [_]), <- (app_nil_r [_]).
    eapply grows_current_trans;
      [eapply grows_current_trans;
         [by apply grows_current_same_store | apply grows_current_append]
      | by apply grows_current_same_store].
  - eexists. rewrite <- (app_nil_r [_]).
    eapply grows_current_trans;
      [apply grows_current_append | by apply grows_current_same_store].
Qed.

(** A chat turn touches no list but the current one, to which it adds
    the user's message and then, at most, the reply. *)
Lemma grows_current_chat_turn w env user_input s :
  exists added,
    Observations.grows_current s
      (state_of (fst (chat_turn w env user_input s))) added
    /\ (Py.str_truthy (w_api_key w) = true -> Py.str_truthy user_input = true ->
        exists rest,
          added = user_message user_input (ce_now_sent env) (uploaded_files s) :: rest).
Proof.
  unfold chat_turn.
  destruct (Py.str_truthy (w_api_key w)); cbn [negb];
    [|exists []; split; [apply grows_current_refl | done]].
  destruct (Py.str_truthy user_input); cbn [negb];
    [|exists []; split; [apply grows_current_refl | done]].
  set (m := user_message user_input (ce_now_sent env) (uploaded_files s)).
  assert (E1 : Observations.grows_current s (after_send env user_input s) [m])
    by apply grows_current_append.
  destruct (ce_created env) as [r|msg];
    [|exists [m]; split; [exact E1 | by exists []]].
  assert (E2 : Observations.grows_current s
                 (after_create r (after_send env user_input s)) [m]).
  { rewrite <- (app_nil_r [m]). eapply grows_current_trans; [exact E1|].
    by apply grows_current_same_store. }
  destruct (metadata r) as [md|];
    [|exists [m]; split; [exact E2 | by exists []]].
  destruct (poll_task_status _ _) as [[[t|]|] evs]; cbn [fst state_of];
    try (exists [m]; split; [exact E2 | by exists []]).
  destruct (grows_current_record_completion (ce_now_done env)
              (default (Py.VStr "") (md !! "task_url")) t
              (after_create r (after_send env user_input s))) as [added E3].
  exists ([m] ++ added). split; [by eapply grows_current_trans | by exists added].
Qed.

Lemma deref_nonempty_allocated s l : deref s l <> [] -> (l < length (store s))%nat.
Proof.
  unfold deref. intros H. apply lookup_lt_is_Some.
  destruct (store s !! l); [by eexists | done].
Qed.

(** Saving the conversation keeps the staged files and every allocated
    list. *)
Lemma save_conversation_keeps now s :
  let s' := save_conversation_to_history now s in
  uploaded_files s' = uploaded_files s
  /\ messages s' = messages s
  /\ (forall l, (l < length (store s))%nat -> deref s' l = deref s l)
  /\ (length (store s) <= length (store s'))%nat.
Proof.
  pose proof (save_conversation_history now s) as H. cbn in H. cbv zeta.
  unfold save_conversation_to_history in *.
  destruct (deref s (messages s)) as [|m ms]; [done|].
  cbn. repeat split; try done.
  - intros l Hl. unfold deref. cbn. by rewrite lookup_app_l.
  - rewrite length_app. lia.
Qed.

(** X8. Loading a saved conversation makes the current list of messages
    the very list the history record holds: in every session, the next chat
    turn appends the user's message (and any reply) to the saved conversation
    itself, which the history still lists. *)
Theorem loaded_conversation_is_shared
    (acts : list action) (now : string) (idx : nat) (conv : Conversation)
    (w : Widgets) (env : ChatEnv) (user_input : string) :
  reverse (conversation_history (run_session acts)) !! idx = Some conv ->
  Py.str_truthy (w_api_key w) = true ->
  Py.str_truthy user_input = true ->
  let s := run_session acts in
  let s1 := load_conversation now idx s in
  let s2 := state_of (fst (chat_turn w env user_input s1)) in
  messages s1 = conv_messages conv
  /\ conv ∈ conversation_history s2
  /\ exists rest,
       deref s2 (conv_messages conv)
       = deref s (conv_messages conv)
         ++ user_message user_input (ce_now_sent env) (uploaded_files s) :: rest.
Proof.
  intros Hidx Hk Hu s s1 s2.
  assert (Hin : conv ∈ conversation_history s).
  { apply elem_of_reverse. by eapply list_elem_of_lookup_2. }
  assert (Hne : deref s (conv_messages conv) <> []).
  { assert (H : history_nonempty s)
      by (apply session_history_nonempty; constructor).
    unfold history_nonempty in H. rewrite Forall_forall in H. by apply H. }
  pose proof (deref_nonempty_allocated _ _ Hne) as Hr.
  destruct (save_conversation_keeps now s) as (Hf & _ & Hd & Hl).
  assert (E1 : s1 = set_messages (conv_messages conv)
                      (save_conversation_to_history now s)).
  { unfold s1, load_conversation, s. by rewrite Hidx. }
  assert (M1 : messages s1 = conv_messages conv) by (by rewrite E1).
  assert (D1 : deref s1 (conv_messages conv) = deref s (conv_messages conv)).
  { rewrite E1. rewrite <- (Hd _ Hr). done. }
  assert (R1 : (messages s1 < length (store s1))%nat).
  { rewrite M1, E1. cbn. lia. }
  assert (F1 : uploaded_files s1 = uploaded_files s) by (by rewrite E1).
  destruct (grows_current_chat_turn w env user_input s1)
    as (added & (_ & _ & _ & G) & A).
  destruct (A Hk Hu) as [rest ->].
  split; [exact M1|]. split.
  - unfold s2. destruct (extends_chat_turn w env user_input s1) as [-> _].
    rewrite E1. cbn.
    destruct (perform_history_grows s (NewChat now)) as (more & H & _).
    unfold perform, new_chat in H. cbn in H. rewrite H.
    apply elem_of_app. by left.
  - exists rest. fold s2 in G. rewrite <- M1 at 1. rewrite (G R1), M1, D1, F1.
    done.
Qed.

Lemma loaded_conversation_is_shared_witness :
  let s := run_session [Samples.summarize; NewChat "2024-05-01 10:05:00"] in
  let conv := {| conv_timestamp := "2024-05-01 10:05:00"; conv_messages := 1%nat;
                 conv_task_count := 1; conv_credits_used := 5 |} in
  let env := Samples.run_reporting (Py.VInt 2) in
  let s1 := load_conversation "2024-05-01 10:06:00" 0 s in
  let s2 := state_of (fst (chat_turn Samples.widgets env "And then?" s1)) in
  messages s1 = conv_messages conv
  /\ conv ∈ conversation_history s2
  /\ exists rest,
       deref s2 (conv_messages conv)
       = deref s (conv_messages conv)
         ++ user_message "And then?" (ce_now_sent env) (uploaded_files s) :: rest.
Proof.
  cbv zeta.
  refine (loaded_conversation_is_shared
            [Samples.summarize; NewChat "2024-05-01 10:05:00"]
            "2024-05-01 10:06:00" 0
            {| conv_timestamp := "2024-05-01 10:05:00"; conv_messages := 1%nat;
               conv_task_count := 1; conv_credits_used := 5 |}
            Samples.widgets (Samples.run_reporting (Py.VInt 2)) "And then?"
            _ _ _);
    vm_compute; reflexivity.
Defined.

Lemma new_chat_current_empty now s :
  deref (new_chat now s) (messages (new_chat now s)) = [].
Proof.
  unfold new_chat, deref. cbn.
  rewrite lookup_app_r by done. by rewrite Nat.sub_diag.
Qed.

(** X9. After "New Chat" the saved conversations are out of reach of the
    chat: in every session, any number of chat turns that follow leave the
    history and the messages of every saved conversation as they were. *)
Theorem saved_conversation_is_isolated
    (acts turns : list action) (now : string) (conv : Conversation) :
  Forall (fun a => is_chat a = true) turns ->
  conv ∈ conversation_history (new_chat now (run_session acts)) ->
  let s0 := new_chat now (run_session acts) in
  conversation_history (fold_left perform turns s0) = conversation_history s0
  /\ deref (fold_left perform turns s0) (conv_messages conv)
     = deref s0 (conv_messages conv).
Proof.
  intros Ht Hin s0.
  assert (Hne : deref s0 (conv_messages conv) <> []).
  { assert (H : history_nonempty s0).
    { apply (perform_history_nonempty _ (NewChat now)).
      apply session_history_nonempty. constructor. }
    unfold history_nonempty in H. rewrite Forall_forall in H. by apply H. }
  assert (Hl : conv_messages conv <> messages s0).
  { intros E. rewrite E in Hne. apply Hne, new_chat_current_empty. }
  assert (G : forall s, messages s = messages s0 ->
            messages (fold_left perform turns s) = messages s0
            /\ conversation_history (fold_left perform turns s) = conversation_history s
            /\ deref (fold_left perform turns s) (conv_messages conv)
               = deref s (conv_messages conv)).
  { induction Ht as [|a turns Ha _ IH]; intros s Hm; [done|].
    destruct a as [w env u| | | | |]; try done. cbn [fold_left perform].
    destruct (grows_current_chat_turn w env u s) as (added & (M & _ & O & _) & _).
    destruct (extends_chat_turn w env u s) as [Hh _].
    destruct (IH (state_of (fst (chat_turn w env u s)))) as (-> & -> & ->);
      [congruence|].
    split; [done|]. split; [done|]. apply O. congruence. }
  destruct (G s0 eq_refl) as (_ & H1 & H2). done.
Qed.

Lemma saved_conversation_is_isolated_witness :
  let conv := {| conv_timestamp := "2024-05-01 10:05:00"; conv_messages := 1%nat;
                 conv_task_count := 1; conv_credits_used := 5 |} in
  let s0 := new_chat "2024-05-01 10:05:00" (run_session [Samples.summarize]) in
  conversation_history (fold_left perform [Samples.summarize; Samples.summarize] s0)
  = conversation_history s0
  /\ deref (fold_left perform [Samples.summarize; Samples.summarize] s0)
       (conv_messages conv)
     = deref s0 (conv_messages conv).
Proof.
  cbv zeta.
  refine (saved_conversation_is_isolated [Samples.summarize]
            [Samples.summarize; Samples.summarize] "2024-05-01 10:05:00"
            {| conv_timestamp := "2024-05-01 10:05:00"; conv_messages := 1%nat;
               conv_task_count := 1; conv_credits_used := 5 |} _ _).
  - repeat constructor.
  - vm_compute. apply list_elem_of_here.
Defined.

End SharingFacts.

(* --------------------------------------------------------------------- *)
(** ** Upload batches: counters, calls and staging *)
(* --------------------------------------------------------------------- *)

Section UploadLoopFacts.
Import Remote.

Lemma successes_app a b :
  Observations.successes (a ++ b)
  = Observations.successes a + Observations.successes b.
Proof.
  unfold Observations.successes. rewrite filter_app, length_app. lia.
Qed.

Lemma upload_all_step_counts svc st file now :
  Forall Observations.record_consistent (FileManager.upload_results st) ->
  FileManager.uploaded_count st
  = Observations.successes (FileManager.upload_results st) ->
  let st' := FileManager.upload_all_step svc st (file, now) in
  Forall Observations.record_consistent (FileManager.upload_results st')
  /\ FileManager.uploaded_count st'
     = Observations.successes (FileManager.upload_results st')
  /\ length (FileManager.upload_results st')
     = S (length (FileManager.upload_results st)).
Proof.
  intros Hc Hn. unfold FileManager.upload_all_step.
  destruct (FileManager.upload_file_to_manus svc _ _ _) as [file_id calls].
  destruct (Py.opt_str_truthy file_id) eqn:T; cbn;
    rewrite successes_app, Forall_app, length_app; cbn.
  - split; [split; [done|]|split; [|lia]].
    + apply Forall_singleton. left. by cbn.
    + rewrite Hn. unfold Observations.successes. by cbn.
  - split; [split; [done|]|split; [|lia]].
    + apply Forall_singleton. right. by cbn.
    + rewrite Hn.
      match goal with
      | |- context [Observations.successes [?r]] =>
          change (Observations.successes [r]) with 0
      end. lia.
Qed.

(** X10. The counter the file manager reports after a batch
    ("Uploaded n/m") is the number of result records with status [success];
    it lies between 0 and the number of files; every success record carries a
    non-empty identifier and every failed record none. *)
Theorem uploaded_count_counts_successes
    (svc : UploadService) (batch : list (FileManager.SelectedFile * string)) :
  let run := FileManager.upload_all_files svc batch in
  FileManager.uploaded_count run
  = Observations.successes (FileManager.upload_results run)
  /\ 0 <= FileManager.uploaded_count run <= Z.of_nat (length batch)
  /\ Forall Observations.record_consistent (FileManager.upload_results run).
Proof.
  cbv zeta. unfold FileManager.upload_all_files.
  set (init := {| FileManager.ul_calls := []; FileManager.uploaded_count := 0;
                  FileManager.upload_results := [] |}).
  assert (G : forall files st,
    Forall Observations.record_consistent (FileManager.upload_results st) ->
    FileManager.uploaded_count st
    = Observations.successes (FileManager.upload_results st) ->
    let st' := fold_left (FileManager.upload_all_step svc) files st in
    Forall Observations.record_consistent (FileManager.upload_results st')
    /\ FileManager.uploaded_count st'
       = Observations.successes (FileManager.upload_results st')
    /\ length (FileManager.upload_results st')
       = (length (FileManager.upload_results st) + length files)%nat).
  { induction files as [|[file now] files IH]; intros st Hc Hn.
    - cbn. repeat split; try done; lia.
    - cbn [fold_left].
      destruct (upload_all_step_counts svc st file now Hc Hn) as (Hc' & Hn' & Hl').
      destruct (IH _ Hc' Hn') as (Hc'' & Hn'' & Hl'').
      repeat split; try done. rewrite Hl'', Hl'. cbn. lia. }
  destruct (G batch init) as (Hc & Hn & Hl); [constructor | done |].
  split; [exact Hn|]. split; [|exact Hc].
  rewrite Hn. unfold Observations.successes. cbn in Hl.
  pose proof (length_filter
                (fun rec => FileManager.ur_status rec = "success")
                (FileManager.upload_results
                   (fold_left (FileManager.upload_all_step svc) batch init))).
  lia.
Qed.



Lemma process_upload_fold_names svc files calls s :
  exists added,
    App.uploaded_files (snd (fold_left (App.process_upload_step svc) files (calls, s)))
    = App.uploaded_files s ++ added
    /\ map App.uf_name added `sublist_of` map FileManager.sf_name files.
Proof.
  revert calls s. induction files as [|f files IH]; intros calls s.
  - exists []. by rewrite app_nil_r.
  - cbn [fold_left]. unfold App.process_upload_step at 2.
    destruct (App.upload_file_to_manus svc calls _ _) as [file_id calls1].
    destruct (Py.opt_str_truthy file_id).
    + destruct (IH calls1
                  (App.set_uploaded_files
                     (App.uploaded_files s ++
                        [ {| App.uf_id := default "" file_id;
                             App.uf_name := FileManager.sf_name f;
                             App.uf_size := Z.of_nat (length (FileManager.sf_data f));
                             App.uf_type := FileManager.sf_type f |} ]) s))
        as (added & -> & Hsub).
      eexists (_ :: added). cbn. rewrite <- app_assoc. split; [done|].
      by apply sublist_skip.
    + destruct (IH calls1 s) as (added & -> & Hsub).
      exists added. split; [done|]. by apply sublist_cons.
Qed.

(** X12. "Process All Uploads" does nothing without a selection or without
    an API key.  Otherwise it replaces the staged files and touches nothing
    else of the session: whatever was staged before is dropped, and the new
    staged files are the entries (identifier from the registration, name,
    size in bytes, type) of the selected files whose registration and byte
    upload succeeded, in the order of the selection, one entry per such file;
    their names are a sub-sequence of the selected names.  For a service
    whose answers do not depend on earlier calls, whether a file is staged
    depends on that file alone. *)
Theorem staging_is_replaced_in_order
    (w : App.Widgets) (svc : UploadService)
    (files : list FileManager.SelectedFile) (s : App.SessionState) :
  snd (App.process_all_uploads w svc files s)
  = (if Py.str_truthy (App.w_api_key w) && negb (bool_decide (files = []))
     then App.set_uploaded_files (Observations.batch_staging svc [] files) s
     else s)
  /\ (Py.str_truthy (App.w_api_key w) = true -> files <> [] ->
      map App.uf_name
        (App.uploaded_files (snd (App.process_all_uploads w svc files s)))
      `sublist_of` map FileManager.sf_name files)
  /\ (Observations.ignores_history svc ->
      Observations.batch_staging svc [] files
      = concat (map (fun f => Observations.staged_of f
                                (Observations.file_outcome svc [] f)) files)).
Proof.
  split; [|split].
  - rewrite process_all_uploads_exact. destruct files as [|f files].
    + by rewrite andb_false_r.
    + rewrite bool_decide_eq_false_2 by done.
      by destruct (Py.str_truthy (App.w_api_key w)).
  - intros Hk Hf. unfold App.process_all_uploads.
    destruct files as [|f files]; [done|]. rewrite Hk.
    destruct (process_upload_fold_names svc (f :: files) []
                (App.set_uploaded_files [] s)) as (added & -> & Hsub).
    exact Hsub.
  - apply batch_staging_ignores.
Qed.

Lemma staging_is_replaced_in_order_witness :
  App.uploaded_files
    (snd (App.process_all_uploads Samples.widgets Samples.refusing_report
            [Samples.notes_txt; Samples.report_pdf; Samples.notes_txt]
            (App.set_uploaded_files
               [ {| App.uf_id := "old"; App.uf_name := "old.csv";
                    App.uf_size := 1; App.uf_type := "text/csv" |} ]
               App.initial_state)))
  = [ {| App.uf_id := "file_notes.txt"; App.uf_name := "notes.txt";
         App.uf_size := 5; App.uf_type := "text/plain" |};
      {| App.uf_id := "file_notes.txt"; App.uf_name := "notes.txt";
         App.uf_size := 5; App.uf_type := "text/plain" |} ].
Proof.
  rewrite (proj1 (staging_is_replaced_in_order Samples.widgets
                    Samples.refusing_report
                    [Samples.notes_txt; Samples.report_pdf; Samples.notes_txt]
                    (App.set_uploaded_files
                       [ {| App.uf_id := "old"; App.uf_name := "old.csv";
                            App.uf_size := 1; App.uf_type := "text/csv" |} ]
                       App.initial_state))).
  reflexivity.
Defined.

End UploadLoopFacts.

(* --------------------------------------------------------------------- *)
(** ** The helpers of utils.py *)
(* --------------------------------------------------------------------- *)

Section HelperFacts.
Import Py.

Lemma sanitize_cons c r :
  Helpers.sanitize_filename (String c r)
  = String (if PyStr.char_in c Helpers.invalid_chars then "_"%char else c)
      (Helpers.sanitize_filename r).
Proof. destruct c as [[] [] [] [] [] [] [] []]; reflexivity. Qed.

Lemma sanitize_length f :
  String.length (Helpers.sanitize_filename f) = String.length f.
Proof.
  induction f as [|c r IH]; [done|].
  rewrite sanitize_cons. cbn [String.length]. by rewrite IH.
Qed.

Lemma sanitize_clean f : Observations.clean_name (Helpers.sanitize_filename f) = true.
Proof.
  induction f as [|c r IH]; [done|].
  rewrite sanitize_cons. cbn [Observations.clean_name].
  rewrite IH, andb_true_r.
  destruct (PyStr.char_in c Helpers.invalid_chars) eqn:E; [reflexivity|].
  by rewrite E.
Qed.

Lemma sanitize_fixed f :
  Observations.clean_name f = true -> Helpers.sanitize_filename f = f.
Proof.
  induction f as [|c r IH]; [done|]. cbn [Observations.clean_name].
  intros [Hc Hr]%andb_prop. rewrite sanitize_cons, IH by done.
  by destruct (PyStr.char_in c Helpers.invalid_chars).
Qed.

(** X13. [sanitize_filename] keeps the length of the name, leaves none of
    the nine characters it replaces, changes nothing in a name that has none
    of them, and applied twice gives what it gives once. *)
Theorem sanitize_filename_cleans (filename : string) :
  String.length (Helpers.sanitize_filename filename) = String.length filename
  /\ Observations.clean_name (Helpers.sanitize_filename filename) = true
  /\ (Observations.clean_name filename = true ->
      Helpers.sanitize_filename filename = filename)
  /\ Helpers.sanitize_filename (Helpers.sanitize_filename filename)
     = Helpers.sanitize_filename filename.
Proof.
  split; [apply sanitize_length|]. split; [apply sanitize_clean|].
  split; [apply sanitize_fixed|]. apply sanitize_fixed, sanitize_clean.
Qed.

Lemma length_substring_0 k s :
  String.length (String.substring 0 k s) = Nat.min k (String.length s).
Proof.
  revert k. induction s as [|c r IH]; intros [|k]; try done.
  cbn. by rewrite IH.
Qed.

Lemma string_length_app a b :
  String.length (a +:+ b) = (String.length a + String.length b)%nat.
Proof.
  induction a as [|c a IH]; [done|].
  rewrite string_app_cons. cbn. by rewrite IH.
Qed.

Lemma len_slice_to k s :
  PyStr.len (PyStr.slice_to k s)
  = if 0 <=? k then Z.min k (PyStr.len s) else Z.max 0 (PyStr.len s + k).
Proof.
  unfold PyStr.slice_to, PyStr.len. rewrite length_substring_0.
  destruct (Z.leb_spec 0 k); lia.
Qed.

Lemma len_truncated text n :
  n < PyStr.len text ->
  PyStr.len (Helpers.truncate_string text n)
  = 3 + (if 0 <=? n - 3 then n - 3 else Z.max 0 (PyStr.len text + (n - 3))).
Proof.
  intros H. unfold Helpers.truncate_string.
  destruct (Z.leb_spec (PyStr.len text) n); [lia|].
  pose proof (len_slice_to (n - 3) text) as L.
  unfold PyStr.len in *. rewrite string_length_app.
  change (String.length "...") with 3%nat.
  destruct (Z.leb_spec 0 (n - 3)); lia.
Qed.

(** X14. With a [max_length] of at least 3, [truncate_string] returns a
    text of at most [max_length] characters: the text itself when it fits,
    and otherwise its first [max_length - 3] characters followed by three
    dots, exactly [max_length] characters in all; truncating the result again
    changes nothing. *)
Theorem truncate_string_fits (text : string) (max_length : Z) :
  3 <= max_length ->
  PyStr.len (Helpers.truncate_string text max_length) <= max_length
  /\ (PyStr.len text <= max_length ->
      Helpers.truncate_string text max_length = text)
  /\ (max_length < PyStr.len text ->
      Helpers.truncate_string text max_length
      = String.substring 0 (Z.to_nat (max_length - 3)) text +:+ "..."
      /\ PyStr.len (Helpers.truncate_string text max_length) = max_length)
  /\ Helpers.truncate_string (Helpers.truncate_string text max_length) max_length
     = Helpers.truncate_string text max_length.
Proof.
  intros Hn.
  assert (A : PyStr.len text <= max_length ->
              Helpers.truncate_string text max_length = text).
  { intros H. unfold Helpers.truncate_string.
    by destruct (Z.leb_spec (PyStr.len text) max_length); [|lia]. }
  assert (B : max_length < PyStr.len text ->
              PyStr.len (Helpers.truncate_string text max_length) = max_length).
  { intros H. rewrite len_truncated by done.
    destruct (Z.leb_spec 0 (max_length - 3)); lia. }
  assert (C : PyStr.len (Helpers.truncate_string text max_length) <= max_length).
  { destruct (Z.le_gt_cases (PyStr.len text) max_length) as [H|H].
    - by rewrite A.
    - rewrite B; lia. }
  split; [exact C|]. split; [exact A|]. split.
  - intros H. split; [|by apply B].
    unfold Helpers.truncate_string, PyStr.slice_to.
    destruct (Z.leb_spec (PyStr.len text) max_length); [lia|].
    by destruct (Z.leb_spec 0 (max_length - 3)); [|lia].
  - unfold Helpers.truncate_string at 1.
    by destruct (Z.leb_spec (PyStr.len (Helpers.truncate_string text max_length))
                   max_length); [|lia].
Qed.

Lemma truncate_string_fits_witness :
  PyStr.len (Helpers.truncate_string "Summarize this text" 10) <= 10
  /\ (PyStr.len "Summarize this text" <= 10 ->
      Helpers.truncate_string "Summarize this text" 10 = "Summarize this text")
  /\ (10 < PyStr.len "Summarize this text" ->
      Helpers.truncate_string "Summarize this text" 10
      = String.substring 0 (Z.to_nat (10 - 3)) "Summarize this text" +:+ "..."
      /\ PyStr.len (Helpers.truncate_string "Summarize this text" 10) = 10)
  /\ Helpers.truncate_string (Helpers.truncate_string "Summarize this text" 10) 10
     = Helpers.truncate_string "Summarize this text" 10.
Proof. apply truncate_string_fits. lia. Defined.

(** X15. With a [max_length] below 3 the bound is not kept: a text longer
    than [max_length] comes back with at least three characters, hence longer
    than [max_length], because the slice then counts from the end of the
    text. *)
Theorem truncate_string_overflows (text : string) (max_length : Z) :
  max_length < 3 ->
  max_length < PyStr.len text ->
  max_length < PyStr.len (Helpers.truncate_string text max_length)
  /\ PyStr.len (Helpers.truncate_string text max_length)
     = 3 + Z.max 0 (PyStr.len text + max_length - 3).
Proof.
  intros Hn Hl. rewrite len_truncated by done.
  destruct (Z.leb_spec 0 (max_length - 3)); lia.
Qed.

Lemma truncate_string_overflows_witness :
  2 < PyStr.len (Helpers.truncate_string "abcdef" 2)
  /\ PyStr.len (Helpers.truncate_string "abcdef" 2)
     = 3 + Z.max 0 (PyStr.len "abcdef" + 2 - 3).
Proof. apply truncate_string_overflows; [lia | vm_compute; reflexivity]. Defined.

Lemma last_field_none sep s :
  contains_char sep s = false -> last_field sep s = s.
Proof.
  destruct s as [|c r]; [done|]. cbn. by intros ->.
Qed.

Lemma last_field_no_sep sep s : contains_char sep (last_field sep s) = false.
Proof.
  induction s as [|c r IH]; [done|]. cbn [last_field].
  destruct (Ascii.eqb c sep || contains_char sep r) eqn:E; [exact IH|].
  exact E.
Qed.

Lemma contains_char_app sep a b :
  contains_char sep (a +:+ b) = contains_char sep a || contains_char sep b.
Proof.
  induction a as [|c a IH]; [done|].
  rewrite string_app_cons. cbn. by rewrite IH, orb_assoc.
Qed.

Lemma last_field_app sep name e :
  contains_char sep e = false ->
  last_field sep (name +:+ String sep e) = e.
Proof.
  intros He. induction name as [|c r IH].
  - change ("" +:+ String sep e) with (String sep e). cbn [last_field].
    rewrite Ascii.eqb_refl. cbn [orb]. by apply last_field_none.
  - rewrite string_app_cons. cbn [last_field].
    rewrite contains_char_app. cbn [contains_char].
    rewrite Ascii.eqb_refl, orb_true_r. cbn. by rewrite orb_true_r.
Qed.

Lemma lower_char_dot c :
  Ascii.eqb (lower_char c) "."%char = Ascii.eqb c "."%char.
Proof. destruct c as [[] [] [] [] [] [] [] []]; reflexivity. Qed.

Lemma lower_char_idempotent c : lower_char (lower_char c) = lower_char c.
Proof. destruct c as [[] [] [] [] [] [] [] []]; reflexivity. Qed.

Lemma lower_idempotent s : lower (lower s) = lower s.
Proof.
  induction s as [|c r IH]; [done|]. cbn. by rewrite lower_char_idempotent, IH.
Qed.

Lemma contains_dot_lower s :
  contains_char "."%char (lower s) = contains_char "."%char s.
Proof.
  induction s as [|c r IH]; [done|]. cbn. by rewrite lower_char_dot, IH.
Qed.

(** X16. The extension [extract_file_extension] returns never holds a
    dot and is already in lower case; it is empty for a name without dot;
    and for a name of the form [name.e], where [e] holds no dot, it is [e] in
    lower case, whatever [name] is (dots and no characters included). *)
Theorem extension_is_last_field_lowered :
  (forall f,
      contains_char "."%char (Utils.extract_file_extension f) = false
      /\ lower (Utils.extract_file_extension f) = Utils.extract_file_extension f)
  /\ (forall f, contains_char "."%char f = false ->
        Utils.extract_file_extension f = "")
  /\ (forall name e, contains_char "."%char e = false ->
        Utils.extract_file_extension (name +:+ "." +:+ e) = lower e).
Proof.
  split; [|split].
  - intros f. unfold Utils.extract_file_extension.
    destruct (contains_char "." f); cbn [negb]; [|done].
    rewrite contains_dot_lower, last_field_no_sep, lower_idempotent. done.
  - intros f H. unfold Utils.extract_file_extension. by rewrite H.
  - intros name e H. unfold Utils.extract_file_extension.
    rewrite contains_char_app.
    change ("." +:+ e) with (String "."%char e).
    cbn [contains_char]. rewrite Ascii.eqb_refl. cbn [orb].
    rewrite orb_true_r. cbn [negb]. by rewrite last_field_app.
Qed.

Lemma extension_lists_disjoint (ext : string) :
  bool_decide (ext ∈ Helpers.image_extensions)
  && bool_decide (ext ∈ Helpers.document_extensions) = false
  /\ bool_decide (ext ∈ Helpers.image_extensions)
     && bool_decide (ext ∈ Helpers.code_extensions) = false
  /\ bool_decide (ext ∈ Helpers.document_extensions)
     && bool_decide (ext ∈ Helpers.code_extensions) = false.
Proof.
  repeat split;
    (match goal with
     | |- bool_decide (_ ∈ ?l) && _ = false =>
         destruct (bool_decide_reflect (ext ∈ l)) as [H|]; [|done]
     end;
     repeat (apply elem_of_cons in H as [->|H]; [reflexivity|]);
     by apply elem_of_nil in H).
Qed.

(** X17. The three file classes of utils.py exclude one another: no file
    name is an image and a document, an image and code, or a document and
    code; and a name that belongs to one of them contains a dot. *)
Theorem file_classes_are_disjoint (filename : string) :
  Helpers.is_image_file filename && Helpers.is_document_file filename = false
  /\ Helpers.is_image_file filename && Helpers.is_code_file filename = false
  /\ Helpers.is_document_file filename && Helpers.is_code_file filename = false
  /\ (Helpers.is_image_file filename || Helpers.is_document_file filename
      || Helpers.is_code_file filename = true ->
      contains_char "."%char filename = true).
Proof.
  unfold Helpers.is_image_file, Helpers.is_document_file, Helpers.is_code_file.
  destruct (extension_lists_disjoint (Utils.extract_file_extension filename))
    as (A & B & C).
  repeat split; try done.
  unfold Utils.extract_file_extension.
  destruct (contains_char "." filename); [done|]. cbn. discriminate.
Qed.

Lemma forallb_rev_eq {A} (f : A -> bool) l : forallb f (rev l) = forallb f l.
Proof.
  induction l as [|a l IH]; [done|]. cbn.
  rewrite forallb_app, IH. cbn. destruct (f a), (forallb f l); reflexivity.
Qed.

Lemma no_space_of_list l :
  PyStr.no_space (string_of_list_ascii l) = forallb (fun c => negb (is_space c)) l.
Proof. induction l as [|c l IH]; [done|]. cbn. by rewrite IH. Qed.

Lemma lower_of_list l :
  lower (string_of_list_ascii l) = string_of_list_ascii (map lower_char l).
Proof. induction l as [|c l IH]; [done|]. cbn. by rewrite IH. Qed.

Lemma is_space_lower c : is_space (lower_char c) = is_space c.
Proof. destruct c as [[] [] [] [] [] [] [] []]; reflexivity. Qed.

(** The words [split] returns are not empty and hold no whitespace. *)
Lemma split_go_words cur s :
  forallb (fun c => negb (is_space c)) cur = true ->
  Forall (fun w => w <> "" /\ PyStr.no_space w = true) (PyStr.split_go cur s).
Proof.
  assert (W : forall c cur, forallb (fun c => negb (is_space c)) (c :: cur) = true ->
                string_of_list_ascii (rev (c :: cur)) <> ""
                /\ PyStr.no_space (string_of_list_ascii (rev (c :: cur))) = true).
  { intros c l H. split.
    - cbn. destruct (rev l); discriminate.
    - rewrite no_space_of_list, forallb_rev_eq. exact H. }
  revert cur. induction s as [|c r IH]; intros cur Hc.
  - cbn. destruct cur; [constructor|]. apply Forall_singleton. by apply W.
  - cbn [PyStr.split_go]. destruct (is_space c) eqn:E.
    + destruct cur; [by apply IH|]. constructor; [by apply W | by apply IH].
    + apply IH. cbn. by rewrite E.
Qed.

Lemma lstrip_no_space w : PyStr.no_space w = true -> lstrip w = w.
Proof.
  destruct w as [|c r]; [done|]. cbn. intros [Hc _]%andb_prop.
  by destruct (is_space c).
Qed.

Lemma rstrip_no_space w : PyStr.no_space w = true -> rstrip w = w.
Proof.
  induction w as [|c r IH]; [done|]. cbn. intros [Hc Hr]%andb_prop.
  rewrite IH by done. destruct r; [|done]. by destruct (is_space c).
Qed.

Lemma strip_no_space w : PyStr.no_space w = true -> strip w = w.
Proof.
  intros H. unfold strip. by rewrite lstrip_no_space, rstrip_no_space.
Qed.

Lemma no_space_lower w : PyStr.no_space (lower w) = PyStr.no_space w.
Proof.
  induction w as [|c r IH]; [done|]. cbn. by rewrite is_space_lower, IH.
Qed.

Lemma parse_search_query_words query :
  Helpers.parse_search_query query = map lower (PyStr.split query).
Proof.
  unfold Helpers.parse_search_query, PyStr.split.
  pose proof (split_go_words [] query eq_refl) as W.
  induction W as [|w ws [Hne Hns] _ IH]; [done|].
  rewrite filter_cons, (strip_no_space w Hns).
  destruct w; [done|]. cbn [str_truthy].
  rewrite decide_True by done. cbn [map].
  by rewrite (strip_no_space _ Hns), IH.
Qed.

Lemma split_go_all_space cur s :
  Observations.all_space s = true ->
  PyStr.split_go cur s
  = match cur with [] => [] | _ :: _ => [string_of_list_ascii (rev cur)] end.
Proof.
  revert cur. induction s as [|c r IH]; intros cur; [done|].
  cbn [Observations.all_space PyStr.split_go].
  intros [-> Hr]%andb_prop. destruct cur; by rewrite IH.
Qed.

(** X18. Every term [parse_search_query] returns is non-empty, holds no
    whitespace and is in lower case: the terms are the whitespace-separated
    words of the query, lowered; a query made of whitespace only (the empty
    query included) has no terms. *)
Theorem search_terms_are_lowered_words (query : string) :
  Helpers.parse_search_query query = map lower (PyStr.split query)
  /\ Forall Observations.search_term (Helpers.parse_search_query query)
  /\ (Observations.all_space query = true -> Helpers.parse_search_query query = []).
Proof.
  split; [apply parse_search_query_words|]. split.
  - rewrite parse_search_query_words. apply Forall_map.
    eapply Forall_impl; [apply (split_go_words [] query eq_refl)|].
    intros w [Hne Hns]. split; [by destruct w|].
    split; [by rewrite no_space_lower | apply lower_idempotent].
  - intros H. rewrite parse_search_query_words. unfold PyStr.split.
    by rewrite split_go_all_space.
Qed.

Lemma split_go_lower cur s :
  PyStr.split_go (map lower_char cur) (lower s) = map lower (PyStr.split_go cur s).
Proof.
  assert (W : forall l, string_of_list_ascii (rev (map lower_char l))
                        = lower (string_of_list_ascii (rev l))).
  { intros l. by rewrite lower_of_list, map_rev. }
  revert cur. induction s as [|c r IH]; intros cur.
  - destruct cur as [|a l]; [done|]. cbn [PyStr.split_go lower map].
    by rewrite <- (W (a :: l)).
  - cbn [PyStr.split_go lower]. rewrite is_space_lower.
    destruct (is_space c).
    + destruct cur as [|a l]; [apply (IH [])|]. cbn [map].
      by rewrite <- (W (a :: l)), <- (IH []).
    + apply (IH (c :: cur)).
Qed.

(** The terms of a query are the words of the lowered query. *)
Lemma parse_search_query_lower query :
  Helpers.parse_search_query query = PyStr.split (lower query).
Proof.
  rewrite parse_search_query_words. symmetry. apply (split_go_lower []).
Qed.

Lemma prefix_app w r : String.prefix w (w +:+ r) = true.
Proof.
  induction w as [|c w IH]; [by destruct r|].
  rewrite string_app_cons. cbn. by destruct (Ascii.ascii_dec c c).
Qed.

Lemma contains_unfold needle hay :
  PyStr.contains needle hay
  = String.prefix needle hay
    || match hay with EmptyString => false | String _ r => PyStr.contains needle r end.
Proof. by destruct hay. Qed.

Lemma contains_app_l w r : PyStr.contains w (w +:+ r) = true.
Proof. by rewrite contains_unfold, prefix_app. Qed.

Lemma contains_app_r needle a b :
  PyStr.contains needle b = true -> PyStr.contains needle (a +:+ b) = true.
Proof.
  intros H. induction a as [|c a IH]; [done|].
  rewrite string_app_cons, contains_unfold, IH. apply orb_true_r.
Qed.

Lemma string_of_list_snoc l c r :
  string_of_list_ascii (l ++ [c]) +:+ r = string_of_list_ascii l +:+ String c r.
Proof.
  induction l as [|a l IH]; [done|]. cbn [app string_of_list_ascii].
  by rewrite !string_app_cons, IH.
Qed.

(** Every word [split] returns occurs in the string it was split from. *)
Lemma split_go_contained s cur :
  Forall (fun w => PyStr.contains w (string_of_list_ascii (rev cur) +:+ s) = true)
         (PyStr.split_go cur s).
Proof.
  revert cur. induction s as [|c r IH]; intros cur.
  - destruct cur as [|a l]; [constructor|]. apply Forall_singleton.
    apply contains_app_l.
  - cbn [PyStr.split_go]. destruct (is_space c).
    + assert (R : Forall (fun w => PyStr.contains w
                    (string_of_list_ascii (rev cur) +:+ String c r) = true)
                    (PyStr.split_go [] r)).
      { eapply Forall_impl; [apply (IH [])|]. intros w Hw.
        apply contains_app_r.
        change (String c r) with (String c EmptyString +:+ r).
        by apply contains_app_r. }
      destruct cur as [|a l]; [exact R|].
      constructor; [apply contains_app_l | exact R].
    + specialize (IH (c :: cur)). cbn [rev] in IH.
      by rewrite string_of_list_snoc in IH.
Qed.

(** X19. The search ignores letter case on both sides: two texts that agree
    after lowering and two queries that agree after lowering give the same
    answer. *)
Theorem search_ignores_case (text1 text2 query1 query2 : string) :
  lower text1 = lower text2 ->
  lower query1 = lower query2 ->
  Helpers.match_search_query text1 (Helpers.parse_search_query query1)
  = Helpers.match_search_query text2 (Helpers.parse_search_query query2).
Proof.
  intros Ht Hq. unfold Helpers.match_search_query.
  by rewrite !parse_search_query_lower, Ht, Hq.
Qed.

Lemma search_ignores_case_witness :
  Helpers.match_search_query "Annual Report.PDF" (Helpers.parse_search_query "report PDF")
  = Helpers.match_search_query "annual report.pdf" (Helpers.parse_search_query "REPORT pdf").
Proof. apply search_ignores_case; reflexivity. Defined.

(** X20. Every text matches the query made of its own words, and every text
    matches a query without terms, such as the empty query or one of
    whitespace only; a list of terms matches when both of its parts do. *)
Theorem search_matches_own_words (text : string) :
  Helpers.match_search_query text (Helpers.parse_search_query text) = true
  /\ (forall query, Observations.all_space query = true ->
        Helpers.match_search_query text (Helpers.parse_search_query query) = true)
  /\ (forall terms1 terms2,
        Helpers.match_search_query text (terms1 ++ terms2)
        = Helpers.match_search_query text terms1
          && Helpers.match_search_query text terms2).
Proof.
  split; [|split].
  - unfold Helpers.match_search_query. rewrite parse_search_query_lower.
    apply forallb_forall. intros w Hw.
    pose proof (split_go_contained (lower text) []) as C.
    rewrite List.Forall_forall in C. by apply (C w).
  - intros query Hq. rewrite parse_search_query_words. unfold PyStr.split.
    by rewrite split_go_all_space.
  - intros terms1 terms2. unfold Helpers.match_search_query. apply forallb_app.
Qed.

(** X21. [estimate_reading_time] raises [ZeroDivisionError] exactly at the
    rate zero.  At any other rate it returns at least one minute: exactly one
    minute for a negative rate or a text of fewer than twice [rate] words, and
    for a positive rate never more minutes than the words fill. *)
Theorem reading_time_is_at_least_one (text : string) (words_per_minute : Z) :
  let words := Z.of_nat (length (PyStr.split text)) in
  (words_per_minute = 0 ->
   Helpers.estimate_reading_time text words_per_minute
   = inl Helpers.ZeroDivisionError)
  /\ (words_per_minute <> 0 ->
      exists minutes,
        Helpers.estimate_reading_time text words_per_minute = inr minutes
        /\ 1 <= minutes
        /\ (words_per_minute < 0 \/ words < 2 * words_per_minute -> minutes = 1)
        /\ (0 < words_per_minute ->
            minutes * words_per_minute <= Z.max words_per_minute words)).
Proof.
  intros words. unfold Helpers.estimate_reading_time. fold words. split.
  - by intros ->.
  - intros Hne. destruct (Z.eqb_spec words_per_minute 0) as [|_]; [done|].
    eexists. split; [done|]. split; [lia|]. split.
    + intros [Hneg | Hfew].
      * assert (words / words_per_minute <= 0); [|lia].
        pose proof (Z.div_mod words words_per_minute ltac:(lia)).
        pose proof (Z.mod_neg_bound words words_per_minute Hneg).
        assert (0 <= words) by (unfold words; lia). nia.
      * assert (0 < words_per_minute) by lia.
        assert (words / words_per_minute < 2); [|lia].
        apply Z.div_lt_upper_bound; lia.
    + intros Hpos.
      pose proof (Z.mul_div_le words words_per_minute Hpos).
      destruct (Z.max_spec 1 (words / words_per_minute)) as [[_ ->] | [_ ->]]; lia.
Qed.

End HelperFacts.

(* --------------------------------------------------------------------- *)
(** ** The text exports *)
(* --------------------------------------------------------------------- *)

Section ExportTextFacts.
Import Py Remote App.

Lemma export_txt messages :
  export_conversation_history messages "txt" = fold_left txt_step messages (Some "").
Proof. reflexivity. Qed.

Lemma export_markdown messages :
  export_conversation_history messages "markdown"
  = fold_left markdown_step messages
      (Some ("# Manus AI Conversation History" +:+ newline +:+ newline)).
Proof. reflexivity. Qed.

Lemma txt_fold_none l : fold_left txt_step l None = None.
Proof. by induction l. Qed.

Lemma markdown_fold_none l : fold_left markdown_step l None = None.
Proof. by induction l. Qed.

Lemma txt_step_acc acc m :
  txt_step (Some acc) m = (p ← txt_step (Some "") m; Some (acc +:+ p)).
Proof.
  unfold txt_step. cbn. destruct (upper_role m) as [r|]; [|done]. cbn.
  by destruct (dict_get "content" m ≫= format_value).
Qed.

Lemma txt_fold_acc l acc :
  fold_left txt_step l (Some acc)
  = (s ← fold_left txt_step l (Some ""); Some (acc +:+ s)).
Proof.
  revert acc. induction l as [|m l IH]; intros acc.
  - cbn. by rewrite string_app_nil_r.
  - cbn [fold_left]. rewrite txt_step_acc.
    destruct (txt_step (Some "") m) as [p|]; cbn.
    + rewrite (IH (acc +:+ p)), (IH p).
      destruct (fold_left txt_step l (Some "")); cbn; [|done].
      by rewrite string_app_assoc.
    + by rewrite txt_fold_none.
Qed.

Lemma markdown_step_extends acc m s :
  markdown_step (Some acc) m = Some s -> exists piece, s = acc +:+ piece.
Proof.
  unfold markdown_step. cbn. destruct (upper_role m) as [r|]; [|done]. cbn.
  destruct (dict_get "content" m ≫= format_value) as [c|]; [|done]. cbn.
  destruct (format_value _) as [t|]; [|done]. cbn.
  intros [= <-]. by eexists.
Qed.

Lemma markdown_fold_extends l acc s :
  fold_left markdown_step l (Some acc) = Some s -> exists rest, s = acc +:+ rest.
Proof.
  revert acc. induction l as [|m l IH]; intros acc.
  - intros [= <-]. exists "". by rewrite string_app_nil_r.
  - cbn [fold_left]. destruct (markdown_step (Some acc) m) as [s1|] eqn:E.
    + apply markdown_step_extends in E as [piece ->].
      intros [rest ->]%IH. exists (piece +:+ rest). by rewrite string_app_assoc.
    + by rewrite markdown_fold_none.
Qed.

(** X22. The plain-text export of two conversations put one after the other
    is the export of the first followed by the export of the second, and it
    fails when either fails.  The markdown export of the longer conversation
    begins with the whole markdown export of the first. *)
Theorem export_extends_with_the_conversation (first second : list message) :
  export_conversation_history (first ++ second) "txt"
  = (s1 ← export_conversation_history first "txt";
     s2 ← export_conversation_history second "txt";
     Some (s1 +:+ s2))
  /\ (forall s, export_conversation_history (first ++ second) "markdown" = Some s ->
      exists s1 rest,
        export_conversation_history first "markdown" = Some s1
        /\ s = s1 +:+ rest).
Proof.
  split.
  - rewrite !export_txt, fold_left_app.
    destruct (fold_left txt_step first (Some "")) as [s1|]; cbn.
    + apply txt_fold_acc.
    + apply txt_fold_none.
  - intros s. rewrite !export_markdown, fold_left_app.
    destruct (fold_left markdown_step first _) as [s1|].
    + intros [rest ->]%markdown_fold_extends. by exists s1, rest.
    + by rewrite markdown_fold_none.
Qed.

Lemma txt_step_line m :
  Observations.has_role_and_content m ->
  txt_step (Some "") m
  = (line ← Helpers.merge_line m; Some (line +:+ newline +:+ newline)).
Proof.
  intros [[r Hr] [c Hc]]. unfold txt_step, Helpers.merge_line, upper_role.
  rewrite Hr, Hc. cbn.
  destruct r as [| | |r| |]; try done.
  destruct (upper r) as [u|]; [|done]. cbn.
  destruct (format_value c) as [t|]; [|done]. cbn.
  by rewrite !string_app_assoc.
Qed.

Lemma mapM_cons_nonempty {A B} (f : A -> option B) x xs ys :
  mapM f (x :: xs) = Some ys -> exists y ys', ys = y :: ys'.
Proof.
  cbn. destruct (f x) as [y|]; [|done]. cbn.
  destruct (mapM f xs) as [ys'|]; [|done]. cbn. intros [= <-]. by eexists _, _.
Qed.

(** X23. On messages that all have a role and a content, the plain-text
    export is the text [merge_conversation_messages] gives, followed by one
    blank line when there is any message; either both fail or none does. *)
Theorem txt_export_is_merged_text (messages : list message) :
  Forall Observations.has_role_and_content messages ->
  export_conversation_history messages "txt"
  = (merged ← Helpers.merge_conversation_messages messages;
     Some (match messages with
           | [] => ""
           | _ :: _ => merged +:+ newline +:+ newline
           end)).
Proof.
  rewrite export_txt. unfold Helpers.merge_conversation_messages.
  induction 1 as [|m ms Hm _ IH]; [done|].
  cbn [fold_left]. rewrite (txt_step_line m Hm).
  change (mapM Helpers.merge_line (m :: ms))
    with (y ← Helpers.merge_line m; k ← mapM Helpers.merge_line ms; Some (y :: k)).
  destruct (Helpers.merge_line m) as [line|]; cbn; [|apply txt_fold_none].
  rewrite txt_fold_acc, IH.
  destruct (mapM Helpers.merge_line ms) as [lines|] eqn:E; cbn; [|done].
  destruct ms as [|m' ms'].
  - injection E as <-. cbn. by rewrite string_app_nil_r.
  - destruct (mapM_cons_nonempty _ _ _ _ E) as (y & ys & ->).
    by rewrite !string_app_assoc.
Qed.

Lemma txt_export_is_merged_text_witness :
  export_conversation_history Samples.conversation "txt"
  = (merged ← Helpers.merge_conversation_messages Samples.conversation;
     Some (merged +:+ newline +:+ newline)).
Proof.
  apply (txt_export_is_merged_text Samples.conversation).
  repeat constructor; by eexists.
Defined.

Lemma txt_step_missing acc m :
  dict_get "role" m = None \/ dict_get "content" m = None ->
  txt_step acc m = None.
Proof.
  unfold txt_step, upper_role. destruct acc as [a|]; [|done]. cbn.
  intros [-> | ->]; [done|]. by destruct (dict_get "role" m) as [[| | |r| |]|]; [..|done]; try done; destruct (upper r).
Qed.

Lemma markdown_step_missing acc m :
  dict_get "role" m = None \/ dict_get "content" m = None ->
  markdown_step acc m = None.
Proof.
  unfold markdown_step, upper_role. destruct acc as [a|]; [|done]. cbn.
  intros [-> | ->]; [done|]. by destruct (dict_get "role" m) as [[| | |r| |]|]; [..|done]; try done; destruct (upper r).
Qed.

(** X24. A conversation with a message that lacks its role or its content
    has no plain-text and no markdown export: the function fails, whatever
    comes before and after that message.  The JSON export is produced all the
    same. *)
Theorem export_fails_on_missing_key (before after : list message) (m : message) :
  dict_get "role" m = None \/ dict_get "content" m = None ->
  export_conversation_history (before ++ m :: after) "txt" = None
  /\ export_conversation_history (before ++ m :: after) "markdown" = None
  /\ is_Some (export_conversation_history (before ++ m :: after) "json").
Proof.
  intros H. rewrite export_txt, export_markdown, !fold_left_app.
  cbn [fold_left]. rewrite (txt_step_missing _ m H), (markdown_step_missing _ m H).
  by rewrite txt_fold_none, markdown_fold_none.
Qed.

Lemma export_fails_on_missing_key_witness :
  export_conversation_history
    (Samples.conversation ++ [("content", VStr "no role")] :: []) "txt" = None.
Proof.
  apply (export_fails_on_missing_key Samples.conversation []
           [("content", VStr "no role")]).
  by left.
Defined.

Lemma chat_message_user u now staged :
  Observations.chat_message (user_message u now staged).
Proof. split; [by left|]. split; by eexists. Qed.

Lemma chat_message_assistant text url credits now files :
  Observations.chat_message (assistant_message text url credits now files).
Proof. split; [by right|]. split; by eexists. Qed.

Lemma chat_only_same_store s s' :
  store s' = store s ->
  Observations.chat_messages_only s -> Observations.chat_messages_only s'.
Proof. unfold Observations.chat_messages_only. by intros ->. Qed.

Lemma chat_only_append m s :
  Observations.chat_message m ->
  Observations.chat_messages_only s ->
  Observations.chat_messages_only (append_message m s).
Proof.
  intros Hm Hs. unfold Observations.chat_messages_only, append_message. cbn.
  apply Forall_alter; [done|]. intros l _ Hl.
  apply Forall_app. split; [done | by apply Forall_singleton].
Qed.

Lemma chat_only_deref s l :
  Observations.chat_messages_only s -> Forall Observations.chat_message (deref s l).
Proof.
  intros Hs. unfold deref. destruct (store s !! l) as [ms|] eqn:E; [|constructor].
  cbn. eapply Forall_lookup_1; [exact Hs | exact E].
Qed.

Lemma chat_only_alloc ms s :
  Forall Observations.chat_message ms ->
  Observations.chat_messages_only s ->
  Observations.chat_messages_only (snd (alloc ms s)).
Proof.
  intros Hm Hs. unfold Observations.chat_messages_only, alloc. cbn.
  apply Forall_app. split; [done | by apply Forall_singleton].
Qed.

Lemma chat_only_save now s :
  Observations.chat_messages_only s ->
  Observations.chat_messages_only (save_conversation_to_history now s).
Proof.
  intros Hs. pose proof (chat_only_deref s (messages s) Hs) as Hd.
  unfold save_conversation_to_history.
  destruct (deref s (messages s)) as [|m ms] eqn:E; [done|].
  apply (chat_only_alloc (m :: ms) s Hd Hs).
Qed.

Lemma chat_only_record_completion now url task s :
  Observations.chat_messages_only s ->
  Observations.chat_messages_only (state_of (record_completion now url task s)).
Proof.
  intros Hs. unfold record_completion.
  destruct (extract_output task) as [text files].
  destruct (metadata task) as [md|]; cbn.
  - destruct (int_add _ _) as [e|total]; cbn; [done|].
    eapply chat_only_same_store; [done|].
    apply chat_only_append; [apply chat_message_assistant|].
    by eapply chat_only_same_store.
  - eapply chat_only_same_store; [done|].
    by apply chat_only_append; [apply chat_message_assistant|].
Qed.

Lemma chat_only_chat_turn w env user_input s :
  Observations.chat_messages_only s ->
  Observations.chat_messages_only (state_of (fst (chat_turn w env user_input s))).
Proof.
  intros Hs. unfold chat_turn.
  destruct (str_truthy (w_api_key w)); cbn [negb]; [|done].
  destruct (str_truthy user_input); cbn [negb]; [|done].
  assert (H1 : Observations.chat_messages_only (after_send env user_input s))
    by (apply chat_only_append; [apply chat_message_user | done]).
  destruct (ce_created env) as [r|msg]; [|done].
  assert (H2 : Observations.chat_messages_only
                 (after_create r (after_send env user_input s)))
    by (by eapply chat_only_same_store).
  destruct (metadata r) as [md|]; [|done].
  destruct (poll_task_status _ _) as [[[t|]|] evs]; cbn [fst state_of]; try done.
  by apply chat_only_record_completion.
Qed.

Lemma chat_only_perform s a :
  Observations.chat_messages_only s -> Observations.chat_messages_only (perform s a).
Proof.
  intros Hs. destruct a as [w env u|now|now idx| |w svc files|k]; cbn; try done.
  - by apply chat_only_chat_turn.
  - unfold new_chat. cbn.
    apply (chat_only_alloc [] (save_conversation_to_history now s));
      [constructor | by apply chat_only_save].
  - unfold load_conversation. destruct (_ !! idx); [|done].
    eapply chat_only_same_store; [done | by apply chat_only_save].
  - eapply chat_only_same_store; [|exact Hs].
    apply process_all_uploads_core.
Qed.

Lemma chat_only_session acts : Observations.chat_messages_only (run_session acts).
Proof.
  unfold run_session.
  assert (H0 : Observations.chat_messages_only initial_state)
    by (apply Forall_singleton; constructor).
  revert H0. generalize initial_state as s.
  induction acts as [|a acts IH]; intros s Hs; [done|].
  cbn [fold_left]. by apply IH, chat_only_perform.
Qed.

Lemma chat_message_txt_step acc m :
  Observations.chat_message m -> is_Some (txt_step (Some acc) m).
Proof.
  intros ([Hr | Hr] & [c Hc] & _); unfold txt_step, upper_role;
    rewrite Hr, Hc; by eexists.
Qed.

Lemma chat_message_markdown_step acc m :
  Observations.chat_message m -> is_Some (markdown_step (Some acc) m).
Proof.
  intros ([Hr | Hr] & [c Hc] & [t Ht]); unfold markdown_step, upper_role;
    rewrite Hr, Hc, Ht; by eexists.
Qed.

Lemma chat_messages_export ms :
  Forall Observations.chat_message ms ->
  forall fmt, is_Some (export_conversation_history ms fmt).
Proof.
  intros H fmt. unfold export_conversation_history.
  destruct (String.eqb fmt "json"); [by eexists|].
  destruct (String.eqb fmt "markdown").
  - generalize ("# Manus AI Conversation History" +:+ newline +:+ newline) as acc.
    induction H as [|m ms Hm _ IH]; intros acc; [by eexists|].
    cbn [fold_left].
    destruct (chat_message_markdown_step acc m Hm) as [acc' ->]. apply IH.
  - destruct (String.eqb fmt "txt"); [|by eexists].
    generalize "" as acc.
    induction H as [|m ms Hm _ IH]; intros acc; [by eexists|].
    cbn [fold_left].
    destruct (chat_message_txt_step acc m Hm) as [acc' ->]. apply IH.
Qed.

(** X25. Whatever the user does in a session, every message of every
    conversation the session holds (the current one and the saved ones) has
    the role [user] or [assistant], a string content and a string timestamp;
    so [export_conversation_history] produces a text for each of them in
    every format and never fails on a key. *)
Theorem session_conversations_export (acts : list action) (l : loc) :
  let s := run_session acts in
  Forall Observations.chat_message (deref s l)
  /\ forall fmt, is_Some (export_conversation_history (deref s l) fmt).
Proof.
  cbv zeta.
  pose proof (chat_only_deref _ l (chat_only_session acts)) as H.
  split; [exact H | by apply chat_messages_export].
Qed.

End ExportTextFacts.

(* --------------------------------------------------------------------- *)
(** ** [export_to_json] and the decoder *)
(* --------------------------------------------------------------------- *)

Section CompactJsonFacts.
Import Py Json.

Lemma closed_no_digit rest : JsonCompact.closed rest -> no_digit_ahead rest.
Proof. destruct rest as [|c r]; [done|]. by intros [-> | [-> | ->]]. Qed.

Lemma closed_no_float rest : JsonCompact.closed rest -> continues_number rest = false.
Proof. destruct rest as [|c r]; [done|]. by intros [-> | [-> | ->]]. Qed.

Lemma scan_number_encode_closed n rest :
  JsonCompact.closed rest -> scan_number (encode_int n ++ rest) = Some (VInt n, rest).
Proof.
  intros D. unfold scan_number, encode_int.
  pose proof (DecimalZ.of_to n) as R.
  destruct n as [|p|p]; cbn [Z.to_int] in *.
  - change (scan_integer (encode_uint Decimal.zero ++ rest))
      with (Some (Decimal.Pos Decimal.zero, rest)).
    cbv beta iota. by rewrite closed_no_float.
  - destruct (scan_integer_encode (Pos.to_uint p) rest) as [-> _];
      [apply to_uint_leading | by apply closed_no_digit |].
    cbv beta iota. by rewrite closed_no_float, R.
  - cbn [app].
    destruct (scan_integer_encode (Pos.to_uint p) rest) as [_ ->];
      [apply to_uint_leading | by apply closed_no_digit |].
    cbv beta iota. by rewrite closed_no_float, R.
Qed.

Lemma compact_encode_head v :
  exists c t, JsonCompact.encode v = c :: t /\ opens_value c.
Proof.
  destruct v as [|[]|n|s|[|x xs]|[|kx kxs]]; try by eexists _, _.
  unfold JsonCompact.encode, encode_int. destruct n as [|p|p]; cbn [Z.to_int].
  - by eexists _, _.
  - apply encode_uint_head, to_uint_leading.
  - by eexists _, _.
Qed.

Lemma compact_skip_ws_value v t :
  skip_ws (JsonCompact.encode v ++ t) = JsonCompact.encode v ++ t.
Proof.
  destruct (compact_encode_head v) as (c & u & -> & W & _).
  cbn [app skip_ws]. by rewrite W.
Qed.

Lemma compact_encode_list_cons x xs rest :
  JsonCompact.encode (VList (x :: xs)) ++ rest
  = "["%char :: JsonCompact.encode x
    ++ JsonCompact.more_items xs ++ "]"%char :: rest.
Proof.
  cbn [JsonCompact.encode]. unfold JsonCompact.more_items.
  rewrite <- !app_comm_cons, <- !app_assoc. done.
Qed.

Lemma compact_encode_dict_cons k x kxs rest :
  JsonCompact.encode (VDict ((k, x) :: kxs)) ++ rest
  = "{"%char :: encode_string k ++ chars ": " ++ JsonCompact.encode x
    ++ JsonCompact.more_members kxs ++ "}"%char :: rest.
Proof.
  cbn [JsonCompact.encode fst snd]. unfold JsonCompact.more_members.
  rewrite <- !app_comm_cons, <- !app_assoc. done.
Qed.

Lemma closed_more_items xs t :
  JsonCompact.closed (JsonCompact.more_items xs ++ "]"%char :: t).
Proof. destruct xs; cbn; auto. Qed.

Lemma closed_more_members kxs t :
  JsonCompact.closed (JsonCompact.more_members kxs ++ "}"%char :: t).
Proof. destruct kxs; cbn; auto. Qed.

Section CompactNested.
Variable bound : nat.
Hypothesis scan_smaller :
  forall fuel : nat, (fuel < bound)%nat ->
  forall v rest,
    (size v < fuel)%nat -> dict_keys_distinct v -> JsonCompact.closed rest ->
    scan_value fuel (JsonCompact.encode v ++ rest) = Some (v, rest).

Lemma compact_scan_items_encode xs : forall x (fuel : nat) rest,
  (fuel <= bound)%nat ->
  (items_size (x :: xs) < fuel)%nat ->
  items_distinct (x :: xs) ->
  scan_items fuel
    (JsonCompact.encode x ++ JsonCompact.more_items xs ++ "]"%char :: rest)
  = Some (x :: xs, rest).
Proof.
  induction xs as [|y ys IH]; intros x fuel rest Hb Hs [Hx Hd];
    (destruct fuel as [|fuel]; [cbn in Hs; lia|]);
    unfold items_size in Hs; cbn [map list_sum fold_right] in Hs;
    rewrite scan_items_step;
    (rewrite scan_smaller; [| lia | lia | done | apply closed_more_items]).
  - reflexivity.
  - unfold JsonCompact.more_items at 1. cbn [map concat].
    fold (JsonCompact.more_items ys).
    rewrite <- !app_assoc. cbn [app chars list_ascii_of_string].
    change (skip_ws ("," :: ?t))%char with ("," :: t)%char.
    cbv beta iota.
    change (N_of_ascii "," =? 93)%N with false.
    change (N_of_ascii "," =? 44)%N with true. cbv beta iota.
    change (skip_ws (" " :: ?t))%char with (skip_ws t).
    rewrite compact_skip_ws_value.
    rewrite (IH y fuel rest); [done | lia | | done].
    unfold items_size. cbn [map list_sum fold_right]. lia.
Qed.

Lemma compact_scan_members_encode kxs : forall k x (fuel : nat) rest,
  (fuel <= bound)%nat ->
  (members_size ((k, x) :: kxs) < fuel)%nat ->
  members_distinct ((k, x) :: kxs) ->
  scan_members fuel
    (encode_string k ++ chars ": " ++ JsonCompact.encode x
     ++ JsonCompact.more_members kxs ++ "}"%char :: rest)
  = Some ((k, x) :: kxs, rest).
Proof.
  induction kxs as [|[k' y] kys IH]; intros k x fuel rest Hb Hs [Hx Hd];
    (destruct fuel as [|fuel]; [cbn in Hs; lia|]);
    unfold members_size in Hs; cbn [map list_sum fold_right snd] in Hs;
    rewrite scan_members_head, compact_skip_ws_value;
    (rewrite scan_smaller; [| lia | lia | done | apply closed_more_members]).
  - reflexivity.
  - unfold JsonCompact.more_members at 1. cbn [map concat fst snd].
    fold (JsonCompact.more_members kys).
    rewrite <- !app_assoc.
    change (chars ", " ++ ?t) with (","%char :: " "%char :: t).
    change (skip_ws ("," :: ?t))%char with ("," :: t)%char.
    cbv beta iota.
    change (N_of_ascii "," =? 125)%N with false.
    change (N_of_ascii "," =? 44)%N with true. cbv beta iota.
    change (skip_ws (" " :: ?t))%char with (skip_ws t).
    assert (W : forall t, skip_ws (encode_string k' ++ t) = encode_string k' ++ t)
      by done.
    rewrite W, (IH k' y fuel rest); [done | lia | | done].
    unfold members_size. cbn [map list_sum fold_right snd]. lia.
Qed.

End CompactNested.

(** The decoder reads back a value the compact encoder wrote, and stops
    where the value ends. *)
Lemma compact_scan_value_encode (fuel : nat) : forall v rest,
  (size v < fuel)%nat -> dict_keys_distinct v -> JsonCompact.closed rest ->
  scan_value fuel (JsonCompact.encode v ++ rest) = Some (v, rest).
Proof.
  induction fuel as [fuel IH] using lt_wf_ind. intros v rest Hs Hd Hr.
  destruct fuel as [|fuel]; [lia|].
  destruct v as [|[]|n|s|[|x xs]|[|[k x] kxs]]; try reflexivity.
  - change (JsonCompact.encode (VInt n)) with (encode_int n).
    rewrite scan_value_number. by apply scan_number_encode_closed.
  - change (JsonCompact.encode (VStr s)) with (encode_string s).
    destruct (scan_string_encode s rest) as (t & -> & E).
    change (scan_value (S fuel) (quote :: t))
      with (match scan_string t with
            | Some (str, rest) => Some (VStr str, rest)
            | None => None
            end).
    by rewrite E.
  - rewrite compact_encode_list_cons, scan_value_list, compact_skip_ws_value.
    destruct (compact_encode_head x) as (c & u & E & _ & C & _).
    rewrite E at 1. cbn [app]. rewrite C. rewrite app_comm_cons, <- E.
    rewrite (compact_scan_items_encode (S fuel)); [done | | lia | | done].
    + intros f Hf. apply IH. lia.
    + cbn [size] in Hs. unfold items_size. lia.
  - destruct Hd as [Hk Hd].
    rewrite compact_encode_dict_cons, scan_value_dict.
    assert (W : forall t, skip_ws (encode_string k ++ t) = encode_string k ++ t)
      by done.
    rewrite W. unfold encode_string at 1. cbn [app].
    change (N_of_ascii quote =? 125)%N with false. cbv beta iota.
    change (quote :: (escape k ++ [quote]) ++ ?t) with (encode_string k ++ t).
    rewrite (compact_scan_members_encode (S fuel)); [| | lia | | done].
    + by rewrite dict_of_pairs_distinct.
    + intros f Hf. apply IH. lia.
    + cbn [size] in Hs. unfold members_size. lia.
Qed.

Lemma compact_length_more_items y ys :
  (S (length (JsonCompact.encode y) + length (JsonCompact.more_items ys))
   <= length (JsonCompact.more_items (y :: ys)))%nat.
Proof.
  unfold JsonCompact.more_items. cbn [map concat]. rewrite !length_app.
  cbn [length chars list_ascii_of_string]. lia.
Qed.

Lemma compact_length_more_members ky kys :
  (S (length (JsonCompact.encode (snd ky)) + length (JsonCompact.more_members kys))
   <= length (JsonCompact.more_members (ky :: kys)))%nat.
Proof.
  unfold JsonCompact.more_members. cbn [map concat]. rewrite !length_app.
  cbn [length chars list_ascii_of_string]. lia.
Qed.

Lemma compact_size_le_length (n : nat) : forall v,
  (size v <= n)%nat -> (size v <= length (JsonCompact.encode v))%nat.
Proof.
  induction n as [n IH] using lt_wf_ind. intros v Hn.
  assert (Hitems : forall xs, (items_size xs < n)%nat ->
            (items_size xs <= length (JsonCompact.more_items xs))%nat).
  { induction xs as [|y ys IHys]; intros H; [cbn; lia|].
    rewrite items_size_cons in *.
    pose proof (compact_length_more_items y ys).
    pose proof (IH (size y) ltac:(lia) y ltac:(lia)).
    pose proof (IHys ltac:(lia)). lia. }
  assert (Hmembers : forall kxs, (members_size kxs < n)%nat ->
            (members_size kxs <= length (JsonCompact.more_members kxs))%nat).
  { induction kxs as [|ky kys IHkys]; intros H; [cbn; lia|].
    rewrite members_size_cons in *.
    pose proof (compact_length_more_members ky kys).
    pose proof (IH (size (snd ky)) ltac:(lia) (snd ky) ltac:(lia)).
    pose proof (IHkys ltac:(lia)). lia. }
  destruct v as [|[]|m|s|[|x xs]|[|[k x] kxs]];
    try (destruct (compact_encode_head (VInt m)) as (c & t & -> & _); cbn; lia);
    try (cbn; lia).
  - pose proof (compact_encode_list_cons x xs []) as E.
    rewrite app_nil_r in E. rewrite E.
    change (size (VList (x :: xs))) with (S (items_size (x :: xs))) in *.
    rewrite items_size_cons in *.
    cbn [length]. rewrite !length_app.
    pose proof (IH (size x) ltac:(lia) x ltac:(lia)).
    pose proof (Hitems xs ltac:(lia)). cbn [length]. lia.
  - pose proof (compact_encode_dict_cons k x kxs []) as E.
    rewrite app_nil_r in E. rewrite E.
    change (size (VDict ((k, x) :: kxs)))
      with (S (members_size ((k, x) :: kxs))) in *.
    rewrite members_size_cons in *. cbn [snd] in *.
    cbn [length]. rewrite !length_app.
    pose proof (IH (size x) ltac:(lia) x ltac:(lia)).
    pose proof (Hmembers kxs ltac:(lia)). cbn [length]. lia.
Qed.

Lemma loads_compact_dumps v :
  dict_keys_distinct v -> loads (JsonCompact.dumps v) = Some v.
Proof.
  intros Hd. unfold loads, JsonCompact.dumps, chars.
  rewrite list_ascii_of_string_of_list_ascii.
  pose proof (compact_skip_ws_value v []) as W. rewrite app_nil_r in W. rewrite W.
  pose proof (compact_scan_value_encode (S (length (JsonCompact.encode v))) v []) as S.
  rewrite app_nil_r in S. rewrite S; [done | | done | done].
  pose proof (compact_size_le_length (size v) v ltac:(lia)). lia.
Qed.

(** X26. [json.loads] gives back every value [export_to_json] was given, in
    the pretty and in the compact layout alike, provided the dicts of the
    value have distinct keys (as every Python dict has): the two layouts
    denote the same data. *)
Theorem export_to_json_round_trip (data : value) (pretty : bool) :
  dict_keys_distinct data ->
  loads (Helpers.export_to_json data pretty) = Some data.
Proof.
  intros Hd. unfold Helpers.export_to_json. destruct pretty.
  - by apply loads_dumps.
  - by apply loads_compact_dumps.
Qed.

Lemma export_to_json_round_trip_witness :
  loads (Helpers.export_to_json (VList (map VDict Samples.conversation)) false)
  = Some (VList (map VDict Samples.conversation)).
Proof.
  apply (export_to_json_round_trip (VList (map VDict Samples.conversation)) false).
  apply messages_distinct.
  repeat constructor; try (apply (bool_decide_unpack _); vm_compute; exact I).
Defined.

End CompactJsonFacts.

(* --------------------------------------------------------------------- *)
(** ** The file views of [file_manager.py] *)
(* --------------------------------------------------------------------- *)

Section FileViewFacts.
Import Py FileViews.

Lemma occurrences_cons `{EqDecision K} {A} (key : A -> K) k x l :
  occurrences key k (x :: l)
  = (if decide (key x = k) then 1 else 0) + occurrences key k l.
Proof.
  unfold occurrences. rewrite filter_cons.
  destruct (decide (key x = k)); cbn [length]; lia.
Qed.

Lemma occurrences_nonneg `{EqDecision K} {A} (key : A -> K) k l :
  0 <= occurrences key k l.
Proof. unfold occurrences. lia. Qed.

Lemma tally_fold `{Countable K} {A} (key : A -> K) k l : forall d0,
  fold_left (fun d x => tally (key x) d) l d0 !! k
  = if occurrences key k l =? 0 then d0 !! k
    else Some (default 0 (d0 !! k) + occurrences key k l).
Proof.
  induction l as [|x l IH]; intros d0; [done|].
  cbn [fold_left]. rewrite IH, occurrences_cons.
  pose proof (occurrences_nonneg key k l) as N.
  unfold tally. destruct (decide (key x = k)) as [->|Hne].
  - rewrite lookup_insert_eq. cbn [default].
    replace (1 + occurrences key k l =? 0) with false
      by (symmetry; apply Z.eqb_neq; lia).
    destruct (Z.eqb_spec (occurrences key k l) 0) as [->|_];
      apply (f_equal Some); unfold id; lia.
  - by rewrite lookup_insert_ne.
Qed.

Lemma tally_total_tally `{Countable K} (k : K) (d : gmap K Z) :
  Observations.tally_total (tally k d) = Observations.tally_total d + 1.
Proof.
  unfold Observations.tally_total, tally.
  destruct (d !! k) as [n|] eqn:E.
  - rewrite <- (insert_delete_id d k n E) at 2.
    rewrite <- (insert_delete_eq d).
    rewrite !map_fold_insert_L;
      try (by rewrite lookup_delete_eq); try (intros; lia).
    cbn [default]. unfold id. lia.
  - rewrite map_fold_insert_L; try done; try (intros; lia).
    cbn [default]. unfold id. lia.
Qed.

Lemma tally_total_fold `{Countable K} {A} (key : A -> K) l : forall d0,
  Observations.tally_total (fold_left (fun d x => tally (key x) d) l d0)
  = Observations.tally_total d0 + Z.of_nat (length l).
Proof.
  induction l as [|x l IH]; intros d0; [cbn; lia|].
  cbn [fold_left length]. rewrite IH, tally_total_tally. lia.
Qed.

Lemma analyze_fold date_of files : forall a0,
  let a := fold_left (analyze_step date_of) files a0 in
  total_files a = total_files a0
  /\ total_size a = total_size a0
  /\ by_status a = fold_left (fun d f => tally (status_of f) d) files (by_status a0)
  /\ by_type a = fold_left (fun d f => tally (type_of f) d) files (by_type a0)
  /\ files_by_date a
     = fold_left (fun d f => tally (date_of (rf_created_at f)) d) files
         (files_by_date a0).
Proof.
  induction files as [|f files IH]; intros a0; [done|].
  cbn [fold_left]. exact (IH (analyze_step date_of a0 f)).
Qed.

(** X27. [analyze_files] returns the empty result exactly for no files.
    Otherwise [total_files] is the number of files, [total_size] is 0 whatever
    the files are, and each of the three breakdowns (by status, by type, by
    day) holds under a key exactly the number of files that fall under it, has
    no entry for a key under which none falls, and adds up to the number of
    files. *)
Theorem analysis_counts_every_file (date_of : Z -> Z) (files : list RemoteFile) :
  match analyze_files date_of files with
  | None => files = []
  | Some a =>
      files <> []
      /\ total_files a = Z.of_nat (length files)
      /\ total_size a = 0
      /\ (forall st, by_status a !! st
                     = Observations.tally_entry (occurrences status_of st files))
      /\ (forall ext, by_type a !! ext
                      = Observations.tally_entry (occurrences type_of ext files))
      /\ (forall day, files_by_date a !! day
                      = Observations.tally_entry
                          (occurrences (fun f => date_of (rf_created_at f)) day files))
      /\ Observations.tally_total (by_status a) = total_files a
      /\ Observations.tally_total (by_type a) = total_files a
      /\ Observations.tally_total (files_by_date a) = total_files a
  end.
Proof.
  unfold analyze_files. destruct files as [|f0 files0]; [done|].
  set (files := f0 :: files0). set (a0 := Build_Analysis _ _ _ _ _).
  destruct (analyze_fold date_of files a0) as (T & S & -> & -> & ->).
  rewrite T, S. cbn [total_files total_size by_status by_type files_by_date a0].
  unfold Observations.tally_entry.
  repeat split; try done;
    try (intros k; rewrite tally_fold, lookup_empty; cbn [default];
         by destruct (_ =? 0));
    by rewrite tally_total_fold.
Qed.

End FileViewFacts.

(* --------------------------------------------------------------------- *)
(** ** The configuration after initialisation *)
(* --------------------------------------------------------------------- *)

Section ConfigInitFacts.
Import Py Config.

(** X28. After [__post_init__] the configuration validates exactly when a
    non-empty key was given or the environment holds a non-empty
    [MANUS_API_KEY], and the two limits are in range: a key that was given
    wins over the environment, the environment stands in for a missing or
    empty one.  The default configuration validates exactly when the
    environment holds a key.  Running [__post_init__] twice changes nothing
    more, and the list of supported file types is never left unset. *)
Theorem post_init_then_validate (getenv : option string) (c : ManusConfig) :
  validate (post_init getenv c)
  = (opt_str_truthy (api_key c) || opt_str_truthy getenv)
    && (60 <=? default_timeout_seconds c) && (default_timeout_seconds c <=? 600)
    && (1 <=? default_task_limit c) && (default_task_limit c <=? max_task_limit c)
  /\ (opt_str_truthy (api_key c) = true -> api_key (post_init getenv c) = api_key c)
  /\ validate (post_init getenv field_defaults) = opt_str_truthy getenv
  /\ post_init getenv (post_init getenv c) = post_init getenv c
  /\ supported_file_types (post_init getenv c) <> None.
Proof.
  split; [|split; [|split; [|split]]].
  - unfold validate, post_init. cbn.
    destruct (opt_str_truthy (api_key c)) eqn:K; cbn [orb].
    + rewrite K. cbn [negb andb].
      destruct (Z.ltb_spec (default_timeout_seconds c) 60),
        (Z.gtb_spec (default_timeout_seconds c) 600),
        (Z.ltb_spec (default_task_limit c) 1),
        (Z.gtb_spec (default_task_limit c) (max_task_limit c)),
        (Z.leb_spec 60 (default_timeout_seconds c)),
        (Z.leb_spec (default_timeout_seconds c) 600),
        (Z.leb_spec 1 (default_task_limit c)),
        (Z.leb_spec (default_task_limit c) (max_task_limit c)); cbn; lia.
    + destruct (opt_str_truthy getenv); cbn [negb andb]; [|done].
      destruct (Z.ltb_spec (default_timeout_seconds c) 60),
        (Z.gtb_spec (default_timeout_seconds c) 600),
        (Z.ltb_spec (default_task_limit c) 1),
        (Z.gtb_spec (default_task_limit c) (max_task_limit c)),
        (Z.leb_spec 60 (default_timeout_seconds c)),
        (Z.leb_spec (default_timeout_seconds c) 600),
        (Z.leb_spec 1 (default_task_limit c)),
        (Z.leb_spec (default_task_limit c) (max_task_limit c)); cbn; lia.
  - intros K. unfold post_init. cbn. by rewrite K.
  - unfold validate, post_init. cbn. by destruct (opt_str_truthy getenv).
  - unfold post_init. cbn.
    destruct (opt_str_truthy (api_key c)) eqn:K.
    + rewrite K. by destruct (supported_file_types c).
    + assert ((if opt_str_truthy getenv then getenv else getenv) = getenv) as ->
        by (by destruct (opt_str_truthy getenv)).
      by destruct (supported_file_types c).
  - unfold post_init. cbn. by destruct (supported_file_types c).
Qed.

End ConfigInitFacts.

(* --------------------------------------------------------------------- *)
(** ** The list of the "Manage Files" tab *)
(* --------------------------------------------------------------------- *)

Section ManageTabFacts.
Import Py FileViews ManageTab.

Section StableSort.
Context {A K : Type} `{EqDecision K}.
Variable before : A -> A -> bool.
Variable key : A -> K.
Hypothesis before_total : forall x y, before x y = false -> before y x = true.
Hypothesis before_trans :
  forall x y z, before x y = true -> before y z = true -> before x z = true.
Hypothesis before_same_key : forall x y, key x = key y -> before x y = true.

Lemma insert_by_perm x l : insert_by before x l ≡ₚ x :: l.
Proof.
  induction l as [|y r IH]; [done|]. cbn.
  destruct (before x y); [done|]. rewrite IH. apply Permutation_swap.
Qed.

Lemma sorted_by_perm l : sorted_by before l ≡ₚ l.
Proof.
  induction l as [|x l IH]; [done|]. cbn. fold (sorted_by before l).
  by rewrite insert_by_perm, IH.
Qed.

Lemma insert_by_sorted x l :
  StronglySorted (fun a b => before a b = true) l ->
  StronglySorted (fun a b => before a b = true) (insert_by before x l).
Proof.
  induction 1 as [|y r Hr IH Hy]; [repeat constructor|]. cbn.
  destruct (before x y) eqn:E.
  - constructor; [by constructor|]. constructor; [done|].
    eapply Forall_impl; [exact Hy|]. intros z Hz. cbn in Hz. by eapply before_trans.
  - constructor; [exact IH|].
    rewrite insert_by_perm. constructor; [by apply before_total | exact Hy].
Qed.

Lemma insert_by_stable x l k :
  filter (fun a => key a = k) (insert_by before x l)
  = filter (fun a => key a = k) (x :: l).
Proof.
  induction l as [|y r IH]; [done|]. cbn [insert_by].
  destruct (before x y) eqn:E; [done|].
  rewrite filter_cons, IH, !filter_cons.
  destruct (decide (key y = k)) as [Hy|]; [|done].
  destruct (decide (key x = k)) as [Hx|]; [|done].
  rewrite before_same_key in E by congruence. done.
Qed.

Lemma sorted_by_stable l :
  Observations.stably_sorted before key l (sorted_by before l).
Proof.
  split.
  - induction l as [|x l IH]; [constructor|]. by apply insert_by_sorted.
  - intros k. induction l as [|x l IH]; [done|].
    cbn [sorted_by foldr]. fold (sorted_by before l).
    by rewrite insert_by_stable, !filter_cons, IH.
Qed.

End StableSort.

Lemma string_leb_trans s1 s2 s3 :
  String.leb s1 s2 = true -> String.leb s2 s3 = true -> String.leb s1 s3 = true.
Proof.
  unfold String.leb. revert s2 s3.
  induction s1 as [|c1 s1 IH]; intros [|c2 s2] [|c3 s3]; cbn; try done.
  unfold Ascii.compare.
  destruct (N.compare_spec (N_of_ascii c1) (N_of_ascii c2)) as [E12|L12|G12];
    destruct (N.compare_spec (N_of_ascii c2) (N_of_ascii c3)) as [E23|L23|G23];
    destruct (N.compare_spec (N_of_ascii c1) (N_of_ascii c3)) as [E13|L13|G13];
    try done; try lia.
  apply IH.
Qed.

Lemma string_leb_refl s : String.leb s s = true.
Proof. by destruct (String.leb_total s s). Qed.

Lemma string_leb_false s1 s2 : String.leb s1 s2 = false -> String.leb s2 s1 = true.
Proof. destruct (String.leb_total s1 s2) as [->| ->]; done. Qed.

Lemma sort_step_perm sort_by files : sort_step sort_by files ≡ₚ files.
Proof.
  unfold sort_step.
  repeat (destruct (PyStr.contains _ sort_by); [apply sorted_by_perm|]). done.
Qed.

Lemma keep_status_cons sf f r :
  keep_status sf (f :: r)
  = match rf_status f with
    | None => None
    | Some st =>
        match keep_status sf r with
        | None => None
        | Some rest => Some (if bool_decide (st ∈ sf) then f :: rest else rest)
        end
    end.
Proof. cbn [keep_status]. by destruct (rf_status f), (keep_status sf r). Qed.

Lemma keep_status_some sf files kept :
  keep_status sf files = Some kept ->
  kept = filter (Observations.status_in sf) files.
Proof.
  revert kept. induction files as [|f r IH]; intros kept.
  - by intros [= <-].
  - rewrite keep_status_cons. destruct (rf_status f) as [st|] eqn:E; [|done].
    destruct (keep_status sf r) as [rest|]; [|done]. intros [= <-].
    rewrite (IH rest eq_refl), filter_cons.
    destruct (decide (st ∈ sf)) as [Hin|Hout].
    + rewrite bool_decide_eq_true_2 by done.
      rewrite decide_True; [done|]. unfold Observations.status_in. by rewrite E.
    + rewrite bool_decide_eq_false_2 by done.
      rewrite decide_False; [done|]. unfold Observations.status_in. by rewrite E.
Qed.

Lemma keep_status_none sf files :
  keep_status sf files = None <-> Exists (fun f => rf_status f = None) files.
Proof.
  induction files as [|f r IH].
  - split; [done | by intros ?%Exists_nil].
  - rewrite keep_status_cons, Exists_cons, <- IH.
    destruct (rf_status f) as [st|]; [|by split; [left|]].
    destruct (keep_status sf r) as [rest|].
    + split; [done | by intros [|]].
    + split; [by right | done].
Qed.

Lemma search_step_filter q files :
  search_step q files = filter (Observations.search_passes q) files.
Proof.
  unfold search_step. destruct q as [|c q]; cbn [str_truthy].
  - symmetry. induction files as [|f r IH]; [done|].
    rewrite filter_cons. rewrite decide_True by (by left). by rewrite IH.
  - apply list_filter_iff. intros f. unfold Observations.search_passes.
    split; [by right | by intros [|]].
Qed.

Lemma filter_all {B} (P : B -> Prop) `{forall x, Decision (P x)} (l : list B) :
  (forall x, P x) -> filter P l = l.
Proof.
  intros HP. induction l as [|x l IH]; [done|].
  by rewrite filter_cons, decide_True, IH.
Qed.

Lemma type_step_filter tf files :
  type_step tf files = filter (Observations.type_passes tf) files.
Proof.
  unfold type_step. destruct tf as [|t tf].
  - symmetry. apply filter_all. by left.
  - apply list_filter_iff. intros f. unfold Observations.type_passes.
    split; [by right | by intros [|]].
Qed.

Lemma status_step_some sf files kept :
  status_step sf files = Some kept ->
  kept = filter (Observations.status_passes sf) files.
Proof.
  unfold status_step. destruct sf as [|s sf].
  - intros [= <-]. symmetry. apply filter_all. by left.
  - intros ->%keep_status_some. apply list_filter_iff. intros f.
    unfold Observations.status_passes. split; [by right | by intros [|]].
Qed.

(** What the three filters keep, before the sort. *)
Lemma shown_files_filtered q sf tf sort_by data shown :
  shown_files q sf tf sort_by data = Some shown ->
  shown = sort_step sort_by (filter (Observations.passes_filters q sf tf) data).
Proof.
  unfold shown_files.
  destruct (status_step sf (search_step q data)) as [kept|] eqn:E; [|done].
  cbn. intros [= <-]. apply status_step_some in E as ->.
  rewrite type_step_filter, search_step_filter, !list_filter_filter.
  f_equal. apply list_filter_iff. intros f. unfold Observations.passes_filters.
  tauto.
Qed.

(** X29. When the tab shows a list, the list holds exactly the files of the
    listing that pass the search box, the status selection and the type
    selection, each as often as the listing has it.  The tab fails instead
    exactly when a status is selected and a file that passes the search box
    has no status. *)
Theorem manage_tab_shows_the_matching_files
    (q : string) (sf tf : list string) (sort_by : string) (data : list RemoteFile) :
  (forall shown, shown_files q sf tf sort_by data = Some shown ->
     shown ≡ₚ filter (Observations.passes_filters q sf tf) data)
  /\ (shown_files q sf tf sort_by data = None
      <-> sf <> []
          /\ Exists (fun f => Observations.search_passes q f /\ rf_status f = None)
               data).
Proof.
  split.
  - intros shown ->%shown_files_filtered. apply sort_step_perm.
  - unfold shown_files, status_step. rewrite search_step_filter.
    destruct sf as [|s sf].
    + cbn. split; [done | by intros [? _]].
    + destruct (keep_status (s :: sf) _) as [kept|] eqn:E; cbn.
      * split; [done|]. intros [_ Hex].
        assert (keep_status (s :: sf)
                  (filter (Observations.search_passes q) data) = None) as Hn;
          [|congruence].
        apply keep_status_none. apply Exists_exists in Hex as (f & Hin & Hq & Hs).
        apply Exists_exists. exists f. split; [|done].
        by apply list_elem_of_filter.
      * split; [|done]. intros _. split; [done|].
        apply keep_status_none in E. apply Exists_exists in E as (f & Hin & Hs).
        apply list_elem_of_filter in Hin as [Hq Hin].
        apply Exists_exists. by exists f.
Qed.

(** X30. The list the tab shows is sorted by the first of the words
    [Newest], [Oldest], [A-Z], [Z-A] that occurs in the sort choice: by
    creation time, latest or earliest first, or by file name, ascending or
    descending; files with the same creation time, or the same name, stay in
    the order of the listing.  With any other choice (the two size choices
    among them) the files are shown in the order of the listing. *)
Theorem manage_tab_order
    (q : string) (sf tf : list string) (sort_by : string)
    (data shown : list RemoteFile) :
  shown_files q sf tf sort_by data = Some shown ->
  let kept := filter (Observations.passes_filters q sf tf) data in
  if PyStr.contains "Newest" sort_by
  then Observations.stably_sorted newest_first rf_created_at kept shown
  else if PyStr.contains "Oldest" sort_by
  then Observations.stably_sorted oldest_first rf_created_at kept shown
  else if PyStr.contains "A-Z" sort_by
  then Observations.stably_sorted a_to_z rf_filename kept shown
  else if PyStr.contains "Z-A" sort_by
  then Observations.stably_sorted z_to_a rf_filename kept shown
  else shown = kept.
Proof.
  intros ->%shown_files_filtered. cbv zeta. unfold sort_step.
  destruct (PyStr.contains "Newest" sort_by).
  { apply sorted_by_stable; unfold newest_first.
    - intros x y ?%Z.leb_gt. apply Z.leb_le. lia.
    - intros x y z ?%Z.leb_le ?%Z.leb_le. apply Z.leb_le. lia.
    - intros x y E. apply Z.leb_le. lia. }
  destruct (PyStr.contains "Oldest" sort_by).
  { apply sorted_by_stable; unfold oldest_first.
    - intros x y ?%Z.leb_gt. apply Z.leb_le. lia.
    - intros x y z ?%Z.leb_le ?%Z.leb_le. apply Z.leb_le. lia.
    - intros x y E. apply Z.leb_le. lia. }
  destruct (PyStr.contains "A-Z" sort_by).
  { apply sorted_by_stable; unfold a_to_z.
    - intros x y. apply string_leb_false.
    - intros x y z. apply string_leb_trans.
    - intros x y ->. apply string_leb_refl. }
  destruct (PyStr.contains "Z-A" sort_by).
  { apply sorted_by_stable; unfold z_to_a.
    - intros x y. apply string_leb_false.
    - intros x y z H1 H2. by eapply string_leb_trans.
    - intros x y ->. apply string_leb_refl. }
  done.
Qed.

Lemma manage_tab_order_witness :
  Observations.stably_sorted newest_first rf_created_at
    (filter (Observations.passes_filters "" ["uploaded"; "ready"] []) Samples.listing)
    [Samples.photo_file; Samples.report_file; Samples.notes_file].
Proof.
  refine (manage_tab_order "" ["uploaded"; "ready"] [] "Date (Newest)"
            Samples.listing
            [Samples.photo_file; Samples.report_file; Samples.notes_file] _).
  vm_compute. reflexivity.
Defined.

End ManageTabFacts.
